(** * gonb: kernel messages, the jpyexec executor and the gopls client

    A shallow embedding of [internal/kernel] message publishing
    (NewComposed, Publish, Reply, PromptInput, DeliverInput, PublishData,
    PublishUpdateDisplayData, jupyterStreamWriter.Write), of
    [internal/jpyexec] (the builders, Executor.Exec, Executor.done, the
    interrupt subscription and the input callbacks) and of the
    connection and file functions of [goplsclient], followed by the
    properties proved about them.

    Effects are explicit: every function is a state transformer over a
    [World] (the kernel's mutable fields, the chronological trace of
    externally visible events and a tick that indexes the answers of
    the environment), and returns an [Outcome] so that Go panics and
    blocking are visible in the result. *)

From Stdlib Require Import ZArith Ascii String.
From stdpp Require Import gmap strings list.

Local Open Scope string_scope.
Local Open Scope list_scope.
Local Open Scope Z_scope.

(** ** Go values *)

Abbreviation bytes := (list Byte.byte).

(** Go [error] values: [errors.New]/[errors.Errorf] build a leaf,
    [errors.WithMessagef] wraps a cause. *)
Inductive error : Type :=
| errorString (s : string)
| withMessage (cause : error) (msg : string).

(** [err.Error()]. *)
Fixpoint Error (e : error) : string :=
  match e with
  | errorString s => s
  | withMessage c m => m +:+ ": " +:+ Error c
  end.

(** Values stored under [any] in a [MIMEMap]. *)
Inductive any : Type :=
| anyNil
| anyString (s : string)
| anyBytes (b : bytes)
| anyBool (b : bool)
| anyInt (z : Z).

(** The [%T] verb of package fmt on such a value. *)
Definition typeName (v : any) : string :=
  match v with
  | anyNil => "<nil>"
  | anyString _ => "string"
  | anyBytes _ => "[]uint8"
  | anyBool _ => "bool"
  | anyInt _ => "int"
  end.

(** [MIMEMap = map[string]any]; [None] is the nil map, which reads as
    an empty map but is a different value. *)
Abbreviation MIMEMap := (option (gmap string any)).

(** [bundle[key]] with the comma-ok form: nil maps have no keys. *)
Definition mimeLookup (bundle : MIMEMap) (key : string) : option any :=
  match bundle with
  | None => None
  | Some m => m !! key
  end.

Record Data : Type := mkData {
  Data_Data : MIMEMap;
  Data_Metadata : MIMEMap;
  Data_Transient : MIMEMap
}.

(** ** Envelopes *)

Record zmqMsgHeader : Type := mkHeader {
  MsgID : string;
  Username : string;
  Session : string;
  MsgType : string;
  ProtocolVersion : string;
  Timestamp : string
}.

(** The payloads that the functions below put in [ComposedMsg.Content]. *)
Inductive content : Type :=
| contentNil
| contentMap (m : gmap string any)
| contentDisplay (data metadata transient : MIMEMap)
| contentExecuteResult (execCount : Z) (metadata data transient : MIMEMap)
| contentStream (name text : string).

Record ComposedMsg : Type := mkComposed {
  Header : zmqMsgHeader;
  ParentHeader : zmqMsgHeader;
  Metadata : MIMEMap;
  Content : content
}.

(** The zero value [ComposedMsg{}]. *)
Definition zeroHeader : zmqMsgHeader :=
  mkHeader EmptyString EmptyString EmptyString EmptyString EmptyString EmptyString.
Definition zeroComposed : ComposedMsg :=
  mkComposed zeroHeader zeroHeader None contentNil.

Definition setContent (c : content) (msg : ComposedMsg) : ComposedMsg :=
  mkComposed (Header msg) (ParentHeader msg) (Metadata msg) c.

(** [MessageImpl]; the [kernel] back-reference is the kernel of the
    [World] the function runs in. *)
Record MessageImpl : Type := mkMessage {
  err : option error;
  Composed : ComposedMsg;
  Identities : list bytes
}.

(** A value of the interface type [Message]: nil or a [*MessageImpl]. *)
Abbreviation Message := (option MessageImpl).

(** [OnInputFn] values are closures; they are named by a handle and run
    by the environment ([callOnInput] below). *)
Inductive OnInputFn : Type := onInputFn (closure : nat).

(** ** Processes, handles and signals *)

Definition Pid := nat.
Definition Handle := nat.
Definition SubscriptionId := nat.

Inductive Signal : Type := SIGINT | SIGKILL.

(** Whom a signal reaches: [os.Process.Signal] is kill(pid), one
    process; a whole group would be kill(-pgid). *)
Inductive SignalTarget : Type :=
| ToProcess (pid : Pid)
| ToProcessGroup (pgid : Pid).

Inductive Socket : Type := ShellSocket | IOPubSocket | StdinSocket.

Inductive Severity : Type := Info | Warning | ErrorLevel.

(** [io.Writer] sinks of the executor. *)
Inductive Writer : Type :=
| jupyterStreamWriter (stream : string) (msg : Message)
| externalWriter (w : nat).

(** Goroutines started by the executor. *)
Inductive Task : Type :=
| copyStream (dst : Writer) (src : Handle)
| schedulePrompt (milliseconds : Z) (password : bool)
| writeStaticInput (stdin : Handle) (data : bytes).

(** Externally visible events, in the order they happen. *)
Inductive Event : Type :=
| EvLog (level : Severity) (format : string)
| EvSend (socket : Socket) (msg : ComposedMsg) (frames : list bytes)
| EvSignal (target : SignalTarget) (sig : Signal)
| EvWait (nanoseconds : Z)
| EvClose (h : Handle)
| EvCloseChan
| EvGo (task : Task)
| EvProgramStart
| EvProgramFinished.

(** ** The kernel *)

(** The closure registered by [Exec] with [SubscribeInterrupt]: it
    captures the started command and the variable [interruptId]. *)
Inductive InterruptFn : Type := execInterrupt (process : Pid).

(** Modelled from the spec: the [Kernel] struct is declared in a file
    that is not part of the sources at hand.  Its fields are the ones
    the code reads and writes ([ExecCounter], [KnownBlockIds],
    [stdinMsg], [stdinFn], [Interrupted]) and, for interrupts, the
    registry "id -> callback" of the data model, with the counter that
    hands out ids. *)
Record Kernel : Type := mkKernel {
  ExecCounter : Z;
  KnownBlockIds : gset string;
  stdinMsg : option MessageImpl;
  stdinFn : option OnInputFn;
  Interrupted : bool;
  subscriptions : gmap SubscriptionId InterruptFn;
  nextSubscription : SubscriptionId
}.

Record World : Type := mkWorld {
  kernel : Kernel;
  trace : list Event;
  tick : nat
}.

(** ** Outcomes and the state monad *)

Inductive Outcome (A : Type) : Type :=
| Returned (a : A)
| Panicked (reason : string)
| Blocked.
Arguments Returned {A} a.
Arguments Panicked {A} reason.
Arguments Blocked {A}.

Definition M (S A : Type) : Type := S -> Outcome A * S.

Definition ret {S A : Type} (a : A) : M S A := fun s => (Returned a, s).

Definition bind {S A B : Type} (m : M S A) (k : A -> M S B) : M S B :=
  fun s =>
    match m s with
    | (Returned a, s') => k a s'
    | (Panicked r, s') => (Panicked r, s')
    | (Blocked, s') => (Blocked, s')
    end.

Definition panic {S A : Type} (reason : string) : M S A :=
  fun s => (Panicked reason, s).

Definition modify {S : Type} (f : S -> S) : M S unit :=
  fun s => (Returned tt, f s).

Definition gets {S A : Type} (f : S -> A) : M S A :=
  fun s => (Returned (f s), s).

Declare Scope go_scope.
Delimit Scope go_scope with go.
Notation "x <- c1 ;; c2" := (bind c1 (fun x => c2))
  (at level 100, c1 at next level, right associativity) : go_scope.
Notation "c1 ;; c2" := (bind c1 (fun _ => c2))
  (at level 100, right associativity) : go_scope.

(** The panic of a method call through a nil interface or pointer. *)
Definition nilDereference : string :=
  "runtime error: invalid memory address or nil pointer dereference".

(** ** The environment *)

(** What the code obtains from outside the repository, indexed by the
    tick at which it asks: the clock and [uuid.NewV4] used by
    [NewComposed], [Kernel.ToWireMsg] (signing and serialisation,
    declared with the kernel), [zmq4.Socket.SendMulti], the klog
    verbosity, the [%q] verb and the bodies of [OnInputFn] closures. *)
Record Env : Type := mkEnv {
  verbosity : nat;
  protocolVersion : string;
  timeNow : nat -> string;
  uuidNewV4 : nat -> error + string;
  ToWireMsg : ComposedMsg -> error + list bytes;
  SendMulti : nat -> Socket -> list bytes -> option error;
  quote : string -> string;
  callOnInput : OnInputFn -> MessageImpl -> MessageImpl -> M World (option error)
}.

Definition emit (e : Event) (w : World) : World :=
  mkWorld (kernel w) (trace w ++ [e]) (tick w).

Definition nextTick (w : World) : World :=
  mkWorld (kernel w) (trace w) (S (tick w)).

Definition setKernel (k : Kernel) (w : World) : World :=
  mkWorld k (trace w) (tick w).

(** ** Package kernel: messages *)

Section KernelMessages.
Context (env : Env).
Local Open Scope go_scope.

(** [klog.Infof], [klog.Warningf], [klog.Errorf]: the trace keeps the
    severity and the format string. *)
Definition klog (level : Severity) (format : string) : M World unit :=
  modify (emit (EvLog level format)).

(** [klog.V(n).Infof]. *)
Definition klogV (n : nat) (format : string) : M World unit :=
  if (n <=? verbosity env)%nat then klog Info format else ret tt.

(** [NewComposed]: the envelope is returned also when [uuid.NewV4]
    fails, then without a message id. *)
Definition NewComposed (msgType : string) (parent : ComposedMsg)
  : M World (ComposedMsg * option error) :=
  fun w =>
    let header (id : string) :=
      mkHeader id
               (Username (Header parent))
               (Session (Header parent))
               msgType
               (protocolVersion env)
               (timeNow env (tick w)) in
    let msg (id : string) :=
      mkComposed (header id) (Header parent) None contentNil in
    match uuidNewV4 env (tick w) with
    | inl e => (Returned (msg EmptyString, Some e), nextTick w)
    | inr u => (Returned (msg u, None), nextTick w)
    end.

(** [MessageImpl.sendMessage]: the frames are the identities, the
    delimiter and the wire parts; the trace records the call of
    [SendMulti], whose answer is the environment's. *)
Definition sendMessage (m : MessageImpl) (socket : Socket) (msg : ComposedMsg)
  : M World (option error) :=
  fun w =>
    match ToWireMsg env msg with
    | inl e => (Returned (Some e), w)
    | inr msgParts =>
        let frames :=
          Identities m ++ [list_byte_of_string "<IDS|MSG>"] ++ msgParts in
        (Returned (SendMulti env (tick w) socket frames),
         nextTick (emit (EvSend socket msg frames) w))
    end.

(** [SyncSocket.RunLocked]: exclusive access to one socket around one
    send; in a sequential run it only calls its argument. *)
Definition RunLocked (socket : Socket) (fn : Socket -> M World (option error))
  : M World (option error) :=
  fn socket.

(** [MessageImpl.Publish]. *)
Definition Publish (m : MessageImpl) (msgType : string) (c : content)
  : M World (option error) :=
  r <- NewComposed msgType (Composed m) ;;
  match snd r with
  | Some e => ret (Some e)
  | None =>
      klogV 1 "[IOPub] Publish message %q -- parent msg_id=%q" ;;
      RunLocked IOPubSocket (fun socket => sendMessage m socket (setContent c (fst r)))
  end.

(** [MessageImpl.Reply]. *)
Definition Reply (m : MessageImpl) (msgType : string) (c : content)
  : M World (option error) :=
  r <- NewComposed msgType (Composed m) ;;
  match snd r with
  | Some e => ret (Some e)
  | None =>
      klogV 1 "[Shell] Reply message %q, parent msg_id=%q" ;;
      RunLocked ShellSocket (fun shell => sendMessage m shell (setContent c (fst r)))
  end.

Definition registerInput (m : MessageImpl) (onInput : option OnInputFn) (k : Kernel)
  : Kernel :=
  mkKernel (ExecCounter k) (KnownBlockIds k) (Some m) onInput
           (Interrupted k) (subscriptions k) (nextSubscription k).

(** [MessageImpl.PromptInput]; [onInput] is a func value and may be nil. *)
Definition PromptInput (m : MessageImpl) (prompt : string) (password : bool)
    (onInput : option OnInputFn) : M World (option error) :=
  klogV 1 "MessageImpl.PromptInput(%q, %v)" ;;
  r <- NewComposed "input_request" (Composed m) ;;
  match snd r with
  | Some e =>
      ret (Some (withMessage e "MessageImpl.PromptInput(): creating an input_request message"))
  | None =>
      let inputRequest :=
        setContent (contentMap (<["prompt" := anyString prompt]>
                                 (<["password" := anyBool password]> ∅)))
                   (fst r) in
      klogV 1 "Stdin(%v) input request" ;;
      e <- RunLocked StdinSocket (fun socket => sendMessage m socket inputRequest) ;;
      match e with
      | Some e =>
          ret (Some (withMessage e "MessageImpl.PromptInput(): sending input_request message"))
      | None =>
          modify (fun w => setKernel (registerInput m onInput (kernel w)) w) ;;
          ret None
      end
  end.

(** [MessageImpl.CancelInput]. *)
Definition CancelInput (m : MessageImpl) : M World (option error) :=
  klogV 1 "MessageImpl.CancelInput()" ;;
  ret None.

(** [MessageImpl.DeliverInput]: calling a nil func value panics. *)
Definition DeliverInput (m : MessageImpl) : M World (option error) :=
  klogV 1 "MessageImpl.DeliverInput()" ;;
  k <- gets kernel ;;
  match stdinMsg k with
  | None => ret None
  | Some original =>
      match stdinFn k with
      | None => panic nilDereference
      | Some fn => callOnInput env fn original m
      end
  end.

Definition EnsureMIMEMap (bundle : MIMEMap) : MIMEMap :=
  match bundle with
  | None => Some ∅
  | Some m => Some m
  end.

(** [LogDisplayData]: one Info line per entry of the map. *)
Definition logEntryFormat (v : any) : string :=
  match v with
  | anyString _ => "Data[%s]=%q"
  | anyBytes _ => "Data[%s]=...%d bytes..."
  | _ => "Data[%s]: unknown type %t"
  end.

Definition LogDisplayData (data : MIMEMap) : M World unit :=
  modify (fun w =>
    foldl (fun w kv => emit (EvLog Info (logEntryFormat (snd kv))) w) w
          (match data with None => [] | Some m => map_to_list m end)).

(** [PublishExecuteResult]. *)
Definition PublishExecuteResult (msg : Message) (data : Data) : M World (option error) :=
  match msg with
  | None => panic nilDereference
  | Some m =>
      k <- gets kernel ;;
      Publish m "execute_result"
        (contentExecuteResult (ExecCounter k)
           (EnsureMIMEMap (Data_Metadata data)) (Data_Data data)
           (EnsureMIMEMap (Data_Transient data)))
  end.

(** [PublishDisplayData]. *)
Definition PublishDisplayData (msg : Message) (data : Data) : M World (option error) :=
  match msg with
  | None => ret None
  | Some m =>
      Publish m "display_data"
        (contentDisplay (Data_Data data)
           (EnsureMIMEMap (Data_Metadata data))
           (EnsureMIMEMap (Data_Transient data)))
  end.

(** [PublishData]: the [execute_request] branch is commented out in the
    source, so the body is the logging and the call below. *)
Definition PublishData (msg : Message) (data : Data) : M World (option error) :=
  (if (1 <=? verbosity env)%nat then LogDisplayData (Data_Data data) else ret tt) ;;
  PublishDisplayData msg data.

Definition insertKnownBlockId (displayId : string) (k : Kernel) : Kernel :=
  mkKernel (ExecCounter k) ({[displayId]} ∪ KnownBlockIds k) (stdinMsg k) (stdinFn k)
           (Interrupted k) (subscriptions k) (nextSubscription k).

(** [PublishUpdateDisplayData]. *)
Definition PublishUpdateDisplayData (msg : Message) (data : Data)
  : M World (option error) :=
  (if (1 <=? verbosity env)%nat then LogDisplayData (Data_Data data) else ret tt) ;;
  match mimeLookup (Data_Transient data) "display_id" with
  | None =>
      ret (Some (errorString
        "PublishUpdateDisplayData without a Trasient[display_id] set!?"))
  | Some (anyString displayId) =>
      match msg with
      | None => panic nilDereference
      | Some m =>
          k <- gets kernel ;;
          msgType <-
            (if decide (displayId ∈ KnownBlockIds k)
             then ret "update_display_data"
             else modify (fun w => setKernel (insertKnownBlockId displayId (kernel w)) w) ;;
                  ret "display_data") ;;
          Publish m msgType
            (contentDisplay (Data_Data data)
               (EnsureMIMEMap (Data_Metadata data))
               (Data_Transient data))
      end
  | Some displayIdAny =>
      ret (Some (errorString
        ("PublishUpdateDisplayData call with a Trasient[display_id] that is not string, instead "
         +:+ typeName displayIdAny +:+ "!?")))
  end.

Definition StreamStdout : string := "stdout".
Definition StreamStderr : string := "stderr".

(** [PublishWriteStream]. *)
Definition PublishWriteStream (msg : Message) (stream data : string)
  : M World (option error) :=
  match msg with
  | None => klog Info "PublishWriteStream(nil, %s): %q" ;; ret None
  | Some m => Publish m "stream" (contentStream stream data)
  end.

(** [jupyterStreamWriter.Write]; the result is [(n, err)]. *)
Definition Write (stream : string) (msg : Message) (p : bytes)
  : M World (Z * option error) :=
  let data := string_of_list_byte p in
  e <- PublishWriteStream msg stream data ;;
  (match e with
   | Some _ => klog ErrorLevel "Failed to stream %d bytes of data to stream %q: %+v"
   | None => ret tt
   end) ;;
  ret (Z.of_nat (length p), None).

(** Modelled from the spec: [Kernel.SubscribeInterrupt] and
    [Kernel.UnsubscribeInterrupt] are declared with the kernel; the
    registry maps a fresh id to the callback, and unsubscribing removes
    the id. *)
Definition SubscribeInterrupt (fn : InterruptFn) : M World SubscriptionId :=
  fun w =>
    let k := kernel w in
    let id := nextSubscription k in
    (Returned id,
     setKernel (mkKernel (ExecCounter k) (KnownBlockIds k) (stdinMsg k) (stdinFn k)
                         (Interrupted k) (<[id := fn]> (subscriptions k)) (S id)) w).

Definition UnsubscribeInterrupt (id : SubscriptionId) : M World unit :=
  modify (fun w =>
    let k := kernel w in
    setKernel (mkKernel (ExecCounter k) (KnownBlockIds k) (stdinMsg k) (stdinFn k)
                        (Interrupted k) (delete id (subscriptions k))
                        (nextSubscription k)) w).

End KernelMessages.

(** ** Package jpyexec: the executor *)

Definition newline : string := String (ascii_of_nat 10) EmptyString.

(** [*osexec.Cmd]: what [osexec.Command] builds, and the started
    process once [Start] has succeeded. *)
Record Cmd : Type := mkCmd {
  Path : string;
  Args : list string;
  Dir : string;
  Process : option Pid
}.

(** A [chan struct{}] variable: nil, open or closed. *)
Inductive chanState : Type := chanNil | chanOpen | chanClosed.

(** The configuration fields of [Executor], set by [New] and the
    builder methods; [commsHandler] is an interface value, nil or a
    handler that lives outside the package. *)
Record Config : Type := mkConfig {
  Msg : Message;
  executionCount : Z;
  command : string;
  args : list string;
  dir : string;
  useNamedPipes : bool;
  commsHandler : option nat;
  stdinContent : option bytes;
  millisecondsToInput : Z;
  inputPassword : bool
}.

(** [Executor]: the configuration, the two sinks (which [Exec] fills
    in when they are nil) and the state of the execution.  [muDone] is
    true while the mutex is held.  The named-pipe fields belong to
    [handleNamedPipes], which is declared in another file. *)
Record Executor : Type := mkExecutor {
  config : Config;
  stdoutWriter : option Writer;
  stderrWriter : option Writer;
  cmd : option Cmd;
  cmdStdout : option Handle;
  cmdStderr : option Handle;
  cmdStdin : option Handle;
  isDone : bool;
  doneChan : chanState;
  muDone : bool
}.

(** [New]. *)
Definition New (msg : Message) (command : string) (args : list string) : Executor :=
  mkExecutor (mkConfig msg (-1) command args EmptyString false None None (-1) false)
             None None None None None None false chanNil false.

Definition setConfig (c : Config) (e : Executor) : Executor :=
  mkExecutor c (stdoutWriter e) (stderrWriter e) (cmd e) (cmdStdout e) (cmdStderr e)
             (cmdStdin e) (isDone e) (doneChan e) (muDone e).

(** [UseNamedPipes], [WithInputs], [WithStaticInput]. *)
Definition UseNamedPipes (handler : option nat) (e : Executor) : Executor :=
  let c := config e in
  setConfig (mkConfig (Msg c) (executionCount c) (command c) (args c) (dir c)
                      true handler (stdinContent c) (millisecondsToInput c)
                      (inputPassword c)) e.

Definition WithInputs (millisecondsWait : Z) (e : Executor) : Executor :=
  let c := config e in
  setConfig (mkConfig (Msg c) (executionCount c) (command c) (args c) (dir c)
                      (useNamedPipes c) (commsHandler c) (stdinContent c)
                      millisecondsWait false) e.

Definition WithStaticInput (input : option bytes) (e : Executor) : Executor :=
  let c := config e in
  setConfig (mkConfig (Msg c) (executionCount c) (command c) (args c) (dir c)
                      (useNamedPipes c) (commsHandler c) input
                      (millisecondsToInput c) (inputPassword c)) e.

Definition setStdoutWriter (v : option Writer) (e : Executor) : Executor :=
  mkExecutor (config e) v (stderrWriter e) (cmd e) (cmdStdout e) (cmdStderr e)
             (cmdStdin e) (isDone e) (doneChan e) (muDone e).
Definition setStderrWriter (v : option Writer) (e : Executor) : Executor :=
  mkExecutor (config e) (stdoutWriter e) v (cmd e) (cmdStdout e) (cmdStderr e)
             (cmdStdin e) (isDone e) (doneChan e) (muDone e).
Definition setCmd (v : option Cmd) (e : Executor) : Executor :=
  mkExecutor (config e) (stdoutWriter e) (stderrWriter e) v (cmdStdout e) (cmdStderr e)
             (cmdStdin e) (isDone e) (doneChan e) (muDone e).
Definition setCmdStdout (v : option Handle) (e : Executor) : Executor :=
  mkExecutor (config e) (stdoutWriter e) (stderrWriter e) (cmd e) v (cmdStderr e)
             (cmdStdin e) (isDone e) (doneChan e) (muDone e).
Definition setCmdStderr (v : option Handle) (e : Executor) : Executor :=
  mkExecutor (config e) (stdoutWriter e) (stderrWriter e) (cmd e) (cmdStdout e) v
             (cmdStdin e) (isDone e) (doneChan e) (muDone e).
Definition setCmdStdin (v : option Handle) (e : Executor) : Executor :=
  mkExecutor (config e) (stdoutWriter e) (stderrWriter e) (cmd e) (cmdStdout e)
             (cmdStderr e) v (isDone e) (doneChan e) (muDone e).
Definition setIsDone (v : bool) (e : Executor) : Executor :=
  mkExecutor (config e) (stdoutWriter e) (stderrWriter e) (cmd e) (cmdStdout e)
             (cmdStderr e) (cmdStdin e) v (doneChan e) (muDone e).
Definition setDoneChan (v : chanState) (e : Executor) : Executor :=
  mkExecutor (config e) (stdoutWriter e) (stderrWriter e) (cmd e) (cmdStdout e)
             (cmdStderr e) (cmdStdin e) (isDone e) v (muDone e).
Definition setMuDone (v : bool) (e : Executor) : Executor :=
  mkExecutor (config e) (stdoutWriter e) (stderrWriter e) (cmd e) (cmdStdout e)
             (cmdStderr e) (cmdStdin e) (isDone e) (doneChan e) v.

(** The state [Exec] and [done] run in: the executor and the world. *)
Record ES : Type := mkES {
  exec : Executor;
  world : World
}.

Definition liftW {A : Type} (m : M World A) : M ES A :=
  fun s =>
    let r := m (world s) in
    (fst r, mkES (exec s) (snd r)).

Definition modifyExec (f : Executor -> Executor) : M ES unit :=
  modify (fun s => mkES (f (exec s)) (world s)).

Definition emitES (e : Event) : M ES unit :=
  modify (fun s => mkES (exec s) (emit e (world s))).

(** A deferred call: it runs when the body returns or panics, and its
    own panic replaces the body's; a body that never returns never
    runs it. *)
Definition withDefer {S A : Type} (deferred : M S unit) (body : M S A) : M S A :=
  fun s =>
    match body s with
    | (Returned a, s') =>
        match deferred s' with
        | (Returned _, s'') => (Returned a, s'')
        | (Panicked r, s'') => (Panicked r, s'')
        | (Blocked, s'') => (Blocked, s'')
        end
    | (Panicked r, s') =>
        match deferred s' with
        | (Returned _, s'') => (Panicked r, s'')
        | (Panicked r', s'') => (Panicked r', s'')
        | (Blocked, s'') => (Blocked, s'')
        end
    | (Blocked, s') => (Blocked, s')
    end.

(** What the operating system and the child answer during one [Exec]:
    the three pipe creations, [handleNamedPipes] (declared in another
    file of the package; only its error matters here), [cmd.Start],
    what the other goroutines and the front-end do to the world while
    [Exec] is blocked, and [cmd.Wait] once both copies have ended
    ([None]: the child never ends). *)
Record OS : Type := mkOS {
  StdoutPipe : error + Handle;
  StderrPipe : error + Handle;
  StdinPipe : error + Handle;
  handleNamedPipes : option error;
  Start : error + Pid;
  whileRunning : World -> World;
  Wait : option (option error)
}.

Definition pipeHandle (r : error + Handle) : option Handle :=
  match r with
  | inl _ => None
  | inr h => Some h
  end.

Section Executor.
Context (env : Env).
Local Open Scope go_scope.

(** [x.Close()] on an [io.Closer] field; the returned error is dropped
    by every caller below. *)
Definition closeHandle (h : option Handle) : M ES unit :=
  match h with
  | None => panic nilDereference
  | Some h => emitES (EvClose h)
  end.

(** The statements of [done] after the test of [isDone]. *)
Inductive doneStmt : Type :=
| SetIsDone
| CancelPrompt
| CloseStdin
| CloseDoneChan
| CloseStderr
| CloseStdout
| NotifyFinished.

Definition doneBody : list doneStmt :=
  [SetIsDone; CancelPrompt; CloseStdin; CloseDoneChan; CloseStderr; CloseStdout;
   NotifyFinished].

Definition runStmt (s : doneStmt) : M ES unit :=
  e <- gets exec ;;
  match s with
  | SetIsDone => modifyExec (setIsDone true)
  | CancelPrompt =>
      if 0 <? millisecondsToInput (config e) then
        match Msg (config e) with
        | None => panic nilDereference
        | Some m => liftW (CancelInput env m) ;; ret tt
        end
      else ret tt
  | CloseStdin => closeHandle (cmdStdin e)
  | CloseDoneChan =>
      match doneChan e with
      | chanOpen => modifyExec (setDoneChan chanClosed) ;; emitES EvCloseChan
      | chanClosed => panic "close of closed channel"
      | chanNil => panic "close of nil channel"
      end
  | CloseStderr => closeHandle (cmdStderr e)
  | CloseStdout => closeHandle (cmdStdout e)
  | NotifyFinished =>
      if useNamedPipes (config e) then
        match commsHandler (config e) with
        | Some _ => emitES EvProgramFinished
        | None => ret tt
        end
      else ret tt
  end.

Fixpoint runStmts (l : list doneStmt) : M ES unit :=
  match l with
  | [] => ret tt
  | s :: rest => runStmt s ;; runStmts rest
  end.

(** [exec.muDone.Lock()] and [Unlock()]. *)
Definition lock : M ES unit :=
  fun s =>
    if muDone (exec s) then (Blocked, s)
    else (Returned tt, mkES (setMuDone true (exec s)) (world s)).

Definition unlock : M ES unit :=
  fun s =>
    if muDone (exec s) then (Returned tt, mkES (setMuDone false (exec s)) (world s))
    else (Panicked "sync: unlock of unlocked mutex", s).

(** [Executor.done]. *)
Definition done : M ES unit :=
  lock ;;
  withDefer unlock
    (e <- gets exec ;;
     if isDone e then ret tt else runStmts doneBody).

(** [handleJupyterInput] and [handleStaticInput] start goroutines. *)
Definition handleJupyterInput : M ES unit :=
  e <- gets exec ;;
  emitES (EvGo (schedulePrompt (millisecondsToInput (config e))
                               (inputPassword (config e)))).

Definition handleStaticInput (input : bytes) : M ES unit :=
  e <- gets exec ;;
  match cmdStdin e with
  | Some h => emitES (EvGo (writeStaticInput h input))
  | None => ret tt
  end.

Definition Second : Z := 1000000000.

(** [var WaitToKill = 5 * time.Second], in nanoseconds. *)
Definition WaitToKill : Z := 5 * Second.

(** What happens around one firing of the interrupt subscription: the
    results of the two signals, and how long after the interrupt the
    completion channel is closed ([None]: not at all).  When both cases
    of the [select] are ready at once, [preferDone] is the choice of
    the runtime. *)
Record Race : Type := mkRace {
  interruptErr : option error;
  doneAfter : option Z;
  preferDone : bool;
  killErr : option error
}.

Definition doneWins (race : Race) : bool :=
  match doneAfter race with
  | None => false
  | Some d => (d <? WaitToKill) || ((d =? WaitToKill) && preferDone race)
  end.

Definition waited (race : Race) : Z :=
  match doneAfter race with
  | None => WaitToKill
  | Some d => Z.min d WaitToKill
  end.

(** The closure that [Exec] passes to [SubscribeInterrupt]. *)
Definition onInterrupt (race : Race) (process : Pid) (interruptId : SubscriptionId)
  : M World unit :=
  modify (emit (EvSignal (ToProcess process) SIGINT)) ;;
  UnsubscribeInterrupt interruptId ;;
  (match interruptErr race with
   | Some _ => klog ErrorLevel "failed to interrupt process %s (%v): %+v"
   | None => ret tt
   end) ;;
  modify (emit (EvWait (waited race))) ;;
  if doneWins race then ret tt
  else
    modify (emit (EvSignal (ToProcess process) SIGKILL)) ;;
    match killErr race with
    | Some _ => klog ErrorLevel "failed to kill process %s (%v): %+v"
    | None => ret tt
    end.

(** Modelled from the spec: the kernel's handling of an interrupt
    request is declared with the kernel; "each callback is invoked once
    when an interrupt is requested". *)
Definition requestInterrupt (race : Race) : M World unit :=
  fun w =>
    foldl (fun r sub =>
             match r with
             | (Returned _, w') =>
                 match snd sub with
                 | execInterrupt process => onInterrupt race process (fst sub) w'
                 end
             | _ => r
             end)
          (Returned tt, w)
          (map_to_list (subscriptions (kernel w))).

(** The text that [Exec] streams when [cmd.Wait] returns an error:
    [errMsg], with the interrupt mark in front when the kernel's
    [Interrupted] flag is set. *)
Definition exitText (interrupted : bool) (e : error) : string :=
  let errMsg := Error e +:+ newline in
  if interrupted then "^C" +:+ newline +:+ errMsg else errMsg.

(** [Executor.Exec]. *)
Definition Exec (os : OS) : M ES (option error) :=
  liftW (klog Info "Executing: %s %v") ;;
  modifyExec (fun e => setDoneChan chanOpen (setIsDone false e)) ;;
  withDefer done
    (c <- gets (fun s => config (exec s)) ;;
     modifyExec (setCmd (Some (mkCmd (command c) (args c) (dir c) None))) ;;
     modifyExec (setCmdStdout (pipeHandle (StdoutPipe os))) ;;
     match StdoutPipe os with
     | inl e => ret (Some (withMessage e "failed to create pipe for stdout"))
     | inr out =>
     modifyExec (setCmdStderr (pipeHandle (StderrPipe os))) ;;
     match StderrPipe os with
     | inl e => ret (Some (withMessage e "failed to create pipe for stderr"))
     | inr errh =>
     modifyExec (setCmdStdin (pipeHandle (StdinPipe os))) ;;
     match StdinPipe os with
     | inl e => ret (Some (withMessage e "failed to create pipe for stdin"))
     | inr _ =>
     e <- gets exec ;;
     let stdout := default (jupyterStreamWriter StreamStdout (Msg c)) (stdoutWriter e) in
     let stderr := default (jupyterStreamWriter StreamStderr (Msg c)) (stderrWriter e) in
     modifyExec (setStdoutWriter (Some stdout)) ;;
     modifyExec (setStderrWriter (Some stderr)) ;;
     emitES (EvGo (copyStream stdout out)) ;;
     emitES (EvGo (copyStream stderr errh)) ;;
     (if 0 <? millisecondsToInput c then handleJupyterInput else ret tt) ;;
     named <-
       (if useNamedPipes c then
          match handleNamedPipes os with
          | Some e => ret (Some e)
          | None =>
              match commsHandler c with
              | Some _ => emitES EvProgramStart ;; ret None
              | None => ret None
              end
          end
        else ret None) ;;
     match named with
     | Some e => ret (Some e)
     | None =>
     match Start os with
     | inl e =>
         liftW (klog Warning "Failed to start command %q") ;;
         ret (Some (withMessage e
                ("failed to start to execute command " +:+ quote env (command c))))
     | inr process =>
     modifyExec (setCmd (Some (mkCmd (command c) (args c) (dir c) (Some process)))) ;;
     match Msg c with
     | None => panic nilDereference
     | Some m =>
     interruptId <- liftW (SubscribeInterrupt (execInterrupt process)) ;;
     (match stdinContent c with
      | Some input => handleStaticInput input
      | None => ret tt
      end) ;;
     match Wait os with
     | None => fun s => (Blocked, s)
     | Some exit =>
     liftW (modify (whileRunning os)) ;;
     (match exit with
      | Some e =>
          k <- liftW (gets kernel) ;;
          liftW (PublishWriteStream env (Some m) StreamStderr
                   (exitText (Interrupted k) e)) ;;
          ret tt
      | None => ret tt
      end) ;;
     liftW (UnsubscribeInterrupt interruptId) ;;
     liftW (klogV env 2 "Execution finished successfully") ;;
     ret None
     end end end end end end end).

End Executor.

(** ** Concurrent invocations of [done] *)

(** A goroutine inside [done]: before [Lock], holding the mutex before
    the test of [isDone], inside the body with the statements still to
    run, at the deferred [Unlock] (with the panic that is unwinding, if
    any), or finished.  [ran] remembers whether the goroutine went past
    the test into the body. *)
Inductive thread : Type :=
| AtLock
| AtCheck
| InBody (rest : list doneStmt)
| AtUnlock (ran : bool) (panicking : option string)
| Finished (ran : bool) (result : Outcome unit).

Record System : Type := mkSystem {
  shared : ES;
  threads : list thread
}.

Section Concurrency.
Context (env : Env).

(** One step of one goroutine on the shared state; [None] when it
    cannot move (blocked on the mutex, or finished). *)
Definition threadStep (t : thread) (s : ES) : option (thread * ES) :=
  match t with
  | AtLock =>
      match lock s with
      | (Returned _, s') => Some (AtCheck, s')
      | _ => None
      end
  | AtCheck =>
      Some (if isDone (exec s) then AtUnlock false None else InBody doneBody, s)
  | InBody [] => Some (AtUnlock true None, s)
  | InBody (st :: rest) =>
      match runStmt env st s with
      | (Returned _, s') => Some (InBody rest, s')
      | (Panicked r, s') => Some (AtUnlock true (Some r), s')
      | (Blocked, _) => None
      end
  | AtUnlock ran panicking =>
      match unlock s with
      | (Returned _, s') =>
          Some (Finished ran (match panicking with
                              | None => Returned tt
                              | Some r => Panicked r
                              end), s')
      | (Panicked r, s') => Some (Finished ran (Panicked r), s')
      | (Blocked, _) => None
      end
  | Finished _ _ => None
  end.

(** The scheduler picks goroutine [i]; a goroutine that cannot move
    leaves the system as it is. *)
Definition schedule (sys : System) (i : nat) : System :=
  match threads sys !! i with
  | Some t =>
      match threadStep t (shared sys) with
      | Some (t', s') => mkSystem s' (<[i := t']> (threads sys))
      | None => sys
      end
  | None => sys
  end.

Definition run (sched : list nat) (sys : System) : System :=
  foldl schedule sys sched.

End Concurrency.

Definition holdsLock (t : thread) : bool :=
  match t with
  | AtCheck | InBody _ | AtUnlock _ _ => true
  | _ => false
  end.

Definition ranBody (t : thread) : bool :=
  match t with
  | InBody _ => true
  | AtUnlock ran _ => ran
  | Finished ran _ => ran
  | _ => false
  end.

Definition skipped (t : thread) : bool :=
  match t with
  | AtUnlock ran _ => negb ran
  | Finished ran _ => negb ran
  | _ => false
  end.

Definition isFinished (t : thread) : bool :=
  match t with
  | Finished _ _ => true
  | _ => false
  end.

Definition isCloseChan (e : Event) : bool :=
  match e with
  | EvCloseChan => true
  | _ => false
  end.

Definition isProgramFinished (e : Event) : bool :=
  match e with
  | EvProgramFinished => true
  | _ => false
  end.

Fixpoint count {A : Type} (p : A -> bool) (l : list A) : nat :=
  match l with
  | [] => 0
  | x :: rest => (if p x then 1 else 0) + count p rest
  end.

(** ** Observations on traces and concrete inputs *)

Definition isLog (e : Event) : bool :=
  match e with
  | EvLog _ _ => true
  | _ => false
  end.

Definition isSend (e : Event) : bool :=
  match e with
  | EvSend _ _ _ => true
  | _ => false
  end.

(** The message types sent on the IOPub socket, in order. *)
Definition sentTypes (tr : list Event) : list string :=
  omap (fun e =>
          match e with
          | EvSend IOPubSocket msg _ => Some (MsgType (Header msg))
          | _ => None
          end) tr.

(** The envelope that [Publish] hands to [sendMessage] when the id [u]
    was drawn at tick [t]. *)
Definition envelope (env : Env) (u msgType : string) (parent : ComposedMsg)
    (c : content) (t : nat) : ComposedMsg :=
  mkComposed
    (mkHeader u (Username (Header parent)) (Session (Header parent)) msgType
              (protocolVersion env) (timeNow env t))
    (Header parent) None c.

(** The events of one [Publish] that starts at tick [t]. *)
Definition publishEvents (env : Env) (m : MessageImpl) (msgType : string)
    (c : content) (t : nat) : list Event :=
  match uuidNewV4 env t with
  | inl _ => []
  | inr u =>
      (if (1 <=? verbosity env)%nat
       then [EvLog Info "[IOPub] Publish message %q -- parent msg_id=%q"]
       else []) ++
      match ToWireMsg env (envelope env u msgType (Composed m) c t) with
      | inl _ => []
      | inr msgParts =>
          [EvSend IOPubSocket (envelope env u msgType (Composed m) c t)
                  (Identities m ++ [list_byte_of_string "<IDS|MSG>"] ++ msgParts)]
      end
  end.

(** The events of a [done] that runs its body on an executor whose
    three pipes exist. *)
Definition doneEvents (env : Env) (c : Config) (stdin stderr stdout : Handle)
  : list Event :=
  (if 0 <? millisecondsToInput c
   then if (1 <=? verbosity env)%nat
        then [EvLog Info "MessageImpl.CancelInput()"] else []
   else []) ++
  [EvClose stdin; EvCloseChan; EvClose stderr; EvClose stdout] ++
  (if useNamedPipes c
   then match commsHandler c with
        | Some _ => [EvProgramFinished]
        | None => []
        end
   else []).

(** The events of [Exec] up to the point where it blocks on the child:
    the goroutines it starts and the notification of the comms
    handler. *)
Definition setupEvents (e : Executor) (stdin stderr stdout : Handle) : list Event :=
  let c := config e in
  [EvLog Info "Executing: %s %v";
   EvGo (copyStream (default (jupyterStreamWriter StreamStdout (Msg c)) (stdoutWriter e))
                    stdout);
   EvGo (copyStream (default (jupyterStreamWriter StreamStderr (Msg c)) (stderrWriter e))
                    stderr)] ++
  (if 0 <? millisecondsToInput c
   then [EvGo (schedulePrompt (millisecondsToInput c) (inputPassword c))] else []) ++
  (if useNamedPipes c
   then match commsHandler c with
        | Some _ => [EvProgramStart]
        | None => []
        end
   else []) ++
  match stdinContent c with
  | Some input => [EvGo (writeStaticInput stdin input)]
  | None => []
  end.

(** The world in which [Exec] blocks on the child: the events above
    have happened and the interrupt subscription is registered. *)
Definition runningWorld (env : Env) (e : Executor) (stdin stderr stdout : Handle)
    (process : Pid) (w : World) : World :=
  snd (SubscribeInterrupt (execInterrupt process)
         (mkWorld (kernel w) (trace w ++ setupEvents e stdin stderr stdout) (tick w))).

(** The events of one firing of the interrupt subscription. *)
Definition interruptEvents (race : Race) (process : Pid) : list Event :=
  [EvSignal (ToProcess process) SIGINT] ++
  (match interruptErr race with
   | Some _ => [EvLog ErrorLevel "failed to interrupt process %s (%v): %+v"]
   | None => []
   end) ++
  [EvWait (waited race)] ++
  (if doneWins race then []
   else EvSignal (ToProcess process) SIGKILL ::
        match killErr race with
        | Some _ => [EvLog ErrorLevel "failed to kill process %s (%v): %+v"]
        | None => []
        end).

(** The executor and the trace after the first [n] statements of the
    body of [done], seen from a start with [c0] closings of the
    completion channel and [f0] notifications in the trace: the flag is
    set by the first statement, the channel is closed by the fourth,
    the comms handler is notified by the seventh. *)
Definition bodyState (c0 f0 : nat) (s : ES) (n : nat) : Prop :=
  isDone (exec s) = (0 <? n)%nat /\
  doneChan (exec s) = (if (4 <=? n)%nat then chanClosed else chanOpen) /\
  count isCloseChan (trace (world s)) = (c0 + (if (4 <=? n)%nat then 1 else 0))%nat /\
  (f0 <= count isProgramFinished (trace (world s)))%nat /\
  (count isProgramFinished (trace (world s)) <=
   f0 + (if (7 <=? n)%nat then 1 else 0))%nat.

(** What is known of one goroutine: inside the body it stands at some
    statement with the state that belongs to it, and the only panic
    that unwinds is the nil dereference. *)
Definition threadInv (c0 f0 : nat) (s : ES) (t : thread) : Prop :=
  match t with
  | InBody rest =>
      exists n, (n <= 7)%nat /\ rest = drop n doneBody /\ bodyState c0 f0 s n
  | AtUnlock _ (Some r) => r = nilDereference
  | Finished _ (Panicked r) => r = nilDereference
  | Finished _ Blocked => False
  | _ => True
  end.

(** The invariant of the concurrent system. *)
Record Inv (c0 f0 : nat) (sys : System) : Prop := mkInv {
  inv_lock :
    count holdsLock (threads sys) = if muDone (exec (shared sys)) then 1%nat else 0%nat;
  inv_once : (count ranBody (threads sys) <= 1)%nat;
  inv_before : count ranBody (threads sys) = 0%nat -> bodyState c0 f0 (shared sys) 0;
  inv_threads :
    forall j t, threads sys !! j = Some t -> threadInv c0 f0 (shared sys) t;
  inv_flag :
    isDone (exec (shared sys)) = false ->
    count skipped (threads sys) = 0%nat /\
    (count ranBody (threads sys) = 0%nat \/
     exists j, threads sys !! j = Some (InBody doneBody));
  inv_closes :
    (c0 <= count isCloseChan (trace (world (shared sys))) <= c0 + 1)%nat;
  inv_notified :
    (f0 <= count isProgramFinished (trace (world (shared sys))) <= f0 + 1)%nat
}.

(** The world left by the logging that opens [PublishData] and
    [PublishUpdateDisplayData]. *)
Definition logged (env : Env) (data : Data) (w : World) : World :=
  snd ((if (1 <=? verbosity env)%nat
        then LogDisplayData (Data_Data data) else ret tt) w).

(** [n] calls one after the other, each in the world left by the one
    before; the results come in call order. *)
Fixpoint calls {A : Type} (n : nat) (call : M World A) (w : World)
  : list (Outcome A) * World :=
  match n with
  | O => ([], w)
  | S n' =>
      let r := call w in
      let rest := calls n' call (snd r) in
      (fst r :: fst rest, snd rest)
  end.

(** The environment never fails to produce an id or the wire parts. *)
Definition transportOK (env : Env) : Prop :=
  (forall t, exists u, uuidNewV4 env t = inr u) /\
  (forall msg, exists parts, ToWireMsg env msg = inr parts).

(** A kernel that has just started, a request and an environment in
    which nothing fails. *)
Definition freshKernel : Kernel :=
  mkKernel 0 ∅ None None false ∅ O.

Definition freshWorld : World := mkWorld freshKernel [] O.

Definition request : MessageImpl :=
  mkMessage None
    (mkComposed (mkHeader "msg-1" "user" "session-1" "execute_request" "5.0" "now")
                zeroHeader None contentNil)
    [list_byte_of_string "client"].

Definition calmEnv : Env :=
  mkEnv O "5.0" (fun _ => "now") (fun _ => inr "id") (fun _ => inr [])
        (fun _ _ _ => None) (fun s => s) (fun _ _ _ => ret None).

Definition withDisplayId (v : any) : Data :=
  mkData (Some ∅) None (Some (<["display_id" := v]> ∅)).

(** An operating system in which the first pipe cannot be created, one
    in which the command cannot be started, and one in which the child
    runs and exits with the given result. *)
Definition noStdoutPipe (e : error) : OS :=
  mkOS (inl e) (inr 4%nat) (inr 5%nat) None (inr 100%nat) (fun w => w) (Some None).

Definition noStart (e : error) : OS :=
  mkOS (inr 3%nat) (inr 4%nat) (inr 5%nat) None (inl e) (fun w => w) (Some None).

Definition childExits (exit : option error) : OS :=
  mkOS (inr 3%nat) (inr 4%nat) (inr 5%nat) None (inr 100%nat) (fun w => w) (Some exit).

(** An executor as [Exec] leaves it before the deferred [done]: the
    three pipes exist, the completion channel is open, and a comms
    handler waits for the end of the program. *)
Definition startedExecutor : Executor :=
  mkExecutor (config (UseNamedPipes (Some 1%nat) (New (Some request) "prog" [])))
             None None (Some (mkCmd "prog" [] EmptyString (Some 100%nat)))
             (Some 3%nat) (Some 4%nat) (Some 5%nat) false chanOpen false.

(** Two goroutines call [done]: the second tries the mutex while the
    first is inside, and gets it when the first has left. *)
Definition twoTriggers : list nat :=
  [0; 1; 0; 1; 0; 0; 1; 0; 0; 0; 1; 0; 0; 0; 0; 1; 1; 1]%nat.

(** The child ignores the interrupt and never ends. *)
Definition stubborn : Race := mkRace None None false None.

(** The child ends one second after the interrupt. *)
Definition obedient : Race := mkRace None (Some Second) false None.

(** ** Further observations *)

(** The events that happened between two worlds. *)
Definition since (w w' : World) : list Event :=
  drop (length (trace w)) (trace w').

(** The sends among some events. *)
Definition sendsOf (tr : list Event) : list Event := List.filter isSend tr.

(** The stream messages among some events: stream name and text. *)
Definition streamed (tr : list Event) : list (string * string) :=
  omap (fun e =>
          match e with
          | EvSend IOPubSocket msg _ =>
              match Content msg with
              | contentStream name text => Some (name, text)
              | _ => None
              end
          | _ => None
          end) tr.

(** Writing chunk after chunk to one [jupyterStreamWriter]; the
    results come in call order. *)
Fixpoint writeAll (env : Env) (stream : string) (msg : Message) (chunks : list bytes)
    (w : World) : list (Outcome (Z * option error)) * World :=
  match chunks with
  | [] => ([], w)
  | p :: rest =>
      let r := Write env stream msg p w in
      let rs := writeAll env stream msg rest (snd r) in
      (fst r :: fst rs, snd rs)
  end.

(** What [Publish] and [Reply] have in common: one envelope, sent on
    the given socket when the id and the wire parts can be made. *)
Definition deliveryEvents (env : Env) (socket : Socket) (m : MessageImpl)
    (msgType : string) (c : content) (t : nat) : list Event :=
  match uuidNewV4 env t with
  | inl _ => []
  | inr u =>
      match ToWireMsg env (envelope env u msgType (Composed m) c t) with
      | inl _ => []
      | inr msgParts =>
          [EvSend socket (envelope env u msgType (Composed m) c t)
                  (Identities m ++ [list_byte_of_string "<IDS|MSG>"] ++ msgParts)]
      end
  end.

(** The result that goes with it. *)
Definition deliveryResult (env : Env) (socket : Socket) (m : MessageImpl)
    (msgType : string) (c : content) (t : nat) : option error :=
  match uuidNewV4 env t with
  | inl e => Some e
  | inr u =>
      match ToWireMsg env (envelope env u msgType (Composed m) c t) with
      | inl e => Some e
      | inr msgParts =>
          SendMulti env (S t) socket
            (Identities m ++ [list_byte_of_string "<IDS|MSG>"] ++ msgParts)
      end
  end.

(** An environment in which the transport is down: every send fails. *)
Definition downEnv : Env :=
  mkEnv O "5.0" (fun _ => "now") (fun _ => inr "id") (fun _ => inr [])
        (fun _ _ _ => Some (errorString "socket closed")) (fun s => s)
        (fun _ _ _ => ret None).

(** An environment in which no wire message can be built. *)
Definition muteEnv : Env :=
  mkEnv O "5.0" (fun _ => "now") (fun _ => inr "id")
        (fun _ => inl (errorString "cannot sign")) (fun _ _ _ => None) (fun s => s)
        (fun _ _ _ => ret None).

(** A message as the front-end wants it: the metadata and the
    transient map of a display or result payload are JSON objects, not
    null. *)
Definition mapsPresent (e : Event) : bool :=
  match e with
  | EvSend _ msg _ =>
      match Content msg with
      | contentDisplay _ (Some _) (Some _) => true
      | contentDisplay _ _ _ => false
      | contentExecuteResult _ (Some _) _ (Some _) => true
      | contentExecuteResult _ _ _ _ => false
      | _ => true
      end
  | _ => true
  end.

(** An environment that cannot draw the first id and works afterwards. *)
Definition hiccupEnv : Env :=
  mkEnv O "5.0" (fun _ => "now")
        (fun t => match t with O => inl (errorString "no entropy") | S _ => inr "id" end)
        (fun _ => inr []) (fun _ _ _ => None) (fun s => s) (fun _ _ _ => ret None).

(** ** Package jpyexec: the other builders and the input callbacks *)

(** [ExecutionCount], [InDir], [WithStderr], [WithStdout],
    [WithPassword]. *)
Definition ExecutionCount (n : Z) (e : Executor) : Executor :=
  let c := config e in
  setConfig (mkConfig (Msg c) n (command c) (args c) (dir c)
                      (useNamedPipes c) (commsHandler c) (stdinContent c)
                      (millisecondsToInput c) (inputPassword c)) e.

Definition InDir (d : string) (e : Executor) : Executor :=
  let c := config e in
  setConfig (mkConfig (Msg c) (executionCount c) (command c) (args c) d
                      (useNamedPipes c) (commsHandler c) (stdinContent c)
                      (millisecondsToInput c) (inputPassword c)) e.

Definition WithStderr (stderrWriter : option Writer) (e : Executor) : Executor :=
  setStderrWriter stderrWriter e.

Definition WithStdout (stdoutWriter : option Writer) (e : Executor) : Executor :=
  setStdoutWriter stdoutWriter e.

Definition WithPassword (millisecondsWait : Z) (e : Executor) : Executor :=
  let c := config e in
  setConfig (mkConfig (Msg c) (executionCount c) (command c) (args c) (dir c)
                      (useNamedPipes c) (commsHandler c) (stdinContent c)
                      millisecondsWait true) e.

(** The executor that a successful [Exec] leaves behind. *)
Definition finishedExecutor (e : Executor) (stdin stderr stdout : Handle) (process : Pid)
  : Executor :=
  let c := config e in
  mkExecutor c
    (Some (default (jupyterStreamWriter StreamStdout (Msg c)) (stdoutWriter e)))
    (Some (default (jupyterStreamWriter StreamStderr (Msg c)) (stderrWriter e)))
    (Some (mkCmd (command c) (args c) (dir c) (Some process)))
    (Some stdout) (Some stderr) (Some stdin) true chanClosed false.

(** The events of [Exec] before [cmd.Start]; [notified] tells whether
    the named pipes were set up, so that a comms handler was told of the
    start. *)
Definition beforeStart (e : Executor) (stderr stdout : Handle) (notified : bool)
  : list Event :=
  let c := config e in
  [EvLog Info "Executing: %s %v";
   EvGo (copyStream (default (jupyterStreamWriter StreamStdout (Msg c)) (stdoutWriter e))
                    stdout);
   EvGo (copyStream (default (jupyterStreamWriter StreamStderr (Msg c)) (stderrWriter e))
                    stderr)] ++
  (if 0 <? millisecondsToInput c
   then [EvGo (schedulePrompt (millisecondsToInput c) (inputPassword c))] else []) ++
  (if notified && useNamedPipes c
   then match commsHandler c with
        | Some _ => [EvProgramStart]
        | None => []
        end
   else []).

Definition isProgramStart (e : Event) : bool :=
  match e with
  | EvProgramStart => true
  | _ => false
  end.

Definition isClose (e : Event) : bool :=
  match e with
  | EvClose _ => true
  | _ => false
  end.

(** An operating system in which the named pipes cannot be set up. *)
Definition noNamedPipes (e : error) : OS :=
  mkOS (inr 3%nat) (inr 4%nat) (inr 5%nat) (Some e) (inr 100%nat) (fun w => w) (Some None).

(** An operating system in which an interrupt is requested while the
    child runs. *)
Definition interruptedRun (race : Race) (exit : option error) : OS :=
  mkOS (inr 3%nat) (inr 4%nat) (inr 5%nat) None (inr 100%nat)
       (fun w => snd (requestInterrupt race w)) (Some exit).

(** The signals among some events, in order. *)
Definition signals (tr : list Event) : list (SignalTarget * Signal) :=
  omap (fun e =>
          match e with
          | EvSignal target sig => Some (target, sig)
          | _ => None
          end) tr.

Definition isSignal (e : Event) : bool :=
  match e with
  | EvSignal _ _ => true
  | _ => false
  end.

(** The goroutines started among some events, in order. *)
Definition started (tr : list Event) : list Task :=
  omap (fun e =>
          match e with
          | EvGo task => Some task
          | _ => None
          end) tr.

(** What the teardown of [Exec] adds to the trace: log lines, closings
    and the notification of the comms handler. *)
Definition isTeardown (e : Event) : bool :=
  match e with
  | EvLog _ _ | EvClose _ | EvCloseChan | EvProgramFinished => true
  | _ => false
  end.

(** An [int64], as [time.Duration] is: arithmetic wraps around. *)
Definition wrapInt64 (z : Z) : Z := (z + 2 ^ 63) mod 2 ^ 64 - 2 ^ 63.

(** [time.Millisecond], in nanoseconds. *)
Definition Millisecond : Z := 1000000.

(** The goroutines that [writeStdinFn] starts; they are part of its
    result, in the order of the [go] statements. *)
Inductive Goroutine : Type :=
| stdinWriter (value : bytes)
| prompter.

(** The panic of a failed type assertion [x.(T)]. *)
Definition interfaceConversion : string := "interface conversion".

Section InputCallbacks.
Context (env : Env).
Local Open Scope go_scope.

(** The closure [schedulePromptFn] of [handleJupyterInput];
    [writeStdinFn] is the handle of the other closure, which it
    registers.  The mutex is unlocked by a plain statement, not by a
    deferred call. *)
Definition schedulePromptFn (writeStdinFn : OnInputFn) : M ES unit :=
  e <- gets exec ;;
  emitES (EvWait (wrapInt64 (millisecondsToInput (config e) * Millisecond))) ;;
  liftW (klogV env 2 "%d milliseconds elapsed, prompt for input") ;;
  lock ;;
  e <- gets exec ;;
  (if isDone e then ret tt
   else
     match Msg (config e) with
     | None => panic nilDereference
     | Some m =>
         liftW (PromptInput env m " " (inputPassword (config e)) (Some writeStdinFn)) ;;
         ret tt
     end) ;;
  unlock.

(** The closure [writeStdinFn]: the two type assertions have no
    comma-ok form and panic when they fail. *)
Definition writeStdinFn (original input : MessageImpl)
  : M ES (option error * list Goroutine) :=
  lock ;;
  withDefer unlock
    (e <- gets exec ;;
     if isDone e then ret (None, [])
     else
       match Content (Composed input) with
       | contentMap content =>
           match content !! "value" with
           | Some (anyString v) =>
               let value := v +:+ newline in
               liftW (klogV env 2 "stdin value: %q") ;;
               ret (None, [stdinWriter (list_byte_of_string value); prompter])
           | _ => panic interfaceConversion
           end
       | _ => panic interfaceConversion
       end).

End InputCallbacks.

(** The answer of the front-end to an input request. *)
Definition inputReply (value : any) : MessageImpl :=
  mkMessage None
    (mkComposed (mkHeader "msg-2" "user" "session-1" "input_reply" "5.0" "now")
                zeroHeader None (contentMap (<["value" := value]> ∅)))
    [list_byte_of_string "client"].

(** An executor that waits for input while its program runs. *)
Definition promptingExecutor : Executor :=
  mkExecutor (config (WithPassword 500 (New (Some request) "prog" [])))
             None None (Some (mkCmd "prog" [] EmptyString (Some 100%nat)))
             (Some 3%nat) (Some 4%nat) (Some 5%nat) false chanOpen false.

(** ** Package goplsclient *)

Module goplsclient.
Local Open Scope go_scope.

(** The rune U+2026 in a Go string: three bytes in UTF-8. *)
Definition ellipsis : string :=
  String (ascii_of_nat 226) (String (ascii_of_nat 128) (String (ascii_of_nat 166)
    EmptyString)).

Definition sliceBounds : string := "runtime error: slice bounds out of range".

(** [s[:hi]] on a string: the bound is checked. *)
Definition sliceTo (s : string) (hi : Z) : option string :=
  if (0 <=? hi) && (hi <=? Z.of_nat (String.length s))
  then Some (substring 0 (Z.to_nat hi) s)
  else None.

(** [trimString]; lengths are in bytes and [maxLen-1] is an [int]. *)
Definition trimString (s : string) (maxLen : Z) : Outcome string :=
  if Z.of_nat (String.length s) <=? maxLen then Returned s
  else
    match sliceTo s (wrapInt64 (maxLen - 1)) with
    | Some front => Returned (front +:+ ellipsis)
    | None => Panicked sliceBounds
    end.

(** [sampleRawJson]. *)
Definition sampleRawJson (content : bytes) : string :=
  if (100 <? length content)%nat
  then string_of_list_byte (take 100 content) +:+ "..."
  else string_of_list_byte content.

(** [net.Conn] values and the methods of the protocol that the client
    uses. *)
Definition Conn := nat.

Inductive Method : Type :=
| MethodInitialize
| MethodInitialized
| MethodTextDocumentDidOpen
| MethodTextDocumentDefinition
| MethodTextDocumentHover.

(** The conversion [float64(n)] of an [int]: a float64 has 53 bits of
    mantissa, so an integer of more bits is rounded to the nearest
    multiple of the power of two that makes it fit, to the even one on a
    tie.  All the values are integers and are given as such. *)
Definition float64OfInt (n : Z) : Z :=
  let a := Z.abs n in
  let e := Z.log2 a - 52 in
  if e <=? 0 then n
  else
    let q := a / 2 ^ e in
    let r := a mod 2 ^ e in
    let half := 2 ^ (e - 1) in
    let rounded :=
      if r <? half then q
      else if half <? r then q + 1
      else if Z.even q then q else q + 1 in
    Z.sgn n * (rounded * 2 ^ e).

(** The parameters sent with them; versions, lines and columns are
    [float64] fields, given by their values. *)
Inductive Params : Type :=
| InitializeParams (rootURI : string)
| InitializedParams
| DidOpenTextDocumentParams (uri : string) (version : Z) (text : string)
| TextDocumentPositionParams (uri : string) (line col : Z).

Record FileData : Type := mkFileData {
  URI : string;
  FileContent : string
}.

(** The fields of [Client] that the functions below read and write;
    the struct is declared in another file of the package.
    [fileVersions] is a Go map and may be nil.  The capabilities that
    [Connect] stores are read by no function here. *)
Record Client : Type := mkClient {
  address : string;
  dir : string;
  conn : option Conn;
  jsonConn : option Conn;
  jsonHandler : bool;
  fileVersions : option (gmap string Z)
}.

Inductive Event : Type :=
| EvDial (network addr : string)
| EvCloseConn (c : Conn)
| EvRun (c : Conn)
| EvCall (method : Method) (params : Params)
| EvNotify (method : Method) (params : Params).

Record State : Type := mkState {
  client : Client;
  trace : list Event;
  tick : nat
}.

(** What comes from outside the file, by the tick at which it is
    asked: [net.Dial], the answers of gopls to calls (an error or a
    result) and to notifications, [Client.FileData], [uri.File] and the
    [%q] verb. *)
Record Peer : Type := mkPeer {
  Dial : nat -> string -> string -> error + Conn;
  Call : nat -> Method -> Params -> error + nat;
  Notify : nat -> Method -> Params -> option error;
  fileData : nat -> string -> error + FileData;
  uriFile : string -> string;
  quote : string -> string
}.

Definition setConn (v : option Conn) (c : Client) : Client :=
  mkClient (address c) (dir c) v (jsonConn c) (jsonHandler c) (fileVersions c).
Definition setJson (v : option Conn) (c : Client) : Client :=
  mkClient (address c) (dir c) (conn c) v true (fileVersions c).
Definition setFileVersions (v : option (gmap string Z)) (c : Client) : Client :=
  mkClient (address c) (dir c) (conn c) (jsonConn c) (jsonHandler c) v.

Definition modifyClient (f : Client -> Client) : M State unit :=
  modify (fun s => mkState (f (client s)) (trace s) (tick s)).

Definition emit (e : Event) : M State unit :=
  modify (fun s => mkState (client s) (trace s ++ [e]) (tick s)).

Definition nextTick : M State nat :=
  fun s => (Returned (tick s), mkState (client s) (trace s) (S (tick s))).

Definition dquote : string := String (ascii_of_nat 34) EmptyString.

Section Client.
Context (peer : Peer).

(** [c.jsonConn.Call] and [c.jsonConn.Notify]: a nil connection is
    dereferenced. *)
Definition jsonCall (method : Method) (params : Params) : M State (error + nat) :=
  c <- gets client ;;
  match jsonConn c with
  | None => panic nilDereference
  | Some _ =>
      emit (EvCall method params) ;;
      t <- nextTick ;;
      ret (Call peer t method params)
  end.

Definition jsonNotify (method : Method) (params : Params) : M State (option error) :=
  c <- gets client ;;
  match jsonConn c with
  | None => panic nilDereference
  | Some _ =>
      emit (EvNotify method params) ;;
      t <- nextTick ;;
      ret (Notify peer t method params)
  end.

(** The network and the address that [Connect] dials. *)
Definition dialTarget (addr : string) : string * string :=
  if String.prefix "/" addr then ("unix", addr)
  else if String.prefix "unix;" addr
       then ("unix", substring 5 (String.length addr - 5) addr)
       else ("tcp", addr).

(** [Client.Connect]. *)
Definition Connect : M State (option error) :=
  c <- gets client ;;
  let netMethod := fst (dialTarget (address c)) in
  let addr := snd (dialTarget (address c)) in
  emit (EvDial netMethod addr) ;;
  t <- nextTick ;;
  match Dial peer t netMethod addr with
  | inl e =>
      modifyClient (setConn None) ;;
      ret (Some (withMessage e ("failed to connect to gopls in " +:+ quote peer addr)))
  | inr cn =>
      modifyClient (setConn (Some cn)) ;;
      modifyClient (setJson (Some cn)) ;;
      emit (EvRun cn) ;;
      r <- jsonCall MethodInitialize (InitializeParams (uriFile peer (dir c))) ;;
      match r with
      | inl e =>
          emit (EvCloseConn cn) ;;
          modifyClient (setConn None) ;;
          ret (Some (withMessage e
                       ("failed " +:+ dquote +:+ "initialize" +:+ dquote +:+
                        " call to gopls in " +:+ quote peer addr)))
      | inr _ =>
          e <- jsonNotify MethodInitialized InitializedParams ;;
          match e with
          | Some e =>
              emit (EvCloseConn cn) ;;
              modifyClient (setConn None) ;;
              ret (Some (withMessage e
                           ("failed " +:+ dquote +:+ "initialized" +:+ dquote +:+
                            " notification to gopls in " +:+ quote peer addr)))
          | None => ret None
          end
      end
  end.

(** [c.fileVersions[filePath]]: zero when the key is missing or the map
    is nil. *)
Definition versionOf (c : Client) (filePath : string) : Z :=
  match fileVersions c with
  | None => 0
  | Some m => default 0 (m !! filePath)
  end.

(** The comma-ok form of the same lookup. *)
Definition known (c : Client) (filePath : string) : bool :=
  match fileVersions c with
  | None => false
  | Some m => bool_decide (is_Some (m !! filePath))
  end.

(** [Client.NotifyDidOpen]. *)
Definition NotifyDidOpen (filePath : string) : M State (option error) :=
  t <- nextTick ;;
  match fileData peer t filePath with
  | inl e => ret (Some e)
  | inr fd =>
      c <- gets client ;;
      let fileVersion := wrapInt64 (versionOf c filePath + 1) in
      match fileVersions c with
      | None => panic "assignment to entry in nil map"
      | Some m =>
          modifyClient (setFileVersions (Some (<[filePath := fileVersion]> m))) ;;
          e <- jsonNotify MethodTextDocumentDidOpen
                 (DidOpenTextDocumentParams (URI fd) (float64OfInt fileVersion)
                    (FileContent fd)) ;;
          match e with
          | Some e =>
              ret (Some (withMessage e
                           ("Failed Client.NotifyDidOpen notification for " +:+
                            quote peer filePath)))
          | None => ret None
          end
      end
  end.

(** [Client.CallDefinition]; the result is [(results, err)]. *)
Definition CallDefinition (filePath : string) (line col : Z)
  : M State (option nat * option error) :=
  c <- gets client ;;
  opened <- (if known c filePath then ret None else NotifyDidOpen filePath) ;;
  match opened with
  | Some e => ret (None, Some e)
  | None =>
      r <- jsonCall MethodTextDocumentDefinition
             (TextDocumentPositionParams (uriFile peer filePath)
                (float64OfInt line) (float64OfInt col)) ;;
      match r with
      | inl e =>
          ret (None, Some (withMessage e
                             ("Failed Client.GoplsOpenFile notification for " +:+
                              quote peer filePath)))
      | inr results => ret (Some results, None)
      end
  end.

(** [Client.CallHover]. *)
Definition CallHover (filePath : string) (line col : Z)
  : M State (option nat * option error) :=
  c <- gets client ;;
  opened <- (if known c filePath then ret None else NotifyDidOpen filePath) ;;
  match opened with
  | Some e => ret (None, Some e)
  | None =>
      r <- jsonCall MethodTextDocumentHover
             (TextDocumentPositionParams (uriFile peer filePath)
                (float64OfInt line) (float64OfInt col)) ;;
      match r with
      | inl e =>
          ret (None, Some (withMessage e
                             ("Failed Client.CallHover notification for " +:+
                              quote peer filePath)))
      | inr hover => ret (Some hover, None)
      end
  end.

End Client.

(** The notifications of opened files among some events: URI and
    version, in order. *)
Definition opened (tr : list Event) : list (string * Z) :=
  omap (fun e =>
          match e with
          | EvNotify MethodTextDocumentDidOpen (DidOpenTextDocumentParams uri v _) =>
              Some (uri, v)
          | _ => None
          end) tr.

(** The events that happened between two states. *)
Definition since (s s' : State) : list Event :=
  drop (length (trace s)) (trace s').

Definition isCall (e : Event) : bool :=
  match e with
  | EvCall _ _ => true
  | _ => false
  end.

Definition isCloseConn (e : Event) : bool :=
  match e with
  | EvCloseConn _ => true
  | _ => false
  end.

(** A client that has not connected yet, and a gopls that answers
    everything. *)
Definition newClient (addr : string) : Client :=
  mkClient addr "/work" None None false (Some ∅).

Definition connected : Client :=
  mkClient "/tmp/gopls.sock" "/work" (Some 1%nat) (Some 1%nat) true (Some ∅).

Definition friendly : Peer :=
  mkPeer (fun _ _ _ => inr 1%nat) (fun _ _ _ => inr O) (fun _ _ _ => None)
         (fun _ path => inr (mkFileData ("file://" +:+ path) "package main"))
         (fun path => "file://" +:+ path) (fun s => s).

(** A gopls that accepts the connection and fails the first call. *)
Definition unready : Peer :=
  mkPeer (fun _ _ _ => inr 1%nat) (fun _ _ _ => inl (errorString "not ready"))
         (fun _ _ _ => None)
         (fun _ path => inr (mkFileData ("file://" +:+ path) "package main"))
         (fun path => "file://" +:+ path) (fun s => s).

(** A gopls whose notifications all fail. *)
Definition deaf : Peer :=
  mkPeer (fun _ _ _ => inr 1%nat) (fun _ _ _ => inr O)
         (fun _ _ _ => Some (errorString "broken pipe"))
         (fun _ path => inr (mkFileData ("file://" +:+ path) "package main"))
         (fun path => "file://" +:+ path) (fun s => s).

End goplsclient.

(** * Properties *)

(** Opening an executor state into its fields, and unfolding the
    combinators that [done] is made of. *)
Ltac open_state s :=
  destruct s as [[c ow ew cm co ce ci dn ch mu] w];
  destruct c as [msg ec cmdName cmdArgs cmdDir named handler input ms pw].

Ltac unfold_done :=
  unfold done, lock, unlock, withDefer, runStmts, doneBody, runStmt, CancelInput,
    klogV, klog, closeHandle, emitES, modifyExec, liftW, bind, gets, modify, ret, panic.

Section KernelProperties.
Context (env : Env).

Lemma klogV_spec n format w :
  klogV env n format w =
  (Returned tt, if (n <=? verbosity env)%nat then emit (EvLog Info format) w else w).
Proof. unfold klogV. destruct (n <=? verbosity env)%nat; reflexivity. Qed.

Lemma NewComposed_spec msgType parent w :
  NewComposed env msgType parent w =
  (Returned
     (mkComposed
        (mkHeader (match uuidNewV4 env (tick w) with inl _ => EmptyString | inr u => u end)
                  (Username (Header parent)) (Session (Header parent)) msgType
                  (protocolVersion env) (timeNow env (tick w)))
        (Header parent) None contentNil,
      match uuidNewV4 env (tick w) with inl e => Some e | inr _ => None end),
   nextTick w).
Proof. unfold NewComposed. destruct (uuidNewV4 env (tick w)); reflexivity. Qed.

Lemma Publish_spec m msgType c w :
  exists r t,
    Publish env m msgType c w =
      (Returned r,
       mkWorld (kernel w) (trace w ++ publishEvents env m msgType c (tick w)) t).
Proof.
  unfold Publish, publishEvents, bind. rewrite NewComposed_spec. cbn [fst snd].
  destruct (uuidNewV4 env (tick w)) as [e|u] eqn:Hu.
  - exists (Some e), (S (tick w)). cbn. by rewrite app_nil_r.
  - rewrite klogV_spec. unfold RunLocked, sendMessage, setContent.
    cbn [Header ParentHeader Metadata].
    fold (envelope env u msgType (Composed m) c (tick w)).
    destruct (ToWireMsg env (envelope env u msgType (Composed m) c (tick w)))
      as [e|parts] eqn:Hw;
      destruct (1 <=? verbosity env)%nat; eexists _, _;
      unfold emit, nextTick; cbn [kernel trace tick];
      rewrite ?app_nil_r, <- ?app_assoc; reflexivity.
Qed.

Lemma sentTypes_app tr1 tr2 : sentTypes (tr1 ++ tr2) = sentTypes tr1 ++ sentTypes tr2.
Proof. apply omap_app. Qed.

Lemma sentTypes_publishEvents m msgType c t :
  sentTypes (publishEvents env m msgType c t) =
  match uuidNewV4 env t with
  | inl _ => []
  | inr u =>
      match ToWireMsg env (envelope env u msgType (Composed m) c t) with
      | inl _ => []
      | inr _ => [msgType]
      end
  end.
Proof.
  unfold publishEvents. destruct (uuidNewV4 env t) as [|u]; [done|].
  rewrite sentTypes_app.
  destruct (ToWireMsg env _); destruct (1 <=? verbosity env)%nat; reflexivity.
Qed.

Lemma LogDisplayData_spec data w :
  exists logs,
    LogDisplayData data w = (Returned tt, mkWorld (kernel w) (trace w ++ logs) (tick w)) /\
    Forall (fun e => isLog e = true) logs.
Proof.
  unfold LogDisplayData, modify.
  generalize (match data with Some m => map_to_list m | None => [] end).
  intros l. revert w. induction l as [|kv l IH]; intros w.
  - exists []. cbn. rewrite app_nil_r. by destruct w.
  - cbn [foldl]. destruct (IH (emit (EvLog Info (logEntryFormat kv.2)) w)) as (logs & Heq & Hlogs).
    exists (EvLog Info (logEntryFormat kv.2) :: logs). split.
    + injection Heq as Heq. rewrite Heq. cbn. by rewrite <- app_assoc.
    + by constructor.
Qed.

Lemma logged_spec data w :
  exists logs,
    logged env data w = mkWorld (kernel w) (trace w ++ logs) (tick w) /\
    Forall (fun e => isLog e = true) logs.
Proof.
  unfold logged. destruct (1 <=? verbosity env)%nat.
  - destruct (LogDisplayData_spec (Data_Data data) w) as (logs & -> & H). by exists logs.
  - exists []. cbn. rewrite app_nil_r. by destruct w.
Qed.


Lemma sentTypes_logs logs :
  Forall (fun e => isLog e = true) logs -> sentTypes logs = [].
Proof.
  induction 1 as [|e l He _ IH]; [done|].
  destruct e; try discriminate He. exact IH.
Qed.

(** One call of [PublishUpdateDisplayData] with a string display id. *)
Lemma PublishUpdateDisplayData_step m data d w :
  mimeLookup (Data_Transient data) "display_id" = Some (anyString d) ->
  exists r logs t,
    PublishUpdateDisplayData env (Some m) data w =
      (Returned r,
       mkWorld (if decide (d ∈ KnownBlockIds (kernel w)) then kernel w
                else insertKnownBlockId d (kernel w))
               (trace w ++ logs ++
                publishEvents env m
                  (if decide (d ∈ KnownBlockIds (kernel w))
                   then "update_display_data" else "display_data")
                  (contentDisplay (Data_Data data) (EnsureMIMEMap (Data_Metadata data))
                                  (Data_Transient data))
                  (tick w))
               t) /\
    Forall (fun e => isLog e = true) logs.
Proof.
  intros Hd. unfold PublishUpdateDisplayData.
  destruct (logged_spec data w) as (logs & Hl & Hlogs).
  unfold logged in Hl. unfold bind at 1.
  destruct ((if (1 <=? verbosity env)%nat then LogDisplayData (Data_Data data) else ret tt) w)
    as [o w1] eqn:Hlog.
  assert (o = Returned tt) as ->.
  { destruct (1 <=? verbosity env)%nat.
    - unfold LogDisplayData, modify in Hlog. by injection Hlog as <- _.
    - by injection Hlog as <- _. }
  cbn [snd] in Hl. subst w1. rewrite Hd.
  unfold bind, gets. cbn [kernel].
  destruct (decide (d ∈ KnownBlockIds (kernel w))) as [Hin|Hnin].
  - cbn [ret]. 
    destruct (Publish_spec m "update_display_data"
                (contentDisplay (Data_Data data) (EnsureMIMEMap (Data_Metadata data))
                   (Data_Transient data))
                (mkWorld (kernel w) (trace w ++ logs) (tick w))) as (r & t & ->).
    exists r, logs, t. cbn [kernel trace tick]. by rewrite <- app_assoc.
  - unfold modify, ret, setKernel. cbn [kernel trace tick].
    destruct (Publish_spec m "display_data"
                (contentDisplay (Data_Data data) (EnsureMIMEMap (Data_Metadata data))
                   (Data_Transient data))
                (mkWorld (insertKnownBlockId d (kernel w)) (trace w ++ logs) (tick w)))
      as (r & t & ->).
    exists r, logs, t. cbn [kernel trace tick]. by rewrite <- app_assoc.
Qed.

Lemma sentTypes_publish_ok m msgType c t :
  transportOK env -> sentTypes (publishEvents env m msgType c t) = [msgType].
Proof.
  intros [Hu Hw]. rewrite sentTypes_publishEvents.
  destruct (Hu t) as [u ->].
  by destruct (Hw (envelope env u msgType (Composed m) c t)) as [parts ->].
Qed.

Lemma updates_only m data d n :
  mimeLookup (Data_Transient data) "display_id" = Some (anyString d) ->
  transportOK env ->
  forall w,
    d ∈ KnownBlockIds (kernel w) ->
    sentTypes (trace (snd (calls n (PublishUpdateDisplayData env (Some m) data) w))) =
    sentTypes (trace w) ++ replicate n "update_display_data".
Proof.
  intros Hd Hok. induction n as [|n IH]; intros w Hin.
  - cbn. by rewrite app_nil_r.
  - cbn [calls snd].
    destruct (PublishUpdateDisplayData_step m data d w Hd) as (r & logs & t & Heq & Hlogs).
    destruct (decide (d ∈ KnownBlockIds (kernel w))); [|done].
    rewrite Heq. cbn [snd].
    rewrite IH by done. cbn [trace].
    rewrite !sentTypes_app, (sentTypes_logs logs Hlogs), sentTypes_publish_ok by done.
    cbn. by rewrite <- app_assoc.
Qed.

(** C4: with a string [display_id] d in the transient map, a call of
    PublishUpdateDisplayData on a session that does not know d is a
    Publish of type display_data after d was added to the known ids,
    and a call on a session that knows d is a Publish of type
    update_display_data that leaves the set alone; so on a fresh
    session, when the transport does not fail, the first of any number
    of calls sends display_data and every later one
    update_display_data, and three calls send exactly display_data,
    update_display_data, update_display_data in this order. *)
Theorem PublishUpdateDisplayData_create_then_update m data d :
  mimeLookup (Data_Transient data) "display_id" = Some (anyString d) ->
  let c := contentDisplay (Data_Data data) (EnsureMIMEMap (Data_Metadata data))
                          (Data_Transient data) in
  (forall w, d ∉ KnownBlockIds (kernel w) ->
     PublishUpdateDisplayData env (Some m) data w =
       Publish env m "display_data" c
         (setKernel (insertKnownBlockId d (kernel w)) (logged env data w)) /\
     KnownBlockIds (kernel (snd (PublishUpdateDisplayData env (Some m) data w))) =
       {[d]} ∪ KnownBlockIds (kernel w)) /\
  (forall w, d ∈ KnownBlockIds (kernel w) ->
     PublishUpdateDisplayData env (Some m) data w =
       Publish env m "update_display_data" c (logged env data w) /\
     KnownBlockIds (kernel (snd (PublishUpdateDisplayData env (Some m) data w))) =
       KnownBlockIds (kernel w)) /\
  (forall w n, KnownBlockIds (kernel w) = ∅ -> transportOK env ->
     sentTypes (trace (snd (calls (S n) (PublishUpdateDisplayData env (Some m) data) w))) =
     sentTypes (trace w) ++ "display_data" :: replicate n "update_display_data") /\
  (forall w, KnownBlockIds (kernel w) = ∅ -> transportOK env ->
     sentTypes (trace (snd (calls 3 (PublishUpdateDisplayData env (Some m) data) w))) =
     sentTypes (trace w) ++ ["display_data"; "update_display_data"; "update_display_data"]).
Proof.
  intros Hd c.
  assert (Hlog : forall w,
    (if (1 <=? verbosity env)%nat then LogDisplayData (Data_Data data) else ret tt) w =
    (Returned tt, logged env data w)).
  { intros w. unfold logged. destruct (1 <=? verbosity env)%nat; reflexivity. }
  assert (Hk : forall w, kernel (logged env data w) = kernel w).
  { intros w. by destruct (logged_spec data w) as (logs & -> & _). }
  assert (Hfirst : forall w n, d ∉ KnownBlockIds (kernel w) -> transportOK env ->
     sentTypes (trace (snd (calls (S n) (PublishUpdateDisplayData env (Some m) data) w))) =
     sentTypes (trace w) ++ "display_data" :: replicate n "update_display_data").
  { intros w n Hnin Hok. cbn [calls snd].
    destruct (PublishUpdateDisplayData_step m data d w Hd) as (r & logs & t & Heq & Hlogs).
    destruct (decide (d ∈ KnownBlockIds (kernel w))); [done|].
    rewrite Heq. cbn [snd].
    rewrite (updates_only m data d n Hd Hok).
    - cbn [trace].
      rewrite !sentTypes_app, (sentTypes_logs logs Hlogs), sentTypes_publish_ok by done.
      cbn. by rewrite <- app_assoc.
    - cbn. set_solver. }
  split; [|split; [|split]].
  - intros w Hnin. split.
    + unfold PublishUpdateDisplayData, bind at 1. rewrite Hlog, Hd.
      unfold bind, gets, modify, ret. rewrite Hk.
      destruct (decide (d ∈ KnownBlockIds (kernel w))); [done|].
      cbn beta iota. by rewrite Hk.
    + destruct (PublishUpdateDisplayData_step m data d w Hd) as (r & logs & t & -> & _).
      by rewrite decide_False.
  - intros w Hin. split.
    + unfold PublishUpdateDisplayData, bind at 1. rewrite Hlog, Hd.
      unfold bind, gets, ret. rewrite Hk.
      by destruct (decide (d ∈ KnownBlockIds (kernel w))).
    + destruct (PublishUpdateDisplayData_step m data d w Hd) as (r & logs & t & -> & _).
      by rewrite decide_True.
  - intros w n Hfresh Hok. apply Hfirst; [|done]. rewrite Hfresh. set_solver.
  - intros w Hfresh Hok. apply (Hfirst w 2%nat); [|done]. rewrite Hfresh. set_solver.
Qed.

(** C6: for every parent and message type, the envelope built by
    NewComposed (also the one returned with an error) has the parent's
    header as its parent header, and the session id and the user name
    of its header are the parent's, whatever the environment draws. *)
Theorem NewComposed_copies_parent msgType parent w :
  exists msg e,
    fst (NewComposed env msgType parent w) = Returned (msg, e) /\
    ParentHeader msg = Header parent /\
    Session (Header msg) = Session (Header parent) /\
    Username (Header msg) = Username (Header parent) /\
    MsgType (Header msg) = msgType.
Proof. rewrite NewComposed_spec. eexists _, _. repeat split. Qed.

(** C8: for a non-nil message and any data, PublishData is a Publish
    of type display_data after the logging; the type does not depend
    on the message, so whatever it sends on IOPub is one display_data
    message, and when ids and wire parts can be made it does send
    exactly that one message, whatever the type of the parent. *)
Theorem PublishData_always_display_data m data w :
  PublishData env (Some m) data w =
    Publish env m "display_data"
      (contentDisplay (Data_Data data) (EnsureMIMEMap (Data_Metadata data))
                      (EnsureMIMEMap (Data_Transient data)))
      (logged env data w) /\
  exists sent,
    sentTypes (trace (snd (PublishData env (Some m) data w))) =
      sentTypes (trace w) ++ sent /\
    (sent = [] \/ sent = ["display_data"]) /\
    (transportOK env -> sent = ["display_data"]).
Proof.
  assert (Heq : PublishData env (Some m) data w =
    Publish env m "display_data"
      (contentDisplay (Data_Data data) (EnsureMIMEMap (Data_Metadata data))
                      (EnsureMIMEMap (Data_Transient data)))
      (logged env data w)).
  { unfold PublishData, bind, logged.
    destruct (1 <=? verbosity env)%nat; reflexivity. }
  split; [exact Heq|]. rewrite Heq.
  destruct (logged_spec data w) as (logs & -> & Hlogs).
  match goal with |- context [Publish env m ?ty ?c ?w0] =>
    destruct (Publish_spec m ty c w0) as (r & t & ->);
    exists (sentTypes (publishEvents env m ty c (tick w0))) end.
  cbn [snd trace tick]. split; [|split].
  - by rewrite !sentTypes_app, (sentTypes_logs logs Hlogs), app_nil_r.
  - rewrite sentTypes_publishEvents.
    destruct (uuidNewV4 env (tick w)); [by left|].
    destruct (ToWireMsg env _); [by left | by right].
  - intros Hok. by apply sentTypes_publish_ok.
Qed.

(** C9: when the transient map has no [display_id], or a value there
    that is not a string, PublishUpdateDisplayData returns an error,
    leaves the kernel (and so the known ids) as it was and adds
    nothing but log lines to the trace: nothing is sent. *)
Theorem PublishUpdateDisplayData_atomic_on_error msg data w :
  mimeLookup (Data_Transient data) "display_id" = None \/
  (exists v, mimeLookup (Data_Transient data) "display_id" = Some v /\
             forall d, v <> anyString d) ->
  exists e logs,
    PublishUpdateDisplayData env msg data w =
      (Returned (Some e), mkWorld (kernel w) (trace w ++ logs) (tick w)) /\
    Forall (fun ev => isLog ev = true) logs.
Proof.
  intros H. unfold PublishUpdateDisplayData, bind at 1.
  destruct (logged_spec data w) as (logs & Hl & Hlogs). unfold logged in Hl.
  destruct ((if (1 <=? verbosity env)%nat then LogDisplayData (Data_Data data) else ret tt) w)
    as [o w1] eqn:Hlog.
  assert (o = Returned tt) as ->.
  { destruct (1 <=? verbosity env)%nat.
    - unfold LogDisplayData, modify in Hlog. by injection Hlog as <- _.
    - by injection Hlog as <- _. }
  cbn [snd] in Hl. subst w1.
  destruct H as [-> | (v & -> & Hv)].
  - eexists _, logs. split; [reflexivity | done].
  - destruct v; try (eexists _, logs; split; [reflexivity | done]).
    by destruct (Hv s).
Qed.

(** C10: for every byte slice p, jupyterStreamWriter.Write returns
    (len(p), nil); when the publish below it fails, the failure is
    logged at error level and nothing else happens. *)
Theorem Write_never_fails stream msg p w :
  fst (Write env stream msg p w) = Returned (Z.of_nat (length p), None) /\
  trace (snd (Write env stream msg p w)) =
    trace (snd (PublishWriteStream env msg stream (string_of_list_byte p) w)) ++
    match fst (PublishWriteStream env msg stream (string_of_list_byte p) w) with
    | Returned (Some _) =>
        [EvLog ErrorLevel "Failed to stream %d bytes of data to stream %q: %+v"]
    | _ => []
    end.
Proof.
  unfold Write, bind.
  assert (H : exists r w', PublishWriteStream env msg stream (string_of_list_byte p) w
                           = (Returned r, w')).
  { unfold PublishWriteStream. destruct msg as [m|].
    - destruct (Publish_spec m "stream"
                  (contentStream stream (string_of_list_byte p)) w) as (r & t & ->). eauto.
    - eexists _, _. reflexivity. }
  destruct H as (r & w' & ->). cbn [fst snd].
  destruct r as [e|]; cbn; [done|]. by rewrite app_nil_r.
Qed.

(** C7: the pending-input registration is one slot of the kernel.
    When the input_request goes out on the stdin socket, PromptInput
    stores the message and the callback in the slot, whatever was
    there before.  DeliverInput returns nil and leaves the kernel alone
    when the slot is empty; otherwise it is the call of the registered
    callback on the requesting message and the answer, and it does not
    clear the slot itself: the kernel it leaves is the one the callback
    leaves. *)
Theorem pending_input_is_one_slot :
  (forall m prompt password onInput w u msgParts,
     let inputRequest :=
       envelope env u "input_request" (Composed m)
         (contentMap (<["prompt" := anyString prompt]>
                        (<["password" := anyBool password]> ∅)))
         (tick w) in
     let frames := Identities m ++ [list_byte_of_string "<IDS|MSG>"] ++ msgParts in
     uuidNewV4 env (tick w) = inr u ->
     ToWireMsg env inputRequest = inr msgParts ->
     SendMulti env (S (tick w)) StdinSocket frames = None ->
     exists w' logs,
       PromptInput env m prompt password onInput w = (Returned None, w') /\
       trace w' = trace w ++ logs ++ [EvSend StdinSocket inputRequest frames] /\
       Forall (fun e => isLog e = true) logs /\
       stdinMsg (kernel w') = Some m /\
       stdinFn (kernel w') = onInput) /\
  (forall m w,
     stdinMsg (kernel w) = None ->
     DeliverInput env m w =
       (Returned None, snd (klogV env 1 "MessageImpl.DeliverInput()" w)) /\
     kernel (snd (DeliverInput env m w)) = kernel w) /\
  (forall m w original fn,
     stdinMsg (kernel w) = Some original ->
     stdinFn (kernel w) = Some fn ->
     let w1 := snd (klogV env 1 "MessageImpl.DeliverInput()" w) in
     DeliverInput env m w = callOnInput env fn original m w1 /\
     kernel w1 = kernel w /\
     (kernel (snd (callOnInput env fn original m w1)) = kernel w1 ->
      stdinMsg (kernel (snd (DeliverInput env m w))) = Some original /\
      stdinFn (kernel (snd (DeliverInput env m w))) = Some fn)).
Proof.
  split; [|split].
  - intros m prompt password onInput w u msgParts inputRequest frames Hu Hw Hs.
    subst inputRequest frames. unfold envelope in *.
    unfold PromptInput, bind. rewrite klogV_spec, NewComposed_spec.
    cbn [fst snd].
    assert (Ht : forall b (e : Event), tick (if b : bool then emit e w else w) = tick w)
      by (intros []; reflexivity).
    rewrite !Ht, Hu, klogV_spec.
    unfold RunLocked, sendMessage, setContent. cbn [Header ParentHeader Metadata].
    rewrite Hw.
    destruct (1 <=? verbosity env)%nat; cbn [tick nextTick emit kernel trace];
      rewrite Hs; unfold modify, ret, setKernel, registerInput;
      cbn [kernel trace tick stdinMsg stdinFn].
    + eexists _, [_; _]. split; [reflexivity|].
      unfold nextTick, emit. cbn [trace kernel stdinMsg stdinFn].
      rewrite <- !app_assoc. repeat split. by repeat constructor.
    + eexists _, []. split; [reflexivity|].
      unfold nextTick, emit. cbn [trace kernel stdinMsg stdinFn].
      repeat split. constructor.
  - intros m w Hnone. unfold DeliverInput, bind, gets. rewrite klogV_spec. cbn [snd].
    assert (Hk : forall b (e : Event), kernel (if b : bool then emit e w else w) = kernel w)
      by (intros []; reflexivity).
    rewrite !Hk, Hnone. cbn [snd]. split; [reflexivity | apply Hk].
  - intros m w original fn Hmsg Hfn w1.
    assert (Hk : kernel w1 = kernel w).
    { subst w1. rewrite klogV_spec. cbn [snd]. by destruct (1 <=? verbosity env)%nat. }
    assert (Heq : DeliverInput env m w = callOnInput env fn original m w1).
    { unfold DeliverInput, bind, gets. subst w1.
      destruct (klogV env 1 "MessageImpl.DeliverInput()" w) as [o w1] eqn:Hlog.
      rewrite klogV_spec in Hlog. injection Hlog as <- Hw1. cbn [snd] in *.
      by rewrite Hk, Hmsg, Hfn. }
    split; [exact Heq|]. split; [exact Hk|].
    intros Hsame. rewrite Heq, Hsame, Hk. by split.
Qed.

End KernelProperties.

Section ExecutorProperties.
Context (env : Env).


Lemma liftW_Publish m ty c e w :
  exists r t,
    liftW (Publish env m ty c) (mkES e w) =
    (Returned r, mkES e (mkWorld (kernel w) (trace w ++ publishEvents env m ty c (tick w)) t)).
Proof.
  unfold liftW. cbn [world exec].
  destruct (Publish_spec env m ty c w) as (r & t & ->). by exists r, t.
Qed.

(** [done] on an executor whose pipes exist and whose completion
    channel is open: it returns, and closes everything once. *)
Lemma done_completes s stdin stderr stdout :
  muDone (exec s) = false ->
  isDone (exec s) = false ->
  doneChan (exec s) = chanOpen ->
  cmdStdin (exec s) = Some stdin ->
  cmdStderr (exec s) = Some stderr ->
  cmdStdout (exec s) = Some stdout ->
  ((0 <? millisecondsToInput (config (exec s)))%Z = true ->
   is_Some (Msg (config (exec s)))) ->
  done env s =
    (Returned tt,
     mkES (setDoneChan chanClosed (setIsDone true (exec s)))
          (mkWorld (kernel (world s))
                   (trace (world s) ++ doneEvents env (config (exec s)) stdin stderr stdout)
                   (tick (world s)))).
Proof.
  open_state s.
  cbn [exec config Msg muDone isDone doneChan cmdStdin cmdStderr cmdStdout world
       useNamedPipes commsHandler millisecondsToInput].
  intros -> -> -> -> -> -> Hmsg.
  unfold_done. unfold doneEvents.
  cbn.
  destruct (0 <? ms)%Z; [destruct (Hmsg eq_refl) as [m ->]|];
    destruct (verbosity env); destruct named; try destruct handler;
    unfold setMuDone, setDoneChan, setIsDone, emit; cbn;
    rewrite <- ?app_assoc; reflexivity.
Qed.

Lemma doneEvents_no_send c stdin stderr stdout :
  Forall (fun e => isSend e = false) (doneEvents env c stdin stderr stdout).
Proof.
  unfold doneEvents.
  destruct (0 <? millisecondsToInput c)%Z, (1 <=? verbosity env)%nat,
    (useNamedPipes c), (commsHandler c); repeat constructor.
Qed.

Lemma Exec_runs os s m stdout stderr stdin process exit :
  Msg (config (exec s)) = Some m ->
  muDone (exec s) = false ->
  StdoutPipe os = inr stdout ->
  StderrPipe os = inr stderr ->
  StdinPipe os = inr stdin ->
  (useNamedPipes (config (exec s)) = true -> handleNamedPipes os = None) ->
  Start os = inr process ->
  Wait os = Some exit ->
  let w1 := whileRunning os (runningWorld env (exec s) stdin stderr stdout process (world s)) in
  let w2 := match exit with
            | None => w1
            | Some e =>
                snd (PublishWriteStream env (Some m) StreamStderr
                       (exitText (Interrupted (kernel w1)) e) w1)
            end in
  exists e' k' t' tail,
    Exec env os s = (Returned None, mkES e' (mkWorld k' (trace w2 ++ tail) t')) /\
    Forall (fun ev => isSend ev = false) tail.
Proof.
  open_state s.
  cbn [exec config Msg muDone world useNamedPipes].
  intros -> -> Hout Herr Hin Hnamed Hstart Hwait.
  unfold Exec. rewrite Hout, Herr, Hin, Hstart, Hwait.
  unfold withDefer, handleJupyterInput, handleStaticInput, emitES, modifyExec,
    klog, bind, gets, modify, ret, SubscribeInterrupt,
    runningWorld, setupEvents, PublishWriteStream.
  unfold liftW at 1 2 3 4.
  cbn -[done Publish UnsubscribeInterrupt klogV liftW].
  destruct (0 <? ms)%Z eqn:Hms; destruct named;
    rewrite ?(Hnamed eq_refl); try destruct handler; destruct input; destruct exit as [e|];
    cbn -[done Publish UnsubscribeInterrupt klogV liftW].
  all: unfold emit, setKernel; cbn -[done Publish UnsubscribeInterrupt klogV liftW];
    rewrite <- ?app_assoc; cbn -[done Publish UnsubscribeInterrupt klogV liftW].
  all: match goal with |- context [whileRunning ?o ?W] =>
         generalize (whileRunning o W); intros W1 end.
  all: try match goal with |- context [liftW (Publish ?en ?m0 ?ty ?c) (mkES ?e0 ?w0)] =>
         destruct (liftW_Publish m0 ty c e0 w0) as (r & t & ->);
         destruct (Publish_spec en m0 ty c w0) as (r' & t'' & ->) end.
  all: unfold liftW, UnsubscribeInterrupt, modify; rewrite klogV_spec;
    cbn -[done].
  all: erewrite done_completes;
    [ | reflexivity | reflexivity | reflexivity | reflexivity | reflexivity | reflexivity
      | cbn; intros _; eauto ].
  all: destruct (verbosity env) as [|[|v]]; cbn -[doneEvents];
    eexists _, _, _, _;
    (split; [rewrite <- ?app_assoc; reflexivity|]);
    repeat (apply Forall_cons; split; [reflexivity|]); apply doneEvents_no_send.
Qed.

(** C3 (amended): on an executor that has a message, when the three
    pipes exist, the named pipes (if used) are set up, the command
    starts and the child ends, Exec returns nil whatever cmd.Wait
    returned.  An exit error is not returned: it is
    published on the stderr stream in the world found when Wait
    returned, as the error text and a newline, with the interrupt mark
    in front exactly when the kernel's Interrupted flag is set in that
    world; nothing else is sent afterwards. *)
Theorem Exec_child_exit_is_streamed os s m stdout stderr stdin process exit :
  Msg (config (exec s)) = Some m ->
  muDone (exec s) = false ->
  StdoutPipe os = inr stdout ->
  StderrPipe os = inr stderr ->
  StdinPipe os = inr stdin ->
  (useNamedPipes (config (exec s)) = true -> handleNamedPipes os = None) ->
  Start os = inr process ->
  Wait os = Some exit ->
  let w1 := whileRunning os (runningWorld env (exec s) stdin stderr stdout process (world s)) in
  let streamed :=
    match exit with
    | None => []
    | Some e =>
        publishEvents env m "stream"
          (contentStream StreamStderr (exitText (Interrupted (kernel w1)) e)) (tick w1)
    end in
  (exists tail,
     fst (Exec env os s) = Returned None /\
     trace (world (snd (Exec env os s))) = trace w1 ++ streamed ++ tail /\
     Forall (fun ev => isSend ev = false) tail) /\
  (forall e, exitText true e = "^C" +:+ newline +:+ Error e +:+ newline) /\
  (forall e, exitText false e = Error e +:+ newline).
Proof.
  intros Hm Hmu Hout Herr Hin Hnamed Hstart Hwait w1 streamed.
  split; [|by split].
  destruct (Exec_runs os s m stdout stderr stdin process exit
              Hm Hmu Hout Herr Hin Hnamed Hstart Hwait)
    as (e' & k' & t' & tail & Heq & Htail).
  exists tail. rewrite Heq. cbn [fst snd world trace]. fold w1.
  split; [done|]. split; [|done].
  rewrite app_assoc. f_equal. subst streamed.
  destruct exit as [e|]; [|by rewrite app_nil_r].
  unfold PublishWriteStream.
  by destruct (Publish_spec env m "stream"
    (contentStream StreamStderr (exitText (Interrupted (kernel w1)) e)) w1) as (r & t & ->).
Qed.

(** A failed [cmd.Start] is returned to the caller; nothing was
    started and the teardown closes the three pipes. *)
Lemma Exec_start_failure_is_returned os s e stdout stderr stdin :
  muDone (exec s) = false ->
  ((0 <? millisecondsToInput (config (exec s)))%Z = true ->
   is_Some (Msg (config (exec s)))) ->
  StdoutPipe os = inr stdout ->
  StderrPipe os = inr stderr ->
  StdinPipe os = inr stdin ->
  (useNamedPipes (config (exec s)) = true -> handleNamedPipes os = None) ->
  Start os = inl e ->
  exists s',
    Exec env os s =
      (Returned (Some (withMessage e ("failed to start to execute command " +:+
                                      quote env (command (config (exec s)))))), s') /\
    (forall c, cmd (exec s') = Some c -> Process c = None) /\
    kernel (world s') = kernel (world s).
Proof.
  open_state s.
  cbn [exec config Msg muDone world useNamedPipes millisecondsToInput command].
  intros -> Hmsg Hout Herr Hin Hnamed Hstart.
  unfold Exec. rewrite Hout, Herr, Hin, Hstart.
  unfold withDefer, handleJupyterInput, emitES, modifyExec, liftW,
    klog, bind, gets, modify, ret.
  cbn -[done].
  destruct (0 <? ms)%Z eqn:Hms; destruct named;
    rewrite ?(Hnamed eq_refl); try destruct handler; cbn -[done].
  all: erewrite done_completes;
    [ | reflexivity | reflexivity | reflexivity | reflexivity | reflexivity | reflexivity
      | cbn; rewrite ?Hms; try done; intros _; by apply Hmsg ].
  all: eexists; split; [reflexivity|]; cbn; split; [by intros ? [= <-] | reflexivity].
Qed.

(** Whichever of the three pipes cannot be created, and whatever the
    executor held before, the deferred [done] dereferences a nil pipe
    and [Exec] panics. *)
Lemma Exec_pipe_failure_panics os s :
  muDone (exec s) = false ->
  pipeHandle (StdoutPipe os) = None \/
  pipeHandle (StderrPipe os) = None \/
  pipeHandle (StdinPipe os) = None ->
  fst (Exec env os s) = Panicked nilDereference.
Proof.
  open_state s.
  cbn [exec muDone]. intros -> H.
  unfold Exec. unfold_done.
  destruct (StdoutPipe os) as [e1|h1]; cbn.
  - destruct (0 <? ms)%Z; [destruct msg|]; try destruct (verbosity env);
      destruct ci, ce; reflexivity.
  - destruct (StderrPipe os) as [e2|h2]; cbn.
    + destruct (0 <? ms)%Z; [destruct msg|]; try destruct (verbosity env);
        destruct ci; reflexivity.
    + destruct (StdinPipe os) as [e3|h3]; cbn.
      * destruct (0 <? ms)%Z; [destruct msg|]; try destruct (verbosity env); reflexivity.
      * cbn in H. by destruct H as [|[|]].
Qed.

(** C1: on an executor fresh from New, in an operating system where
    the stdout pipe cannot be created, Exec does not return the error:
    the deferred done calls Close on the stdin pipe that was never
    created, and Exec panics with a nil dereference. *)
Theorem Exec_stdout_pipe_failure_panics e msg command args w :
  fst (Exec env (noStdoutPipe e) (mkES (New msg command args) w)) =
  Panicked nilDereference.
Proof. reflexivity. Qed.

End ExecutorProperties.

(** C3 as stated fails: an executor made with a nil message gets past
    the setup (the three pipes exist, the command starts and the child
    exits with status 1), and yet [Exec] does not return nil: it panics
    where it asks the message for the kernel, and the exit status is
    never streamed. *)
Lemma Exec_nil_message_does_not_return_nil :
  let os := childExits (Some (errorString "exit status 1")) in
  let s := mkES (New None "prog" []) freshWorld in
  StdoutPipe os = inr 3%nat /\
  StderrPipe os = inr 4%nat /\
  StdinPipe os = inr 5%nat /\
  Start os = inr 100%nat /\
  Wait os = Some (Some (errorString "exit status 1")) /\
  fst (Exec calmEnv os s) = Panicked nilDereference /\
  fst (Exec calmEnv os s) <> Returned None /\
  sendsOf (trace (world (snd (Exec calmEnv os s)))) = [].
Proof.
  cbn zeta. repeat (split; [reflexivity|]).
  split; [discriminate | reflexivity].
Qed.

Section InterruptProperties.

Lemma onInterrupt_spec race process id w :
  onInterrupt race process id w =
  (Returned tt,
   mkWorld (mkKernel (ExecCounter (kernel w)) (KnownBlockIds (kernel w))
                     (stdinMsg (kernel w)) (stdinFn (kernel w)) (Interrupted (kernel w))
                     (delete id (subscriptions (kernel w)))
                     (nextSubscription (kernel w)))
           (trace w ++ interruptEvents race process)
           (tick w)).
Proof.
  unfold onInterrupt, interruptEvents, UnsubscribeInterrupt, klog, bind, modify, ret,
    emit, setKernel.
  cbn.
  destruct (interruptErr race), (doneWins race), (killErr race); cbn;
    rewrite <- ?app_assoc; reflexivity.
Qed.

(** C2 (amended): when the interrupt subscription fires, it signals
    SIGINT to the child process itself (os.Process.Signal, not the
    process group), removes its own entry from the registry, so that a
    second interrupt request finds nothing to call and signals nothing,
    then waits for the completion channel for at most WaitToKill, which
    is five seconds, and signals SIGKILL to the child exactly when the
    wait runs out. *)
Theorem interrupt_then_kill race process id w :
  let w' := snd (onInterrupt race process id w) in
  fst (onInterrupt race process id w) = Returned tt /\
  trace w' = trace w ++ interruptEvents race process /\
  subscriptions (kernel w') !! id = None /\
  (waited race <= WaitToKill)%Z /\
  (doneWins race = false -> waited race = WaitToKill) /\
  WaitToKill = 5000000000%Z /\
  (subscriptions (kernel w) = {[id := execInterrupt process]} ->
   requestInterrupt race w = onInterrupt race process id w /\
   forall race', requestInterrupt race' w' = (Returned tt, w')).
Proof.
  cbn zeta. rewrite onInterrupt_spec. cbn [fst snd trace kernel subscriptions].
  split; [done|]. split; [done|]. split; [apply lookup_delete_eq|].
  split; [|split; [|split; [reflexivity|]]].
  - unfold waited. destruct (doneAfter race); lia.
  - unfold doneWins, waited. destruct (doneAfter race) as [d|]; [|done].
    intros H. apply orb_false_iff in H as [H1 H2]. apply Z.ltb_ge in H1. lia.
  - intros Hsub. split.
    + unfold requestInterrupt. rewrite Hsub, map_to_list_singleton.
      cbn [foldl fst snd]. by rewrite onInterrupt_spec, Hsub.
    + intros race'. unfold requestInterrupt. cbn [kernel subscriptions].
      by rewrite Hsub, delete_singleton_eq, map_to_list_empty.
Qed.

End InterruptProperties.

(** C2 as stated fails: in a run where the child ignores the
    interrupt, no signal is sent to a process group; both signals go to
    the one child process. *)
Lemma interrupt_not_to_process_group :
  ~ (exists pgid sig,
       In (EvSignal (ToProcessGroup pgid) sig)
          (trace (snd (onInterrupt stubborn 100%nat 0%nat freshWorld)))).
Proof.
  intros (pgid & sig & H). cbn in H.
  repeat (destruct H as [H|H]; [discriminate H|]). exact H.
Qed.

Section Counting.
Context {A : Type} (p : A -> bool).

Lemma count_app l1 l2 : count p (l1 ++ l2) = (count p l1 + count p l2)%nat.
Proof. induction l1 as [|x l1 IH]; cbn; [done|]. rewrite IH. lia. Qed.

Lemma count_insert l i x y :
  l !! i = Some x ->
  (count p (<[i := y]> l) + (if p x then 1 else 0) =
   count p l + (if p y then 1 else 0))%nat.
Proof.
  revert i. induction l as [|z l IH]; intros [|i] H; try discriminate H.
  - injection H as ->. simpl. destruct (p x), (p y); lia.
  - simpl in *. specialize (IH i H). destruct (p x), (p y), (p z); lia.
Qed.

Lemma count_lookup l i x : l !! i = Some x -> p x = true -> (1 <= count p l)%nat.
Proof.
  revert i. induction l as [|z l IH]; intros [|i] H Hp; try discriminate H.
  - injection H as ->. simpl. rewrite Hp. lia.
  - simpl in *. specialize (IH i H Hp). destruct (p z); lia.
Qed.

Lemma count_two l i j x y :
  i <> j -> l !! i = Some x -> l !! j = Some y -> p x = true -> p y = true ->
  (2 <= count p l)%nat.
Proof.
  intros Hij Hi Hj Hx Hy.
  revert i j Hij Hi Hj. induction l as [|z l IH]; intros [|i] [|j] Hij Hi Hj;
    try discriminate; try done.
  - injection Hi as ->. simpl in *. rewrite Hx.
    pose proof (count_lookup l j y Hj Hy). lia.
  - injection Hj as ->. simpl in *. rewrite Hy.
    pose proof (count_lookup l i x Hi Hx). lia.
  - simpl in *. assert (2 <= count p l)%nat; [|destruct (p z); lia].
    apply (IH i j); auto.
Qed.

Lemma count_zero l i x : count p l = O -> l !! i = Some x -> p x = false.
Proof.
  intros H0 Hi. destruct (p x) eqn:Hp; [|done].
  pose proof (count_lookup l i x Hi Hp). lia.
Qed.

Lemma count_replicate n x : count p (replicate n x) = (if p x then n else 0)%nat.
Proof. induction n as [|n IH]; cbn; [by destruct (p x)|]. rewrite IH. by destruct (p x). Qed.

End Counting.

Section Once.
Context (env : Env).

Lemma runStmt_step c0 f0 s n st rest :
  drop n doneBody = st :: rest ->
  bodyState c0 f0 s n ->
  match runStmt env st s with
  | (Returned _, s') =>
      bodyState c0 f0 s' (S n) /\ muDone (exec s') = muDone (exec s)
  | (Panicked r, s') =>
      r = nilDereference /\ bodyState c0 f0 s' n /\ (1 <= n)%nat /\
      muDone (exec s') = muDone (exec s)
  | (Blocked, _) => False
  end.
Proof.
  intros Hdrop (Hdone & Hchan & Hcl & Hf1 & Hf2).
  open_state s.
  cbn [exec world isDone doneChan] in *.
  unfold_done. unfold bodyState.
  destruct n as [|[|[|[|[|[|[|n]]]]]]]; simpl in Hdrop;
    try (destruct n; discriminate Hdrop);
    injection Hdrop as <- <-; cbn in *.
  - repeat split; try done; lia.
  - destruct (0 <? ms)%Z; [destruct msg; [destruct (verbosity env)|]|];
      cbn; rewrite ?count_app; cbn; repeat split; try done; lia.
  - destruct ci; cbn; rewrite ?count_app; cbn; repeat split; try done; lia.
  - subst ch. cbn; rewrite ?count_app; cbn; repeat split; try done; lia.
  - destruct ce; cbn; rewrite ?count_app; cbn; repeat split; try done; lia.
  - destruct co; cbn; rewrite ?count_app; cbn; repeat split; try done; lia.
  - destruct named; [destruct handler|];
      cbn; rewrite ?count_app; cbn; repeat split; try done; lia.
Qed.

Lemma threadInv_ext c0 f0 s s' t :
  isDone (exec s') = isDone (exec s) ->
  doneChan (exec s') = doneChan (exec s) ->
  trace (world s') = trace (world s) ->
  threadInv c0 f0 s t -> threadInv c0 f0 s' t.
Proof.
  intros H1 H2 H3. destruct t as [| |rest|ran [r|]|ran [|r|]]; cbn; try done.
  intros (n & Hn & Hr & Hb). exists n. split; [done|]. split; [done|].
  unfold bodyState in *. by rewrite H1, H2, H3.
Qed.

Lemma insert_lookup_cases {A} (l : list A) i x j y :
  (i < length l)%nat -> <[i := x]> l !! j = Some y ->
  (j = i /\ y = x) \/ (j <> i /\ l !! j = Some y).
Proof.
  intros Hlen H. destruct (decide (j = i)) as [->|Hne].
  - rewrite list_lookup_insert_eq in H by done. injection H as <-. by left.
  - rewrite list_lookup_insert_ne in H by done. by right.
Qed.

Ltac updated_thread Hlen Hj :=
  apply (insert_lookup_cases _ _ _ _ _ Hlen) in Hj as [[-> ->]|[Hne Hj]].

(** Two goroutines cannot hold the mutex together. *)
Lemma one_holder c0 f0 s l i j t t' :
  Inv c0 f0 (mkSystem s l) ->
  l !! i = Some t -> l !! j = Some t' ->
  holdsLock t = true -> holdsLock t' = true -> i = j.
Proof.
  intros HI Hi Hj Ht Ht'. destruct (decide (i = j)) as [|Hne]; [done|].
  pose proof (count_two holdsLock l i j t t' Hne Hi Hj Ht Ht') as H2.
  pose proof (inv_lock _ _ _ HI) as H1. cbn in H1.
  destruct (muDone (exec s)); lia.
Qed.

Lemma Inv_step c0 f0 sys i : Inv c0 f0 sys -> Inv c0 f0 (schedule env sys i).
Proof.
  intros HI. unfold schedule. destruct (threads sys !! i) as [t|] eqn:Hi; [|done].
  destruct sys as [s l]; cbn [threads shared] in *.
  assert (Hlen : (i < length l)%nat) by eauto using lookup_lt_Some.
  pose proof (fun j t t' => one_holder c0 f0 s l i j t t' HI) as Hone.
  pose proof HI as HI0.
  pose proof (fun y => count_insert holdsLock l i t y Hi) as CH.
  pose proof (fun y => count_insert ranBody l i t y Hi) as CR.
  pose proof (fun y => count_insert skipped l i t y Hi) as CS.
  pose proof (count_lookup holdsLock l i t Hi) as LH.
  pose proof (count_lookup ranBody l i t Hi) as LR.
  pose proof (inv_threads _ _ _ HI i t Hi) as Hti. cbn [shared] in Hti.
  destruct HI as [Hlock Honce Hbefore Hthreads Hflag Hcl Hfin]; cbn [threads shared] in *.
  destruct t as [| |rest|ran p|ran o]; cbn [threadStep].
  - (* Lock *)
    unfold lock. destruct (muDone (exec s)) eqn:Hmu; [exact HI0|].
    specialize (CH AtCheck). specialize (CR AtCheck). specialize (CS AtCheck).
    cbn in CH, CR, CS.
    constructor; cbn [threads shared exec world muDone setMuDone isDone doneChan].
    + lia.
    + lia.
    + intros H0. apply Hbefore. lia.
    + intros j t Hj. updated_thread Hlen Hj; [done|].
      eapply threadInv_ext; [..|by eapply Hthreads]; done.
    + intros Hd. destruct (Hflag Hd) as [Hs Hr]. split; [lia|].
      destruct Hr as [Hr|[j Hj]]; [left; lia|right; exists j].
      rewrite list_lookup_insert_ne; [done|]. intros ->. congruence.
    + done.
    + done.
  - (* the test of isDone *)
    destruct (isDone (exec s)) eqn:Hd.
    + specialize (CH (AtUnlock false None)). specialize (CR (AtUnlock false None)).
      specialize (CS (AtUnlock false None)). cbn in CH, CR, CS.
      constructor; cbn [threads shared].
      * lia.
      * lia.
      * intros H0. apply Hbefore. lia.
      * intros j t Hj. updated_thread Hlen Hj; [done|].
        by eapply Hthreads.
      * congruence.
      * done.
      * done.
    + specialize (CH (InBody doneBody)). specialize (CR (InBody doneBody)).
      specialize (CS (InBody doneBody)). cbn in CH, CR, CS.
      destruct (Hflag eq_refl) as [Hs Hr].
      assert (Hr0 : count ranBody l = 0%nat).
      { destruct Hr as [Hr|[j Hj]]; [done|].
        assert (i = j) as <- by (eapply Hone; eauto). congruence. }
      constructor; cbn [threads shared].
      * lia.
      * lia.
      * intros H0. lia.
      * intros j t Hj. updated_thread Hlen Hj.
        -- exists 0%nat. split; [lia|]. split; [done|]. by apply Hbefore.
        -- by eapply Hthreads.
      * intros _. split; [lia|]. right. exists i. by apply list_lookup_insert_eq.
      * done.
      * done.
  - (* a statement of the body *)
    destruct Hti as (n & Hn & Hrest & Hb).
    destruct rest as [|st rest].
    + (* the body is over *)
      assert (n = 7%nat) as ->.
      { apply (f_equal length) in Hrest. rewrite length_drop in Hrest. cbn in Hrest. lia. }
      specialize (CH (AtUnlock true None)). specialize (CR (AtUnlock true None)).
      specialize (CS (AtUnlock true None)). cbn in CH, CR, CS.
      destruct Hb as (Hd & _).
      constructor; cbn [threads shared].
      * lia.
      * lia.
      * intros H0. specialize (LR eq_refl). lia.
      * intros j t Hj. updated_thread Hlen Hj; [done|].
        by eapply Hthreads.
      * cbn in Hd. congruence.
      * done.
      * done.
    + pose proof (runStmt_step c0 f0 s n st rest (eq_sym Hrest) Hb) as Hstep.
      assert (Hothers : forall j t, j <> i -> l !! j = Some t -> holdsLock t = false).
      { intros j t Hne Hj. destruct (holdsLock t) eqn:Hh; [|done].
        exfalso. apply Hne. symmetry. eapply Hone; eauto. }
      destruct (runStmt env st s) as [[[]|r|] s'].
      * destruct Hstep as (Hb' & Hmu).
        specialize (CH (InBody rest)). specialize (CR (InBody rest)).
        specialize (CS (InBody rest)). cbn in CH, CR, CS.
        specialize (LR eq_refl).
        assert (Hrest' : rest = drop (S n) doneBody).
        { change rest with (drop 1 (st :: rest)) at 1.
          rewrite Hrest, drop_drop. f_equal. lia. }
        assert (HnS : (S n <= 7)%nat).
        { apply (f_equal length) in Hrest. rewrite length_drop in Hrest. cbn in Hrest. lia. }
        pose proof Hb' as (Hd' & Hc' & Hcl' & Hf1' & Hf2').
        constructor; cbn [threads shared].
        -- rewrite Hmu. lia.
        -- lia.
        -- intros H0. lia.
        -- intros j t Hj. updated_thread Hlen Hj.
           ++ by exists (S n).
           ++ pose proof (Hothers j t Hne Hj) as Hh. pose proof (Hthreads j t Hj) as Ht.
              destruct t as [| |?|? [?|]|? [|?|]]; try done.
        -- rewrite Hd'. done.
        -- destruct (4 <=? S n)%nat; lia.
        -- destruct (7 <=? S n)%nat; lia.
      * destruct Hstep as (-> & Hb' & Hn1 & Hmu).
        specialize (CH (AtUnlock true (Some nilDereference))).
        specialize (CR (AtUnlock true (Some nilDereference))).
        specialize (CS (AtUnlock true (Some nilDereference))). cbn in CH, CR, CS.
        specialize (LR eq_refl).
        pose proof Hb' as (Hd' & Hc' & Hcl' & Hf1' & Hf2').
        constructor; cbn [threads shared].
        -- rewrite Hmu. lia.
        -- lia.
        -- intros H0. lia.
        -- intros j t Hj. updated_thread Hlen Hj; [done|].
           pose proof (Hothers j t Hne Hj) as Hh. pose proof (Hthreads j t Hj) as Ht.
           destruct t as [| |?|? [?|]|? [|?|]]; try done.
        -- rewrite Hd'. destruct n; [lia|done].
        -- destruct (4 <=? n)%nat; lia.
        -- destruct (7 <=? n)%nat; lia.
      * done.
  - (* the deferred Unlock *)
    unfold unlock. specialize (LH eq_refl).
    destruct (muDone (exec s)) eqn:Hmu; [|lia].
    set (o := match p with Some r => Panicked r | None => Returned tt end).
    specialize (CH (Finished ran o)). specialize (CR (Finished ran o)).
    specialize (CS (Finished ran o)). cbn in CH, CR, CS.
    constructor; cbn [threads shared exec world muDone setMuDone isDone doneChan].
    + lia.
    + lia.
    + intros H0. apply Hbefore. lia.
    + intros j t Hj. updated_thread Hlen Hj.
      * subst o. by destruct p.
      * eapply threadInv_ext; [..|by eapply Hthreads]; done.
    + intros Hd. destruct (Hflag Hd) as [Hs Hr]. split; [lia|].
      destruct Hr as [Hr|[j Hj]]; [left; lia|right; exists j].
      rewrite list_lookup_insert_ne; [done|]. intros ->. congruence.
    + done.
    + done.
  - (* finished *)
    exact HI0.
Qed.

Lemma Inv_run c0 f0 sched : forall sys, Inv c0 f0 sys -> Inv c0 f0 (run env sched sys).
Proof.
  unfold run. induction sched as [|i sched IH]; intros sys HI; [done|].
  cbn [foldl]. apply IH. by apply Inv_step.
Qed.

Lemma Inv_start s n :
  isDone (exec s) = false ->
  muDone (exec s) = false ->
  doneChan (exec s) = chanOpen ->
  Inv (count isCloseChan (trace (world s))) (count isProgramFinished (trace (world s)))
      (mkSystem s (replicate n AtLock)).
Proof.
  intros Hd Hmu Hch.
  constructor; cbn [threads shared]; rewrite ?count_replicate; cbn.
  - by rewrite Hmu.
  - lia.
  - intros _. unfold bodyState. cbn. rewrite Hd, Hch. repeat split; lia.
  - intros j t Hj. apply lookup_replicate in Hj as [-> _]. done.
  - intros _. split; [done|by left].
  - lia.
  - lia.
Qed.

Lemma length_schedule sys i : length (threads (schedule env sys i)) = length (threads sys).
Proof.
  unfold schedule. destruct (threads sys !! i); [|done].
  destruct (threadStep env t (shared sys)) as [[t' s']|]; [|done].
  cbn. apply length_insert.
Qed.

Lemma length_run sched : forall sys, length (threads (run env sched sys)) = length (threads sys).
Proof.
  unfold run. induction sched as [|i sched IH]; intros sys; [done|].
  cbn [foldl]. by rewrite IH, length_schedule.
Qed.

Lemma finished_split l :
  Forall (fun t => isFinished t = true) l ->
  (count ranBody l + count skipped l)%nat = length l.
Proof.
  induction 1 as [|t l Ht _ IH]; [done|].
  destruct t as [| | | |[] o]; try discriminate Ht; cbn in *; lia.
Qed.

(** A call of [done] on an executor that is already done only takes
    and releases the mutex. *)
Lemma done_again s :
  isDone (exec s) = true -> muDone (exec s) = false -> done env s = (Returned tt, s).
Proof.
  destruct s as [[c ow ew cm co ce ci dn ch mu] w]. cbn. intros -> ->. reflexivity.
Qed.

Lemma runStmt_total st s :
  exists o s',
    runStmt env st s = (o, s') /\ o <> Blocked /\ muDone (exec s') = muDone (exec s).
Proof.
  open_state s.
  unfold_done.
  destruct st; cbn.
  - by eexists _, _.
  - destruct (0 <? ms)%Z; [destruct msg; [destruct (verbosity env)|]|]; by eexists _, _.
  - destruct ci; by eexists _, _.
  - destruct ch; by eexists _, _.
  - destruct ce; by eexists _, _.
  - destruct co; by eexists _, _.
  - destruct named; [destruct handler|]; by eexists _, _.
Qed.

Lemma withDefer_bind {S A B : Type} (d : M S unit) (m : M S A) (k : A -> M S B) s a s' :
  m s = (Returned a, s') -> withDefer d (bind m k) s = withDefer d (k a) s'.
Proof. intros H. unfold withDefer, bind. by rewrite H. Qed.

Lemma withDefer_bind_panic {S A B : Type} (d : M S unit) (m : M S A) (k : A -> M S B)
    s r s' :
  m s = (Panicked r, s') -> withDefer d (bind m k) s = withDefer d (panic r) s'.
Proof. intros H. unfold withDefer, bind, panic. by rewrite H. Qed.

Lemma schedule_at s l i t :
  l !! i = Some t ->
  schedule env (mkSystem s l) i =
  match threadStep env t s with
  | Some (t', s') => mkSystem s' (<[i := t']> l)
  | None => mkSystem s l
  end.
Proof. intros H. unfold schedule. cbn [threads shared]. by rewrite H. Qed.

Lemma run_S k i sys :
  run env (replicate (S k) i) sys = run env (replicate k i) (schedule env sys i).
Proof. reflexivity. Qed.

Lemma run_finished_at k i s l ran o :
  l !! i = Some (Finished ran o) ->
  run env (replicate k i) (mkSystem s l) = mkSystem s l.
Proof.
  intros H. induction k as [|k IH]; [done|].
  rewrite run_S, (schedule_at _ _ _ _ H). exact IH.
Qed.

(** A goroutine in the body, alone on the processor, runs the remaining
    statements and the deferred Unlock. *)
Lemma body_at rest : forall s l i,
  l !! i = Some (InBody rest) ->
  muDone (exec s) = true ->
  run env (replicate (length rest + 2) i) (mkSystem s l) =
  mkSystem (snd (withDefer unlock (runStmts env rest) s))
           (<[i := Finished true (fst (withDefer unlock (runStmts env rest) s))]> l).
Proof.
  induction rest as [|st rest IH]; intros s l i Hi Hmu.
  - assert (Hlen : (i < length l)%nat) by eauto using lookup_lt_Some.
    cbn [length Nat.add]. rewrite (run_S 1), (schedule_at _ _ _ _ Hi).
    cbn [threadStep shared threads].
    rewrite (run_S 0), (schedule_at _ _ _ (AtUnlock true None))
      by (by apply list_lookup_insert_eq).
    cbn [threadStep shared threads]. unfold withDefer, unlock, runStmts, ret.
    rewrite Hmu. cbn [fst snd]. by rewrite list_insert_insert_eq.
  - assert (Hlen : (i < length l)%nat) by eauto using lookup_lt_Some.
    destruct (runStmt_total st s) as (o & s' & Hst & Hnb & Hmu').
    change (length (st :: rest) + 2)%nat with (S (length rest + 2)).
    cbn [runStmts]. rewrite run_S, (schedule_at _ _ _ _ Hi).
    cbn [threadStep shared threads]. rewrite Hst.
    destruct o as [[]|r|]; [| |done].
    + rewrite (withDefer_bind _ _ _ _ _ _ Hst).
      rewrite IH; [|by apply list_lookup_insert_eq|congruence].
      by rewrite list_insert_insert_eq.
    + rewrite (withDefer_bind_panic _ _ _ _ _ _ Hst).
      destruct (length rest + 2)%nat as [|k] eqn:Hk; [lia|].
      rewrite run_S.
      rewrite (schedule_at _ _ _ (AtUnlock true (Some r)))
        by (by apply list_lookup_insert_eq).
      cbn [threadStep shared threads].
      unfold withDefer, panic, unlock. rewrite Hmu', Hmu. cbn [fst snd].
      rewrite list_insert_insert_eq.
      apply run_finished_at with (ran := true) (o := Panicked r).
      by apply list_lookup_insert_eq.
Qed.

(** One goroutine that is given eleven steps in a row goes through
    [done], whatever the others are waiting for. *)
Lemma done_at s l i :
  l !! i = Some AtLock ->
  muDone (exec s) = false ->
  exists ran,
    run env (replicate 11 i) (mkSystem s l) =
    mkSystem (snd (done env s)) (<[i := Finished ran (fst (done env s))]> l).
Proof.
  intros Hi Hmu.
  assert (Hlen : (i < length l)%nat) by eauto using lookup_lt_Some.
  set (s1 := mkES (setMuDone true (exec s)) (world s)).
  assert (Hdone : done env s =
                  withDefer unlock
                    (if isDone (exec s) then ret tt else runStmts env doneBody) s1).
  { unfold done, lock, bind at 1. rewrite Hmu. fold s1.
    by rewrite (withDefer_bind unlock (gets exec) _ s1 (exec s1) s1 eq_refl). }
  rewrite Hdone.
  rewrite (run_S 10), (schedule_at _ _ _ _ Hi). cbn [threadStep shared threads].
  unfold lock. rewrite Hmu. fold s1.
  rewrite (run_S 9), (schedule_at _ _ _ AtCheck) by (by apply list_lookup_insert_eq).
  cbn [threadStep shared threads]. rewrite list_insert_insert_eq.
  change (isDone (exec s1)) with (isDone (exec s)).
  destruct (isDone (exec s)) eqn:Hd.
  - exists false.
    rewrite (run_S 8).
    rewrite (schedule_at _ _ _ (AtUnlock false None)) by (by apply list_lookup_insert_eq).
    cbn [threadStep shared threads].
    unfold withDefer, unlock, ret. cbn [s1 exec muDone setMuDone fst snd].
    rewrite list_insert_insert_eq.
    apply run_finished_at with (ran := false) (o := Returned tt).
    by apply list_lookup_insert_eq.
  - exists true.
    pose proof (body_at doneBody s1 (<[i := InBody doneBody]> l) i) as H.
    rewrite list_insert_insert_eq in H. apply H; [|done].
    by apply list_lookup_insert_eq.
Qed.

Lemma done_releases s :
  muDone (exec s) = false -> muDone (exec (snd (done env s))) = false.
Proof.
  intros Hmu. unfold done, lock, bind at 1. rewrite Hmu.
  set (s1 := mkES (setMuDone true (exec s)) (world s)).
  assert (Hgen : forall rest s2, muDone (exec s2) = true ->
            muDone (exec (snd (withDefer unlock (runStmts env rest) s2))) = false).
  { induction rest as [|st rest IH]; intros s2 H2.
    - unfold withDefer, unlock, runStmts, ret. by rewrite H2.
    - destruct (runStmt_total st s2) as (o & s' & Hst & Hnb & Hmu').
      cbn [runStmts]. destruct o as [[]|r|]; [| |done].
      + rewrite (withDefer_bind _ _ _ _ _ _ Hst). apply IH. congruence.
      + rewrite (withDefer_bind_panic _ _ _ _ _ _ Hst).
        unfold withDefer, panic, unlock. by rewrite Hmu', H2. }
  rewrite (withDefer_bind unlock (gets exec) _ s1 (exec s1) s1 eq_refl).
  change (isDone (exec s1)) with (isDone (exec s)).
  destruct (isDone (exec s)); [|by apply Hgen].
  unfold withDefer, unlock, ret. reflexivity.
Qed.

Lemma run_app sched1 sched2 sys :
  run env (sched1 ++ sched2) sys = run env sched2 (run env sched1 sys).
Proof. unfold run. apply foldl_app. Qed.

(** Whatever the number of goroutines, some schedule lets all of them
    return. *)
Lemma all_return n : forall s finished,
  muDone (exec s) = false ->
  Forall (fun t => isFinished t = true) finished ->
  exists sched,
    Forall (fun t => isFinished t = true)
           (threads (run env sched (mkSystem s (finished ++ replicate n AtLock)))).
Proof.
  induction n as [|n IH]; intros s finished Hmu Hfin.
  - exists []. cbn. by rewrite app_nil_r.
  - set (i := length finished).
    assert (Hi : (finished ++ replicate (S n) AtLock) !! i = Some AtLock).
    { subst i. cbn [replicate]. by apply list_lookup_middle. }
    destruct (done_at s _ i Hi Hmu) as [ran Hrun].
    destruct (IH (snd (done env s)) (finished ++ [Finished ran (fst (done env s))]))
      as [sched Hsched].
    + by apply done_releases.
    + apply Forall_app. split; [done|]. by repeat constructor.
    + exists (replicate 11 i ++ sched).
      rewrite run_app, Hrun. subst i.
      replace (length finished) with (length finished + 0)%nat by lia.
      rewrite insert_app_r. cbn [replicate insert list_insert].
      by rewrite <- app_assoc in Hsched.
Qed.

(** One goroutine alone: eleven steps take it through [done]. *)
Lemma done_is_one_thread s :
  muDone (exec s) = false ->
  exists ran,
    run env (replicate 11 0%nat) (mkSystem s [AtLock]) =
    mkSystem (snd (done env s)) [Finished ran (fst (done env s))].
Proof. intros Hmu. exact (done_at s [AtLock] 0%nat eq_refl Hmu). Qed.

(** C5: start from an executor that is not done, with the mutex free
    and the completion channel open, and let any number of goroutines
    call done under any schedule.  At every moment at most one of them
    has gone past the test of isDone into the body, the completion
    channel has been closed at most once and the comms handler
    notified at most once since the start, and no goroutine panics on
    a second close.  When all of the n (at least one) goroutines have
    returned, exactly one has run the body and the other n - 1 have
    returned at the test; a later call of done changes nothing.  Some
    schedule lets all of them return. *)
Theorem done_runs_once n sched s :
  isDone (exec s) = false ->
  muDone (exec s) = false ->
  doneChan (exec s) = chanOpen ->
  let sys := run env sched (mkSystem s (replicate n AtLock)) in
  let before := trace (world s) in
  let after := trace (world (shared sys)) in
  (count ranBody (threads sys) <= 1)%nat /\
  (count isCloseChan after <= count isCloseChan before + 1)%nat /\
  (count isProgramFinished after <= count isProgramFinished before + 1)%nat /\
  (forall j ran r, threads sys !! j = Some (Finished ran (Panicked r)) ->
                   r = nilDereference) /\
  ((1 <= n)%nat -> Forall (fun t => isFinished t = true) (threads sys) ->
   count ranBody (threads sys) = 1%nat /\
   count skipped (threads sys) = (n - 1)%nat /\
   isDone (exec (shared sys)) = true /\
   muDone (exec (shared sys)) = false /\
   done env (shared sys) = (Returned tt, shared sys)) /\
  (exists sched',
     Forall (fun t => isFinished t = true)
            (threads (run env sched' (mkSystem s (replicate n AtLock))))).
Proof.
  intros Hd Hmu Hch sys before after.
  pose proof (Inv_run _ _ sched _ (Inv_start s n Hd Hmu Hch)) as HI.
  fold sys in HI. fold before in HI.
  destruct HI as [Hlock Honce Hbefore Hthreads Hflag Hcl Hfin].
  split; [done|]. split; [subst after; lia|]. split; [subst after; lia|].
  split; [|split; [|exact (all_return n s [] Hmu (Forall_nil_2 _))]].
  - intros j ran r Hj. by apply (Hthreads j _ Hj).
  - intros Hn Hall.
    assert (Hlen : length (threads sys) = n).
    { subst sys. rewrite length_run. cbn [threads]. apply length_replicate. }
    pose proof (finished_split _ Hall) as Hsplit.
    assert (Hdone : isDone (exec (shared sys)) = true).
    { destruct (isDone (exec (shared sys))) eqn:Hdn; [done|].
      destruct (Hflag eq_refl) as [Hs [Hr|[j Hj]]]; [lia|].
      rewrite Forall_lookup in Hall. by specialize (Hall j _ Hj). }
    assert (Hran : count ranBody (threads sys) = 1%nat).
    { destruct (count ranBody (threads sys)) as [|[|k]] eqn:Hr; [|done|lia].
      destruct (Hbefore eq_refl) as (Hdn & _). cbn in Hdn. congruence. }
    assert (Hfree : muDone (exec (shared sys)) = false).
    { destruct (muDone (exec (shared sys))) eqn:Hm; [|done].
      assert (count holdsLock (threads sys) = 0%nat); [|lia].
      clear -Hall. induction Hall as [|t l Ht _ IH]; [done|].
      by destruct t. }
    repeat split; [done|lia|done|done|by apply done_again].
Qed.

End Once.

(** * Instances of the theorems *)

(** The calm environment never fails to produce ids or wire parts. *)
Lemma calmEnv_transportOK : transportOK calmEnv.
Proof. split; intros; eexists; reflexivity. Defined.

(** A display id that is a number: an error, and the kernel is untouched. *)
Lemma PublishUpdateDisplayData_atomic_on_error_witness :
  mimeLookup (Data_Transient (withDisplayId (anyInt 7))) "display_id" = Some (anyInt 7) /\
  exists e logs,
    PublishUpdateDisplayData calmEnv (Some request) (withDisplayId (anyInt 7)) freshWorld =
      (Returned (Some e), mkWorld (kernel freshWorld) (trace freshWorld ++ logs)
                                  (tick freshWorld)) /\
    Forall (fun ev => isLog ev = true) logs.
Proof.
  split; [reflexivity|].
  apply (PublishUpdateDisplayData_atomic_on_error calmEnv).
  right. exists (anyInt 7). split; [reflexivity | intros d; discriminate].
Defined.

(** Three calls with the display id "plot" on a fresh kernel. *)
Lemma PublishUpdateDisplayData_create_then_update_witness :
  mimeLookup (Data_Transient (withDisplayId (anyString "plot"))) "display_id" =
    Some (anyString "plot") /\
  KnownBlockIds (kernel freshWorld) = ∅ /\
  sentTypes (trace (snd (calls 3 (PublishUpdateDisplayData calmEnv (Some request)
                                    (withDisplayId (anyString "plot"))) freshWorld))) =
  ["display_data"; "update_display_data"; "update_display_data"].
Proof.
  split; [reflexivity|]. split; [reflexivity|].
  destruct (PublishUpdateDisplayData_create_then_update calmEnv request
              (withDisplayId (anyString "plot")) "plot" eq_refl) as (_ & _ & _ & H).
  exact (H freshWorld eq_refl calmEnv_transportOK).
Defined.

(** A child that exits with status 1: [Exec] returns nil all the same. *)
Lemma Exec_child_exit_is_streamed_witness :
  let s := mkES (New (Some request) "prog" []) freshWorld in
  let os := childExits (Some (errorString "exit status 1")) in
  Msg (config (exec s)) = Some request /\
  muDone (exec s) = false /\
  Start os = inr 100%nat /\
  Wait os = Some (Some (errorString "exit status 1")) /\
  fst (Exec calmEnv os s) = Returned None.
Proof.
  cbn zeta. repeat (split; [reflexivity|]).
  destruct (Exec_child_exit_is_streamed calmEnv
              (childExits (Some (errorString "exit status 1")))
              (mkES (New (Some request) "prog" []) freshWorld)
              request 3%nat 4%nat 5%nat 100%nat (Some (errorString "exit status 1"))
              eq_refl eq_refl eq_refl eq_refl eq_refl (fun _ => eq_refl) eq_refl eq_refl)
    as ((tail & H & _) & _).
  exact H.
Defined.

(** Two goroutines race through [done]: one runs the body, one returns
    at the test. *)
Lemma done_runs_once_witness :
  let s := mkES startedExecutor freshWorld in
  let sys := run calmEnv twoTriggers (mkSystem s (replicate 2 AtLock)) in
  isDone (exec s) = false /\
  muDone (exec s) = false /\
  doneChan (exec s) = chanOpen /\
  Forall (fun t => isFinished t = true) (threads sys) /\
  count ranBody (threads sys) = 1%nat /\
  count skipped (threads sys) = 1%nat.
Proof.
  cbn zeta. repeat (split; [reflexivity|]).
  destruct (done_runs_once calmEnv 2 twoTriggers (mkES startedExecutor freshWorld)
              eq_refl eq_refl eq_refl) as (_ & _ & _ & _ & H & _).
  assert (Hall : Forall (fun t => isFinished t = true)
            (threads (run calmEnv twoTriggers
                        (mkSystem (mkES startedExecutor freshWorld) (replicate 2 AtLock))))).
  { vm_compute. repeat constructor. }
  split; [exact Hall|].
  destruct (H (le_S 1 1 (le_n 1)) Hall) as (H1 & H2 & _). split; [exact H1 | exact H2].
Defined.

(** One subscription, a child that ignores the interrupt, and a second
    interrupt request after the first. *)
Lemma interrupt_then_kill_witness :
  let w := snd (SubscribeInterrupt (execInterrupt 100%nat) freshWorld) in
  subscriptions (kernel w) = {[0%nat := execInterrupt 100%nat]} /\
  doneWins stubborn = false /\
  waited stubborn = WaitToKill /\
  requestInterrupt stubborn w = onInterrupt stubborn 100%nat 0%nat w /\
  requestInterrupt stubborn (snd (onInterrupt stubborn 100%nat 0%nat w)) =
    (Returned tt, snd (onInterrupt stubborn 100%nat 0%nat w)).
Proof.
  cbn zeta.
  assert (Hsub : subscriptions
                   (kernel (snd (SubscribeInterrupt (execInterrupt 100%nat) freshWorld))) =
                 {[0%nat := execInterrupt 100%nat]}).
  { cbn. apply insert_empty. }
  split; [exact Hsub|]. split; [reflexivity|].
  destruct (interrupt_then_kill stubborn 100%nat 0%nat
              (snd (SubscribeInterrupt (execInterrupt 100%nat) freshWorld)))
    as (_ & _ & _ & _ & Hkill & _ & Hagain).
  split; [exact (Hkill eq_refl)|].
  destruct (Hagain Hsub) as [H1 H2]. split; [exact H1 | exact (H2 stubborn)].
Defined.

(** A second prompt replaces the registered callback; a delivery with
    an empty slot does nothing; a delivery to a callback that leaves
    the kernel alone leaves the registration in place. *)
Lemma pending_input_is_one_slot_witness :
  let w := mkWorld (registerInput request (Some (onInputFn 1)) freshKernel) [] O in
  (exists w' logs,
     PromptInput calmEnv request " " false (Some (onInputFn 2)) w = (Returned None, w') /\
     trace w' = trace w ++ logs ++
       [EvSend StdinSocket
          (envelope calmEnv "id" "input_request" (Composed request)
             (contentMap (<["prompt" := anyString " "]>
                            (<["password" := anyBool false]> ∅))) O)
          (Identities request ++ [list_byte_of_string "<IDS|MSG>"] ++ [])] /\
     Forall (fun e => isLog e = true) logs /\
     stdinMsg (kernel w') = Some request /\
     stdinFn (kernel w') = Some (onInputFn 2)) /\
  stdinMsg (kernel freshWorld) = None /\
  DeliverInput calmEnv request freshWorld =
    (Returned None, snd (klogV calmEnv 1 "MessageImpl.DeliverInput()" freshWorld)) /\
  stdinMsg (kernel w) = Some request /\
  stdinFn (kernel w) = Some (onInputFn 1) /\
  stdinMsg (kernel (snd (DeliverInput calmEnv request w))) = Some request.
Proof.
  cbn zeta.
  destruct (pending_input_is_one_slot calmEnv) as (Hprompt & Hempty & Hdeliver).
  split.
  { exact (Hprompt request " " false (Some (onInputFn 2))
             (mkWorld (registerInput request (Some (onInputFn 1)) freshKernel) [] O)
             "id" [] eq_refl eq_refl eq_refl). }
  split; [reflexivity|].
  split; [exact (proj1 (Hempty request freshWorld eq_refl))|].
  split; [reflexivity|]. split; [reflexivity|].
  destruct (Hdeliver request
              (mkWorld (registerInput request (Some (onInputFn 1)) freshKernel) [] O)
              request (onInputFn 1) eq_refl eq_refl) as (_ & _ & Hkeep).
  exact (proj1 (Hkeep eq_refl)).
Defined.

(** * Runs on concrete inputs *)

Example three_updates :
  sentTypes (trace (snd (calls 3 (PublishUpdateDisplayData calmEnv (Some request)
                                    (withDisplayId (anyString "plot"))) freshWorld))) =
  ["display_data"; "update_display_data"; "update_display_data"].
Proof. reflexivity. Qed.

Example missing_display_id :
  fst (PublishUpdateDisplayData calmEnv (Some request) (mkData None None None) freshWorld) =
  Returned (Some (errorString
    "PublishUpdateDisplayData without a Trasient[display_id] set!?")).
Proof. reflexivity. Qed.

Example write_five_bytes :
  fst (Write calmEnv StreamStdout (Some request) (list_byte_of_string "hello") freshWorld) =
  Returned (5, None).
Proof. reflexivity. Qed.

Example interrupt_ignored :
  trace (snd (onInterrupt stubborn 100%nat 0%nat freshWorld)) =
  [EvSignal (ToProcess 100%nat) SIGINT; EvWait 5000000000;
   EvSignal (ToProcess 100%nat) SIGKILL].
Proof. reflexivity. Qed.

Example interrupt_obeyed :
  trace (snd (onInterrupt obedient 100%nat 0%nat freshWorld)) =
  [EvSignal (ToProcess 100%nat) SIGINT; EvWait 1000000000].
Proof. reflexivity. Qed.

Example start_failure :
  fst (Exec calmEnv (noStart (errorString "no such file"))
         (mkES (New (Some request) "prog" []) freshWorld)) =
  Returned (Some (withMessage (errorString "no such file")
                    "failed to start to execute command prog")).
Proof. reflexivity. Qed.

Example exit_status_is_streamed :
  sentTypes (trace (world (snd (Exec calmEnv
                                  (childExits (Some (errorString "exit status 1")))
                                  (mkES (New (Some request) "prog" []) freshWorld))))) =
  ["stream"].
Proof. reflexivity. Qed.

Example two_triggers :
  let sys := run calmEnv twoTriggers
               (mkSystem (mkES startedExecutor freshWorld) (replicate 2 AtLock)) in
  threads sys = [Finished true (Returned tt); Finished false (Returned tt)] /\
  trace (world (shared sys)) =
    [EvClose 5%nat; EvCloseChan; EvClose 4%nat; EvClose 3%nat; EvProgramFinished].
Proof. split; reflexivity. Qed.

(** * Further properties of the kernel messages *)

Section MessageProperties.
Context (env : Env).

Lemma since_app w tr k t :
  since w (mkWorld k (trace w ++ tr) t) = tr.
Proof. unfold since. cbn [trace]. by rewrite drop_app_length. Qed.

Lemma sendsOf_app tr1 tr2 : sendsOf (tr1 ++ tr2) = sendsOf tr1 ++ sendsOf tr2.
Proof. apply List.filter_app. Qed.

Lemma sendsOf_logs logs : Forall (fun e => isLog e = true) logs -> sendsOf logs = [].
Proof.
  induction 1 as [|e l He _ IH]; [done|].
  destruct e; try discriminate He. exact IH.
Qed.

(** Both senders at once: the socket and the log line are the only
    difference between [Publish] and [Reply]. *)
Lemma delivery_spec (socket : Socket) (format : string) m msgType c w :
  exists logs t,
    (r <- NewComposed env msgType (Composed m) ;;
     match snd r with
     | Some e => ret (Some e)
     | None =>
         klogV env 1 format ;;
         RunLocked socket (fun s => sendMessage env m s (setContent c (fst r)))
     end)%go w =
    (Returned (deliveryResult env socket m msgType c (tick w)),
     mkWorld (kernel w)
             (trace w ++ logs ++ deliveryEvents env socket m msgType c (tick w)) t) /\
    Forall (fun e => isLog e = true) logs.
Proof.
  unfold deliveryResult, deliveryEvents, bind. rewrite NewComposed_spec. cbn [fst snd].
  destruct (uuidNewV4 env (tick w)) as [e|u] eqn:Hu.
  - exists [], (S (tick w)). cbn. rewrite app_nil_r. by split.
  - rewrite klogV_spec. unfold RunLocked, sendMessage, setContent.
    cbn [Header ParentHeader Metadata].
    fold (envelope env u msgType (Composed m) c (tick w)).
    destruct (ToWireMsg env (envelope env u msgType (Composed m) c (tick w)))
      as [e|parts] eqn:Hw;
      destruct (1 <=? verbosity env)%nat.
    all: unfold emit, nextTick; cbn [kernel trace tick].
    + exists [EvLog Info format], (S (tick w)). rewrite app_nil_r.
      split; [done | by repeat constructor].
    + exists [], (S (tick w)). rewrite !app_nil_r. split; [done | constructor].
    + exists [EvLog Info format], (S (S (tick w))). rewrite <- app_assoc.
      split; [done | by repeat constructor].
    + exists [], (S (S (tick w))). split; [done | constructor].
Qed.

Lemma since_extends w w' tr : trace w' = trace w ++ tr -> since w w' = tr.
Proof. intros H. unfold since. rewrite H. by rewrite drop_app_length. Qed.

Lemma deliveryEvents_sends socket m msgType c t logs :
  Forall (fun e => isLog e = true) logs ->
  sendsOf (logs ++ deliveryEvents env socket m msgType c t) =
  deliveryEvents env socket m msgType c t.
Proof.
  intros H. rewrite sendsOf_app, (sendsOf_logs logs H). cbn [app].
  unfold deliveryEvents. destruct (uuidNewV4 env t); [done|].
  by destruct (ToWireMsg env _).
Qed.

Lemma deliveryEvents_length socket m msgType c t :
  (length (deliveryEvents env socket m msgType c t) <= 1)%nat.
Proof.
  unfold deliveryEvents. destruct (uuidNewV4 env t); cbn; [lia|].
  destruct (ToWireMsg env _); cbn; lia.
Qed.

Lemma deliveryResult_nil socket m msgType c t :
  deliveryResult env socket m msgType c t = None ->
  exists msg parts,
    deliveryEvents env socket m msgType c t =
      [EvSend socket msg (Identities m ++ [list_byte_of_string "<IDS|MSG>"] ++ parts)] /\
    ToWireMsg env msg = inr parts /\
    SendMulti env (S t) socket
      (Identities m ++ [list_byte_of_string "<IDS|MSG>"] ++ parts) = None /\
    Content msg = c /\
    MsgType (Header msg) = msgType /\
    ParentHeader msg = Header (Composed m).
Proof.
  unfold deliveryResult, deliveryEvents.
  destruct (uuidNewV4 env t) as [e|u]; [done|].
  destruct (ToWireMsg env (envelope env u msgType (Composed m) c t)) as [e|parts] eqn:Hw;
    [done|].
  intros Hs. by exists (envelope env u msgType (Composed m) c t), parts.
Qed.

Lemma deliveryResult_no_id socket m msgType c t e :
  uuidNewV4 env t = inl e ->
  deliveryResult env socket m msgType c t = Some e /\
  deliveryEvents env socket m msgType c t = [].
Proof. unfold deliveryResult, deliveryEvents. by intros ->. Qed.

Lemma deliveryResult_no_wire socket m msgType c t :
  (forall msg, exists e, ToWireMsg env msg = inl e) ->
  deliveryResult env socket m msgType c t <> None /\
  deliveryEvents env socket m msgType c t = [].
Proof.
  intros H. unfold deliveryResult, deliveryEvents.
  destruct (uuidNewV4 env t) as [e|u]; [done|].
  by destruct (H (envelope env u msgType (Composed m) c t)) as [e ->].
Qed.

(** X1: [Publish] always returns and never touches the kernel.  It
    sends at most one message; a nil result means that exactly one
    message went out, on the IOPub socket, framed as the identities of
    the request, the delimiter and the wire parts of an envelope of the
    given type and content whose parent header is the request's
    header.  When no id can be drawn, or no wire message can be built,
    the error is returned and nothing is sent. *)
Theorem Publish_one_message_on_IOPub m msgType c w :
  exists r w',
    Publish env m msgType c w = (Returned r, w') /\
    kernel w' = kernel w /\
    trace w' = trace w ++ since w w' /\
    (length (sendsOf (since w w')) <= 1)%nat /\
    (r = None ->
     exists msg parts,
       sendsOf (since w w') =
         [EvSend IOPubSocket msg
                 (Identities m ++ [list_byte_of_string "<IDS|MSG>"] ++ parts)] /\
       ToWireMsg env msg = inr parts /\
       Content msg = c /\
       MsgType (Header msg) = msgType /\
       ParentHeader msg = Header (Composed m)) /\
    (forall e, uuidNewV4 env (tick w) = inl e ->
               r = Some e /\ sendsOf (since w w') = []) /\
    ((forall msg, exists e, ToWireMsg env msg = inl e) ->
     r <> None /\ sendsOf (since w w') = []).
Proof.
  unfold Publish.
  destruct (delivery_spec IOPubSocket "[IOPub] Publish message %q -- parent msg_id=%q"
              m msgType c w) as (logs & t & -> & Hlogs).
  eexists _, _. split; [reflexivity|]. cbn [kernel trace].
  rewrite since_app, deliveryEvents_sends by done.
  split; [done|]. split; [done|]. split; [apply deliveryEvents_length|].
  split; [|split].
  - intros H. destruct (deliveryResult_nil _ _ _ _ _ H)
      as (msg & parts & ? & ? & ? & ? & ? & ?).
    by exists msg, parts.
  - intros e He. by apply deliveryResult_no_id.
  - intros H. by apply deliveryResult_no_wire.
Qed.

(** X2: [Reply] is the same delivery on the Shell socket: it always
    returns, leaves the kernel alone, sends at most one message and
    never one on another socket than Shell; a nil result means that
    exactly one message went out there, with the request's identities
    in front, and that the transport accepted it at the tick after the
    one at which the id was drawn. *)
Theorem Reply_one_message_on_Shell m msgType c w :
  exists r w',
    Reply env m msgType c w = (Returned r, w') /\
    kernel w' = kernel w /\
    trace w' = trace w ++ since w w' /\
    (length (sendsOf (since w w')) <= 1)%nat /\
    sentTypes (since w w') = [] /\
    (r = None ->
     exists msg parts,
       sendsOf (since w w') =
         [EvSend ShellSocket msg
                 (Identities m ++ [list_byte_of_string "<IDS|MSG>"] ++ parts)] /\
       ToWireMsg env msg = inr parts /\
       SendMulti env (S (tick w)) ShellSocket
         (Identities m ++ [list_byte_of_string "<IDS|MSG>"] ++ parts) = None /\
       Content msg = c /\
       MsgType (Header msg) = msgType /\
       ParentHeader msg = Header (Composed m)).
Proof.
  unfold Reply.
  destruct (delivery_spec ShellSocket "[Shell] Reply message %q, parent msg_id=%q"
              m msgType c w) as (logs & t & -> & Hlogs).
  eexists _, _. split; [reflexivity|]. cbn [kernel trace].
  rewrite since_app, deliveryEvents_sends by done.
  split; [done|]. split; [done|]. split; [apply deliveryEvents_length|].
  split.
  - rewrite sentTypes_app, (sentTypes_logs logs Hlogs). unfold deliveryEvents.
    destruct (uuidNewV4 env (tick w)); [done|]. by destruct (ToWireMsg env _).
  - intros H. by apply deliveryResult_nil.
Qed.

Lemma publishEvents_maps m msgType c t :
  (forall msg frames, mapsPresent (EvSend IOPubSocket (setContent c msg) frames) = true) ->
  Forall (fun e => mapsPresent e = true) (publishEvents env m msgType c t).
Proof.
  intros H. unfold publishEvents. destruct (uuidNewV4 env t) as [|u]; [constructor|].
  apply Forall_app. split.
  - destruct (1 <=? verbosity env)%nat; by repeat constructor.
  - destruct (ToWireMsg env _) as [|parts]; [constructor|].
    repeat constructor.
    exact (H (envelope env u msgType (Composed m) contentNil t) _).
Qed.

Lemma logs_maps logs :
  Forall (fun e => isLog e = true) logs -> Forall (fun e => mapsPresent e = true) logs.
Proof. intros H. eapply Forall_impl; [exact H|]. by intros []. Qed.

Lemma logging_spec data w :
  (if (1 <=? verbosity env)%nat then LogDisplayData (Data_Data data) else ret tt) w =
  (Returned tt, logged env data w).
Proof. unfold logged. destruct (1 <=? verbosity env)%nat; reflexivity. Qed.

Lemma PublishData_logged msg data w :
  PublishData env msg data w = PublishDisplayData env msg data (logged env data w).
Proof. unfold PublishData, bind. by rewrite logging_spec. Qed.

(** Without a string under [display_id] the call ends after the
    logging. *)
Lemma PublishUpdateDisplayData_rejects msg data w :
  (forall d, mimeLookup (Data_Transient data) "display_id" <> Some (anyString d)) ->
  exists e,
    PublishUpdateDisplayData env msg data w = (Returned (Some e), logged env data w).
Proof.
  intros H. unfold PublishUpdateDisplayData, bind at 1. rewrite logging_spec.
  destruct (mimeLookup (Data_Transient data) "display_id") as [v|]; [|by eexists].
  destruct v; try by eexists. by destruct (H s).
Qed.

(** X3: the metadata and the transient map of whatever
    PublishDisplayData, PublishData, PublishExecuteResult and
    PublishUpdateDisplayData send are never nil, whatever the caller
    passed: the first three replace a nil map by an empty one, and the
    last one passes the transient map on as it is, which holds the
    display id and so is not nil. *)
Theorem display_maps_are_never_nil m data w :
  Forall (fun e => mapsPresent e = true)
         (since w (snd (PublishDisplayData env (Some m) data w))) /\
  Forall (fun e => mapsPresent e = true)
         (since w (snd (PublishData env (Some m) data w))) /\
  Forall (fun e => mapsPresent e = true)
         (since w (snd (PublishExecuteResult env (Some m) data w))) /\
  Forall (fun e => mapsPresent e = true)
         (since w (snd (PublishUpdateDisplayData env (Some m) data w))).
Proof.
  assert (Hens : forall b, exists x, EnsureMIMEMap b = Some x)
    by (intros [x|]; eauto).
  split; [|split; [|split]].
  - unfold PublishDisplayData.
    match goal with |- context [Publish env m ?ty ?c w] =>
      destruct (Publish_spec env m ty c w) as (r & t & ->) end.
    cbn [snd]. rewrite since_app. apply publishEvents_maps. intros msg frames. cbn.
    destruct (Hens (Data_Metadata data)) as [x ->].
    by destruct (Hens (Data_Transient data)) as [y ->].
  - rewrite PublishData_logged. unfold PublishDisplayData.
    destruct (logged_spec env data w) as (logs & -> & Hlogs).
    match goal with |- context [Publish env m ?ty ?c ?w0] =>
      destruct (Publish_spec env m ty c w0) as (r & t & ->) end.
    cbn [snd kernel trace tick]. rewrite <- app_assoc, since_app.
    apply Forall_app. split; [by apply logs_maps|].
    apply publishEvents_maps. intros msg frames. cbn.
    destruct (Hens (Data_Metadata data)) as [x ->].
    by destruct (Hens (Data_Transient data)) as [y ->].
  - unfold PublishExecuteResult, bind, gets.
    match goal with |- context [Publish env m ?ty ?c w] =>
      destruct (Publish_spec env m ty c w) as (r & t & ->) end.
    cbn [snd]. rewrite since_app. apply publishEvents_maps. intros msg frames. cbn.
    destruct (Hens (Data_Metadata data)) as [x ->].
    by destruct (Hens (Data_Transient data)) as [y ->].
  - destruct (mimeLookup (Data_Transient data) "display_id") as [[| d | | |]|] eqn:Hd.
    2: { destruct (PublishUpdateDisplayData_step env m data d w Hd)
           as (r & logs & t & -> & Hlogs).
         cbn [snd]. rewrite since_app. apply Forall_app. split; [by apply logs_maps|].
         apply publishEvents_maps. intros msg frames. cbn.
         destruct (Hens (Data_Metadata data)) as [x ->].
         destruct (Data_Transient data); [done | discriminate Hd]. }
    all: destruct (PublishUpdateDisplayData_rejects (Some m) data w) as (e & ->);
      [by rewrite Hd|];
      destruct (logged_spec env data w) as (logs & -> & Hlogs);
      cbn [snd]; rewrite since_app; by apply logs_maps.
Qed.

(** X4: what the publishing functions do with a nil message.
    PublishDisplayData and PublishData return nil and send nothing;
    PublishWriteStream returns nil after one Info log line, at any
    verbosity, and so a stream writer without a message swallows what is
    written to it; PublishExecuteResult panics on the nil interface, and
    so does PublishUpdateDisplayData once it has found a string display
    id, before the id is recorded.  None of them changes the kernel. *)
Theorem nil_message_publishing data stream text p w :
  PublishDisplayData env None data w = (Returned None, w) /\
  (exists w',
     PublishData env None data w = (Returned None, w') /\
     kernel w' = kernel w /\ sendsOf (since w w') = []) /\
  PublishWriteStream env None stream text w =
    (Returned None, emit (EvLog Info "PublishWriteStream(nil, %s): %q") w) /\
  (exists w',
     Write env stream None p w = (Returned (Z.of_nat (length p), None), w') /\
     kernel w' = kernel w /\ sendsOf (since w w') = []) /\
  PublishExecuteResult env None data w = (Panicked nilDereference, w) /\
  (forall d,
     mimeLookup (Data_Transient data) "display_id" = Some (anyString d) ->
     exists w',
       PublishUpdateDisplayData env None data w = (Panicked nilDereference, w') /\
       kernel w' = kernel w /\ sendsOf (since w w') = []).
Proof.
  split; [reflexivity|]. split; [|split; [reflexivity|split; [|split; [reflexivity|]]]].
  - rewrite PublishData_logged. destruct (logged_spec env data w) as (logs & -> & Hlogs).
    eexists. split; [reflexivity|]. split; [reflexivity|].
    by rewrite since_app, sendsOf_logs.
  - eexists. split; [reflexivity|]. split; [reflexivity|].
    by rewrite (since_extends _ _ [EvLog Info "PublishWriteStream(nil, %s): %q"]).
  - intros d Hd. unfold PublishUpdateDisplayData, bind at 1. rewrite logging_spec, Hd.
    destruct (logged_spec env data w) as (logs & -> & Hlogs).
    eexists. split; [reflexivity|]. split; [reflexivity|].
    by rewrite since_app, sendsOf_logs.
Qed.

(** The result of [PromptInput]: the error of the id is wrapped with
    one message, an error of the delivery with another. *)
Lemma PromptInput_spec m prompt password onInput w :
  let c := contentMap (<["prompt" := anyString prompt]>
                         (<["password" := anyBool password]> ∅)) in
  let sent := deliveryResult env StdinSocket m "input_request" c (tick w) in
  exists logs t,
    PromptInput env m prompt password onInput w =
      (Returned
         match uuidNewV4 env (tick w) with
         | inl e =>
             Some (withMessage e
                     "MessageImpl.PromptInput(): creating an input_request message")
         | inr _ =>
             match sent with
             | Some e =>
                 Some (withMessage e
                         "MessageImpl.PromptInput(): sending input_request message")
             | None => None
             end
         end,
       mkWorld (match sent with
                | None => registerInput m onInput (kernel w)
                | Some _ => kernel w
                end)
               (trace w ++ logs ++
                deliveryEvents env StdinSocket m "input_request" c (tick w))
               t) /\
    Forall (fun e => isLog e = true) logs.
Proof.
  intros c sent. subst sent c. unfold deliveryResult, deliveryEvents.
  unfold PromptInput, bind. rewrite klogV_spec, NewComposed_spec. cbn [fst snd].
  set (c := contentMap _).
  assert (Ht : forall b (e : Event), tick (if b : bool then emit e w else w) = tick w)
    by (intros []; reflexivity).
  rewrite !Ht.
  destruct (uuidNewV4 env (tick w)) as [e|u] eqn:Hu.
  - destruct (1 <=? verbosity env)%nat.
    + exists [EvLog Info "MessageImpl.PromptInput(%q, %v)"], (S (tick w)).
      unfold ret, nextTick, emit. cbn [kernel trace tick].
      rewrite ?app_nil_r, <- ?app_assoc. split; [reflexivity | by repeat constructor].
    + exists [], (S (tick w)).
      unfold ret, nextTick, emit. cbn [kernel trace tick].
      rewrite ?app_nil_r. split; [reflexivity | constructor].
  - rewrite klogV_spec. unfold RunLocked, sendMessage, setContent.
    cbn [Header ParentHeader Metadata].
    fold (envelope env u "input_request" (Composed m) c (tick w)).
    destruct (ToWireMsg env (envelope env u "input_request" (Composed m) c (tick w)))
      as [e|parts] eqn:Hw.
    + destruct (1 <=? verbosity env)%nat.
      * exists [EvLog Info "MessageImpl.PromptInput(%q, %v)";
                EvLog Info "Stdin(%v) input request"], (S (tick w)).
        unfold ret, nextTick, emit. cbn [kernel trace tick].
        rewrite ?app_nil_r, <- ?app_assoc. split; [reflexivity | by repeat constructor].
      * exists [], (S (tick w)).
        unfold ret, nextTick, emit. cbn [kernel trace tick].
        rewrite ?app_nil_r. split; [reflexivity | constructor].
    + destruct (1 <=? verbosity env)%nat; cbn [tick nextTick emit kernel trace];
        destruct (SendMulti env (S (tick w)) StdinSocket _) as [e|];
        unfold modify, ret, setKernel, nextTick, emit; cbn [kernel trace tick].
      * exists [EvLog Info "MessageImpl.PromptInput(%q, %v)";
                EvLog Info "Stdin(%v) input request"], (S (S (tick w))).
        rewrite <- !app_assoc. split; [reflexivity | by repeat constructor].
      * exists [EvLog Info "MessageImpl.PromptInput(%q, %v)";
                EvLog Info "Stdin(%v) input request"], (S (S (tick w))).
        rewrite <- !app_assoc. split; [reflexivity | by repeat constructor].
      * exists [], (S (S (tick w))). split; [reflexivity | constructor].
      * exists [], (S (S (tick w))). split; [reflexivity | constructor].
Qed.

(** X5: [PromptInput] registers the callback only when the
    input_request went out.  It always returns and sends at most one
    message, never on IOPub.  When it returns an error, the kernel is
    as before, so an earlier registration is still in place, and the
    error is the cause wrapped with one of the two messages of
    PromptInput; when it returns nil, exactly one message was sent, on
    the stdin socket, with the prompt and the password flag, and only
    the two fields of the registration have changed. *)
Theorem PromptInput_registers_only_on_success m prompt password onInput w :
  exists r w',
    PromptInput env m prompt password onInput w = (Returned r, w') /\
    trace w' = trace w ++ since w w' /\
    (length (sendsOf (since w w')) <= 1)%nat /\
    sentTypes (since w w') = [] /\
    match r with
    | Some e =>
        kernel w' = kernel w /\
        exists cause,
          e = withMessage cause
                "MessageImpl.PromptInput(): creating an input_request message" \/
          e = withMessage cause
                "MessageImpl.PromptInput(): sending input_request message"
    | None =>
        kernel w' = registerInput m onInput (kernel w) /\
        exists msg parts,
          sendsOf (since w w') =
            [EvSend StdinSocket msg
                    (Identities m ++ [list_byte_of_string "<IDS|MSG>"] ++ parts)] /\
          MsgType (Header msg) = "input_request" /\
          Content msg = contentMap (<["prompt" := anyString prompt]>
                                      (<["password" := anyBool password]> ∅))
    end.
Proof.
  destruct (PromptInput_spec m prompt password onInput w) as (logs & t & -> & Hlogs).
  eexists _, _. split; [reflexivity|]. cbn [kernel trace].
  rewrite since_app, deliveryEvents_sends by done.
  split; [done|]. split; [apply deliveryEvents_length|]. split.
  { rewrite sentTypes_app, (sentTypes_logs logs Hlogs). unfold deliveryEvents.
    destruct (uuidNewV4 env (tick w)); [done|]. by destruct (ToWireMsg env _). }
  destruct (uuidNewV4 env (tick w)) as [e|u] eqn:Hu.
  - destruct (deliveryResult_no_id StdinSocket m "input_request"
                (contentMap (<["prompt" := anyString prompt]>
                               (<["password" := anyBool password]> ∅)))
                (tick w) e Hu) as [-> _].
    split; [done|]. exists e. by left.
  - destruct (deliveryResult env StdinSocket m "input_request" _ (tick w))
      as [e|] eqn:Hr.
    + split; [done|]. exists e. by right.
    + split; [done|].
      destruct (deliveryResult_nil _ _ _ _ _ Hr) as (msg & parts & ? & ? & ? & ? & ? & ?).
      by exists msg, parts.
Qed.

(** X6: a successful [PromptInput] followed by [DeliverInput] reaches
    the callback that was just registered, with the prompting message
    as the original and the delivered one as the input; a call of
    [CancelInput] in between changes nothing, since it only logs.  When
    the callback registered was nil, the delivery panics. *)
Theorem prompt_then_deliver m prompt password onInput input (cancel : bool) w :
  fst (PromptInput env m prompt password onInput w) = Returned None ->
  let w1 := snd (PromptInput env m prompt password onInput w) in
  let w2 := if cancel then snd (CancelInput env m w1) else w1 in
  fst (CancelInput env m w1) = Returned None /\
  kernel w2 = kernel w1 /\
  sendsOf (since w1 w2) = [] /\
  match onInput with
  | Some fn =>
      DeliverInput env input w2 =
        callOnInput env fn m input (snd (klogV env 1 "MessageImpl.DeliverInput()" w2))
  | None => fst (DeliverInput env input w2) = Panicked nilDereference
  end.
Proof.
  intros Hr w1 w2.
  destruct (PromptInput_spec m prompt password onInput w) as (logs & t & Heq & Hlogs).
  subst w2 w1. rewrite Heq in *. cbn [fst snd] in *.
  assert (Hs : deliveryResult env StdinSocket m "input_request"
                 (contentMap (<["prompt" := anyString prompt]>
                                (<["password" := anyBool password]> ∅)))
                 (tick w) = None).
  { destruct (uuidNewV4 env (tick w)) as [e|u] eqn:Hu; [discriminate Hr|].
    by destruct (deliveryResult _ _ _ _ _ _). }
  rewrite Hs. clear Hr Heq.
  set (w1 := mkWorld _ _ t).
  assert (Hc : CancelInput env m w1 =
               (Returned None,
                if (1 <=? verbosity env)%nat
                then emit (EvLog Info "MessageImpl.CancelInput()") w1 else w1)).
  { unfold CancelInput, bind. by rewrite klogV_spec. }
  rewrite Hc. cbn [fst snd].
  set (w2 := if cancel then _ else w1).
  assert (Hk2 : kernel w2 = kernel w1).
  { subst w2. destruct cancel; [|done]. by destruct (1 <=? verbosity env)%nat. }
  split; [done|]. split; [exact Hk2|]. split.
  { subst w2. destruct cancel.
    - destruct (1 <=? verbosity env)%nat.
      + by rewrite (since_extends _ _ [EvLog Info "MessageImpl.CancelInput()"]).
      + by rewrite (since_extends _ _ []); [|rewrite app_nil_r].
    - by rewrite (since_extends _ _ []); [|rewrite app_nil_r]. }
  unfold DeliverInput, bind, gets. rewrite klogV_spec. cbn [snd].
  assert (Hk : forall b (e : Event), kernel (if b : bool then emit e w2 else w2) = kernel w2)
    by (intros []; reflexivity).
  rewrite Hk, Hk2. subst w1. cbn [kernel registerInput stdinMsg stdinFn].
  by destruct onInput.
Qed.

Lemma streamed_app tr1 tr2 : streamed (tr1 ++ tr2) = streamed tr1 ++ streamed tr2.
Proof. apply omap_app. Qed.

Lemma streamed_logs logs : Forall (fun e => isLog e = true) logs -> streamed logs = [].
Proof.
  induction 1 as [|e l He _ IH]; [done|].
  destruct e; try discriminate He. exact IH.
Qed.

Lemma streamed_publish_ok m stream text t :
  transportOK env ->
  streamed (publishEvents env m "stream" (contentStream stream text) t) = [(stream, text)].
Proof.
  intros [Hu Hw]. unfold publishEvents. destruct (Hu t) as [u ->].
  destruct (Hw (envelope env u "stream" (Composed m) (contentStream stream text) t))
    as [parts ->].
  rewrite streamed_app. by destruct (1 <=? verbosity env)%nat.
Qed.

(** One [Write] when ids and wire parts can be made. *)
Lemma Write_streams stream m p w :
  transportOK env ->
  exists tr t,
    Write env stream (Some m) p w =
      (Returned (Z.of_nat (length p), None), mkWorld (kernel w) (trace w ++ tr) t) /\
    streamed tr = [(stream, string_of_list_byte p)].
Proof.
  intros Hok. unfold Write, PublishWriteStream, bind.
  destruct (Publish_spec env m "stream"
              (contentStream stream (string_of_list_byte p)) w) as (r & t & ->).
  destruct r as [e|]; unfold klog, modify, ret, emit; cbn [kernel trace tick].
  - eexists _, t. rewrite <- app_assoc. split; [reflexivity|].
    rewrite streamed_app, streamed_publish_ok by done. reflexivity.
  - eexists _, t. split; [reflexivity|]. by apply streamed_publish_ok.
Qed.

Lemma writeAll_streams stream m chunks :
  transportOK env ->
  forall w, exists tr t,
    writeAll env stream (Some m) chunks w =
      (map (fun p => Returned (Z.of_nat (length p), None)) chunks,
       mkWorld (kernel w) (trace w ++ tr) t) /\
    streamed tr = map (fun p => (stream, string_of_list_byte p)) chunks.
Proof.
  intros Hok. induction chunks as [|p rest IH]; intros w.
  - exists [], (tick w). cbn. rewrite app_nil_r. by destruct w.
  - cbn [writeAll map].
    destruct (Write_streams stream m p w Hok) as (tr1 & t1 & -> & Hs1).
    cbn [fst snd].
    destruct (IH (mkWorld (kernel w) (trace w ++ tr1) t1)) as (tr2 & t2 & -> & Hs2).
    cbn [fst snd kernel trace]. exists (tr1 ++ tr2), t2.
    rewrite <- app_assoc. split; [reflexivity|].
    by rewrite streamed_app, Hs1, Hs2.
Qed.

(** X7: writing chunk after chunk to a stream writer with a message,
    when ids and wire parts can be made: every call reports the full
    length of its chunk and no error, the kernel is untouched, and the
    stream messages handed to the transport are one per call, in call
    order (also for an empty chunk), each with the writer's stream name
    and a text that is the chunk byte for byte. *)
Theorem writes_are_streamed_in_order stream m chunks w :
  transportOK env ->
  let r := writeAll env stream (Some m) chunks w in
  fst r = map (fun p => Returned (Z.of_nat (length p), None)) chunks /\
  kernel (snd r) = kernel w /\
  trace (snd r) = trace w ++ since w (snd r) /\
  streamed (since w (snd r)) = map (fun p => (stream, string_of_list_byte p)) chunks /\
  map (fun x => list_byte_of_string (snd x)) (streamed (since w (snd r))) = chunks.
Proof.
  intros Hok r. subst r.
  destruct (writeAll_streams stream m chunks Hok w) as (tr & t & -> & Hs).
  cbn [fst snd kernel trace]. rewrite since_app, Hs.
  repeat split.
  rewrite map_map. cbn [snd]. clear. induction chunks as [|p rest IH]; [done|].
  cbn [map]. by rewrite list_byte_of_string_of_list_byte, IH.
Qed.

(** Calls for an id that is known send nothing but updates, whatever
    the transport does. *)
Lemma known_id_only_updates m data d n :
  mimeLookup (Data_Transient data) "display_id" = Some (anyString d) ->
  forall w,
    d ∈ KnownBlockIds (kernel w) ->
    exists tr,
      trace (snd (calls n (PublishUpdateDisplayData env (Some m) data) w)) =
        trace w ++ tr /\
      Forall (fun ty => ty = "update_display_data") (sentTypes tr).
Proof.
  intros Hd. induction n as [|n IH]; intros w Hin.
  - exists []. cbn. by rewrite app_nil_r.
  - cbn [calls snd].
    destruct (PublishUpdateDisplayData_step env m data d w Hd)
      as (r & logs & t & Heq & Hlogs).
    destruct (decide (d ∈ KnownBlockIds (kernel w))); [|done].
    rewrite Heq. cbn [snd].
    destruct (IH (mkWorld (kernel w)
                    (trace w ++ logs ++
                     publishEvents env m "update_display_data"
                       (contentDisplay (Data_Data data) (EnsureMIMEMap (Data_Metadata data))
                                       (Data_Transient data)) (tick w)) t) Hin)
      as (tr & -> & Htr).
    cbn [trace]. eexists. rewrite <- !app_assoc. split; [reflexivity|].
    rewrite !sentTypes_app, (sentTypes_logs logs Hlogs), sentTypes_publishEvents.
    cbn [app]. apply Forall_app. split; [|exact Htr].
    destruct (uuidNewV4 env (tick w)); [constructor|].
    destruct (ToWireMsg env _); by repeat constructor.
Qed.

(** X8: [PublishUpdateDisplayData] records the display id before it
    publishes.  After a call with the string id d, d is known whether
    or not the publish succeeded, and nothing else in the kernel has
    changed; every later call for d sends only update_display_data.  So
    when the first publish fails for want of a message id, the error is
    returned and nothing is sent, and yet no display_data message for d
    is ever sent afterwards. *)
Theorem display_id_is_recorded_before_publishing m data d w :
  mimeLookup (Data_Transient data) "display_id" = Some (anyString d) ->
  let w1 := snd (PublishUpdateDisplayData env (Some m) data w) in
  KnownBlockIds (kernel w1) = {[d]} ∪ KnownBlockIds (kernel w) /\
  ExecCounter (kernel w1) = ExecCounter (kernel w) /\
  stdinMsg (kernel w1) = stdinMsg (kernel w) /\
  stdinFn (kernel w1) = stdinFn (kernel w) /\
  subscriptions (kernel w1) = subscriptions (kernel w) /\
  Interrupted (kernel w1) = Interrupted (kernel w) /\
  nextSubscription (kernel w1) = nextSubscription (kernel w) /\
  (forall n,
     Forall (fun ty => ty = "update_display_data")
       (sentTypes (since w1 (snd (calls n (PublishUpdateDisplayData env (Some m) data) w1))))) /\
  (forall e,
     d ∉ KnownBlockIds (kernel w) ->
     uuidNewV4 env (tick w) = inl e ->
     fst (PublishUpdateDisplayData env (Some m) data w) = Returned (Some e) /\
     sendsOf (since w w1) = []).
Proof.
  intros Hd w1.
  destruct (PublishUpdateDisplayData_step env m data d w Hd)
    as (r & logs & t & Heq & Hlogs).
  assert (Hknown : KnownBlockIds (kernel w1) = {[d]} ∪ KnownBlockIds (kernel w)).
  { subst w1. rewrite Heq. cbn [snd kernel].
    destruct (decide (d ∈ KnownBlockIds (kernel w))) as [Hin|]; [|done].
    symmetry. apply subseteq_union_1_L. by apply singleton_subseteq_l. }
  split; [exact Hknown|].
  split; [|split; [|split; [|split; [|split; [|split; [|split]]]]]].
  1-6: subst w1; rewrite Heq; cbn [snd kernel];
       by destruct (decide (d ∈ KnownBlockIds (kernel w))).
  - intros n.
    destruct (known_id_only_updates m data d n Hd w1) as (tr & Htr & Hall).
    { rewrite Hknown. apply elem_of_union_l. by apply elem_of_singleton. }
    by rewrite (since_extends _ _ tr Htr).
  - intros e Hnin Hu. split.
    + clear Heq. unfold PublishUpdateDisplayData, bind at 1. rewrite logging_spec, Hd.
      destruct (logged_spec env data w) as (l & -> & _).
      unfold bind, gets, modify, ret. cbn [kernel].
      destruct (decide (d ∈ KnownBlockIds (kernel w))) as [Hin|_]; [done|].
      cbn beta iota. unfold Publish, bind. rewrite NewComposed_spec. cbn [fst snd].
      unfold setKernel. cbn [tick]. by rewrite Hu.
    + subst w1. rewrite Heq. cbn [snd].
      rewrite since_app, sendsOf_app, (sendsOf_logs logs Hlogs).
      unfold publishEvents. by rewrite Hu.
Qed.

End MessageProperties.

(** A prompt on a calm kernel, cancelled and then answered. *)
Lemma prompt_then_deliver_witness :
  let w1 := snd (PromptInput calmEnv request "name: " false (Some (onInputFn 7))
                   freshWorld) in
  fst (PromptInput calmEnv request "name: " false (Some (onInputFn 7)) freshWorld) =
    Returned None /\
  DeliverInput calmEnv request (snd (CancelInput calmEnv request w1)) =
    callOnInput calmEnv (onInputFn 7) request request
      (snd (klogV calmEnv 1 "MessageImpl.DeliverInput()"
              (snd (CancelInput calmEnv request w1)))).
Proof.
  cbn zeta. split; [reflexivity|].
  destruct (prompt_then_deliver calmEnv request "name: " false (Some (onInputFn 7))
              request true freshWorld eq_refl) as (_ & _ & _ & H).
  exact H.
Defined.

(** Three chunks, the second one empty. *)
Lemma writes_are_streamed_in_order_witness :
  transportOK calmEnv /\
  streamed (since freshWorld
              (snd (writeAll calmEnv StreamStdout (Some request)
                      [list_byte_of_string "ab"; []; list_byte_of_string "c"]
                      freshWorld))) =
  [("stdout", "ab"); ("stdout", EmptyString); ("stdout", "c")].
Proof.
  split; [exact calmEnv_transportOK|].
  destruct (writes_are_streamed_in_order calmEnv StreamStdout request
              [list_byte_of_string "ab"; []; list_byte_of_string "c"] freshWorld
              calmEnv_transportOK) as (_ & _ & _ & H & _).
  exact H.
Defined.

(** The first id cannot be drawn: the plot is never created, only
    updated. *)
Lemma display_id_is_recorded_before_publishing_witness :
  let data := withDisplayId (anyString "plot") in
  let w1 := snd (PublishUpdateDisplayData hiccupEnv (Some request) data freshWorld) in
  mimeLookup (Data_Transient data) "display_id" = Some (anyString "plot") /\
  KnownBlockIds (kernel w1) = {[ "plot" ]} ∪ KnownBlockIds (kernel freshWorld) /\
  sentTypes (trace (snd (calls 2 (PublishUpdateDisplayData hiccupEnv (Some request) data)
                           freshWorld))) =
  ["update_display_data"].
Proof.
  cbn zeta. split; [reflexivity|].
  destruct (display_id_is_recorded_before_publishing hiccupEnv request
              (withDisplayId (anyString "plot")) "plot" freshWorld eq_refl)
    as (H & _).
  split; [exact H | reflexivity].
Defined.

(** * Further properties of the executor *)

Section ExecProperties.
Context (env : Env).

(** A successful run, with the executor it leaves. *)
Lemma Exec_final os s m stdout stderr stdin process exit :
  Msg (config (exec s)) = Some m ->
  muDone (exec s) = false ->
  StdoutPipe os = inr stdout ->
  StderrPipe os = inr stderr ->
  StdinPipe os = inr stdin ->
  (useNamedPipes (config (exec s)) = true -> handleNamedPipes os = None) ->
  Start os = inr process ->
  Wait os = Some exit ->
  let w1 := whileRunning os (runningWorld env (exec s) stdin stderr stdout process (world s)) in
  let w2 := match exit with
            | None => w1
            | Some e =>
                snd (PublishWriteStream env (Some m) StreamStderr
                       (exitText (Interrupted (kernel w1)) e) w1)
            end in
  exists t' tail,
    Exec env os s =
      (Returned None,
       mkES (finishedExecutor (exec s) stdin stderr stdout process)
            (mkWorld (kernel (snd (UnsubscribeInterrupt
                                     (nextSubscription (kernel (world s))) w2)))
                     (trace w2 ++ tail) t')) /\
    Forall (fun ev => isTeardown ev = true) tail.
Proof.
  open_state s.
  cbn [exec config Msg muDone world useNamedPipes].
  intros -> -> Hout Herr Hin Hnamed Hstart Hwait.
  unfold Exec. rewrite Hout, Herr, Hin, Hstart, Hwait.
  unfold withDefer, handleJupyterInput, handleStaticInput, emitES, modifyExec,
    klog, bind, gets, modify, ret, SubscribeInterrupt,
    runningWorld, setupEvents, PublishWriteStream, finishedExecutor.
  unfold liftW at 1 2 3 4.
  cbn -[done Publish UnsubscribeInterrupt klogV liftW].
  destruct (0 <? ms)%Z eqn:Hms; destruct named;
    rewrite ?(Hnamed eq_refl); try destruct handler; destruct input; destruct exit as [e|];
    cbn -[done Publish UnsubscribeInterrupt klogV liftW].
  all: unfold emit, setKernel; cbn -[done Publish UnsubscribeInterrupt klogV liftW];
    rewrite <- ?app_assoc; cbn -[done Publish UnsubscribeInterrupt klogV liftW].
  all: match goal with |- context [whileRunning ?o ?W] =>
         generalize (whileRunning o W); intros W1 end.
  all: try match goal with |- context [liftW (Publish ?en ?m0 ?ty ?c) (mkES ?e0 ?w0)] =>
         destruct (liftW_Publish en m0 ty c e0 w0) as (r & t & ->);
         destruct (Publish_spec en m0 ty c w0) as (r' & t'' & ->) end.
  all: unfold liftW, UnsubscribeInterrupt, modify; rewrite klogV_spec;
    cbn -[done].
  all: erewrite done_completes;
    [ | reflexivity | reflexivity | reflexivity | reflexivity | reflexivity | reflexivity
      | cbn; intros _; eauto ].
  all: unfold doneEvents; cbn; rewrite ?Hms.
  all: destruct (verbosity env) as [|[|v]]; cbn;
    eexists _, _;
    (split; [rewrite <- ?app_assoc; reflexivity|]).
  all: repeat (apply Forall_cons; split; [reflexivity|]); apply Forall_nil_2.
Qed.

(** X9: a failing [cmd.Start], on an executor with a free mutex that
    has a message whenever a prompt is configured.  [Exec] returns the
    error wrapped with the quoted command, the kernel is as before, so
    that no interrupt subscription was made, and the command has no
    process.  The copying
    goroutines were already started; the teardown closes the three pipes
    and the completion channel once each and releases the mutex.  A
    comms handler is told of the start of the program before the start
    is tried, and of its end by the teardown: as often the one as the
    other. *)
Theorem Exec_start_failure_teardown os s e stdout stderr stdin :
  muDone (exec s) = false ->
  ((0 <? millisecondsToInput (config (exec s)))%Z = true ->
   is_Some (Msg (config (exec s)))) ->
  StdoutPipe os = inr stdout ->
  StderrPipe os = inr stderr ->
  StdinPipe os = inr stdin ->
  (useNamedPipes (config (exec s)) = true -> handleNamedPipes os = None) ->
  Start os = inl e ->
  let c := config (exec s) in
  exists s',
    Exec env os s =
      (Returned (Some (withMessage e ("failed to start to execute command " +:+
                                      quote env (command c)))), s') /\
    kernel (world s') = kernel (world s) /\
    cmd (exec s') = Some (mkCmd (command c) (args c) (dir c) None) /\
    isDone (exec s') = true /\
    doneChan (exec s') = chanClosed /\
    muDone (exec s') = false /\
    trace (world s') =
      trace (world s) ++ beforeStart (exec s) stderr stdout true ++
      [EvLog Warning "Failed to start command %q"] ++
      doneEvents env c stdin stderr stdout /\
    count isProgramStart (since (world s) (world s')) =
      count isProgramFinished (since (world s) (world s')) /\
    count isClose (since (world s) (world s')) = 3%nat /\
    count isCloseChan (since (world s) (world s')) = 1%nat.
Proof.
  open_state s.
  cbn [exec config Msg muDone world useNamedPipes millisecondsToInput command].
  intros -> Hmsg Hout Herr Hin Hnamed Hstart.
  unfold Exec. rewrite Hout, Herr, Hin, Hstart.
  unfold withDefer, handleJupyterInput, emitES, modifyExec, liftW,
    klog, bind, gets, modify, ret, beforeStart.
  cbn -[done].
  destruct (0 <? ms)%Z eqn:Hms; destruct named;
    rewrite ?(Hnamed eq_refl); try destruct handler; cbn -[done].
  all: erewrite done_completes;
    [ | reflexivity | reflexivity | reflexivity | reflexivity | reflexivity | reflexivity
      | cbn; rewrite ?Hms; try done; intros _; by apply Hmsg ].
  all: eexists; split; [reflexivity|]; cbn [world exec kernel trace tick].
  all: unfold emit; cbn [kernel trace tick cmd isDone doneChan muDone setDoneChan
                          setIsDone setMuDone].
  all: repeat (split; [reflexivity|]).
  all: rewrite <- ?app_assoc; cbn [app].
  all: split; [reflexivity|].
  all: match goal with |- context [since ?a ?b] =>
         erewrite (since_extends a b); [|cbn [trace]; reflexivity] end.
  all: unfold doneEvents; cbn; rewrite ?Hms;
    destruct (verbosity env); cbn; repeat split.
Qed.

(** X10: named pipes that cannot be set up, on an executor with a
    free mutex that has a message whenever a prompt is configured.
    [Exec] returns the error of [handleNamedPipes] as it is, without a
    message around it; the command is never started and nothing is
    subscribed.  The teardown
    still runs: the three pipes and the completion channel are closed,
    and a comms handler is told that the program has finished although
    it was never told of a start. *)
Theorem Exec_named_pipes_failure os s e stdout stderr stdin :
  muDone (exec s) = false ->
  ((0 <? millisecondsToInput (config (exec s)))%Z = true ->
   is_Some (Msg (config (exec s)))) ->
  StdoutPipe os = inr stdout ->
  StderrPipe os = inr stderr ->
  StdinPipe os = inr stdin ->
  useNamedPipes (config (exec s)) = true ->
  handleNamedPipes os = Some e ->
  let c := config (exec s) in
  exists s',
    Exec env os s = (Returned (Some e), s') /\
    kernel (world s') = kernel (world s) /\
    cmd (exec s') = Some (mkCmd (command c) (args c) (dir c) None) /\
    isDone (exec s') = true /\
    doneChan (exec s') = chanClosed /\
    muDone (exec s') = false /\
    trace (world s') =
      trace (world s) ++ beforeStart (exec s) stderr stdout false ++
      doneEvents env c stdin stderr stdout /\
    count isProgramStart (since (world s) (world s')) = 0%nat /\
    count isProgramFinished (since (world s) (world s')) =
      match commsHandler c with Some _ => 1%nat | None => 0%nat end /\
    count isClose (since (world s) (world s')) = 3%nat.
Proof.
  open_state s.
  cbn [exec config Msg muDone world useNamedPipes millisecondsToInput command
       commsHandler].
  intros -> Hmsg Hout Herr Hin -> Hpipes.
  unfold Exec. rewrite Hout, Herr, Hin, Hpipes.
  unfold withDefer, handleJupyterInput, emitES, modifyExec, liftW,
    klog, bind, gets, modify, ret, beforeStart.
  cbn -[done].
  destruct (0 <? ms)%Z eqn:Hms; cbn -[done].
  all: erewrite done_completes;
    [ | reflexivity | reflexivity | reflexivity | reflexivity | reflexivity | reflexivity
      | cbn; rewrite ?Hms; try done; intros _; by apply Hmsg ].
  all: eexists; split; [reflexivity|]; cbn [world exec kernel trace tick].
  all: unfold emit; cbn [kernel trace tick cmd isDone doneChan muDone setDoneChan
                          setIsDone setMuDone].
  all: repeat (split; [reflexivity|]).
  all: rewrite <- ?app_assoc; cbn [app].
  all: split; [reflexivity|].
  all: match goal with |- context [since ?a ?b] =>
         erewrite (since_extends a b); [|cbn [trace]; reflexivity] end.
  all: unfold doneEvents; cbn; rewrite ?Hms;
    destruct (verbosity env), handler; cbn; repeat split.
Qed.

(** X11: a successful [Exec] leaves an executor on which [Exec] can be
    called again.  After the first call the executor is done, its
    completion channel is closed, the mutex is free, the writers are
    the ones given by the caller or else the stream writers of the
    message, and the interrupt subscription of the call is gone from
    the registry.  A second call with the same answers of the operating
    system returns nil as well and leaves the same executor. *)
Theorem Exec_can_run_again os s m stdout stderr stdin process exit :
  Msg (config (exec s)) = Some m ->
  muDone (exec s) = false ->
  StdoutPipe os = inr stdout ->
  StderrPipe os = inr stderr ->
  StdinPipe os = inr stdin ->
  (useNamedPipes (config (exec s)) = true -> handleNamedPipes os = None) ->
  Start os = inr process ->
  Wait os = Some exit ->
  let s1 := snd (Exec env os s) in
  let s2 := snd (Exec env os s1) in
  fst (Exec env os s) = Returned None /\
  exec s1 = finishedExecutor (exec s) stdin stderr stdout process /\
  subscriptions (kernel (world s1)) !! nextSubscription (kernel (world s)) = None /\
  fst (Exec env os s1) = Returned None /\
  exec s2 = exec s1.
Proof.
  intros Hm Hmu Hout Herr Hin Hnamed Hstart Hwait s1 s2.
  destruct (Exec_final os s m stdout stderr stdin process exit
              Hm Hmu Hout Herr Hin Hnamed Hstart Hwait)
    as (t1 & tail1 & Heq1 & _).
  subst s2 s1. rewrite Heq1. cbn [fst snd exec world].
  split; [done|]. split; [done|]. split.
  { unfold UnsubscribeInterrupt, modify. cbn [snd kernel setKernel subscriptions].
    apply lookup_delete_eq. }
  match goal with |- context [Exec env os ?s1] =>
    destruct (Exec_final os s1 m stdout stderr stdin process exit)
      as (t2 & tail2 & Heq2 & _); try done end.
  rewrite Heq2. cbn [fst snd exec world]. split; [done|].
  unfold finishedExecutor. cbn [config stdoutWriter stderrWriter]. reflexivity.
Qed.

Lemma signals_app tr1 tr2 : signals (tr1 ++ tr2) = signals tr1 ++ signals tr2.
Proof. apply omap_app. Qed.

Lemma signals_none tr : Forall (fun e => isSignal e = false) tr -> signals tr = [].
Proof.
  induction 1 as [|e l He _ IH]; [done|].
  destruct e; try discriminate He; exact IH.
Qed.

Lemma publishEvents_log_or_send m ty c t :
  Forall (fun e => isLog e || isSend e = true) (publishEvents env m ty c t).
Proof.
  unfold publishEvents. destruct (uuidNewV4 env t); [constructor|].
  apply Forall_app. split.
  - destruct (1 <=? verbosity env)%nat; by repeat constructor.
  - destruct (ToWireMsg env _); by repeat constructor.
Qed.

Lemma setupEvents_no_signal e stdin stderr stdout :
  Forall (fun ev => isSignal ev = false) (setupEvents e stdin stderr stdout).
Proof.
  unfold setupEvents.
  destruct (0 <? millisecondsToInput (config e))%Z, (useNamedPipes (config e)),
    (commsHandler (config e)), (stdinContent (config e)); by repeat constructor.
Qed.

(** The world after the exit status was handled. *)
Lemma exit_is_streamed m exit w1 :
  exists tr t,
    match exit with
    | Some e => snd (PublishWriteStream env (Some m) StreamStderr
                       (exitText (Interrupted (kernel w1)) e) w1)
    | None => w1
    end = mkWorld (kernel w1) (trace w1 ++ tr) t /\
    Forall (fun ev => isLog ev || isSend ev = true) tr.
Proof.
  destruct exit as [e|].
  - unfold PublishWriteStream.
    destruct (Publish_spec env m "stream"
                (contentStream StreamStderr (exitText (Interrupted (kernel w1)) e)) w1)
      as (r & t & ->).
    cbn [snd]. eexists _, _. split; [reflexivity|]. apply publishEvents_log_or_send.
  - exists [], (tick w1). rewrite app_nil_r. split; [by destruct w1 | constructor].
Qed.

(** X12: an interrupt requested while [Exec] waits for the child, on a
    kernel that had no other subscription.  The signals of the whole
    call are SIGINT to the process that [cmd.Start] returned and, when
    the completion channel is not closed in time, SIGKILL to the same
    process; they come after the goroutines were started.  [Exec]
    returns nil all the same, and the registry is empty at the end: the
    callback has removed its entry, and the removal at the end of
    [Exec] finds nothing. *)
Theorem Exec_interrupted_while_running os s m stdout stderr stdin process exit race :
  Msg (config (exec s)) = Some m ->
  muDone (exec s) = false ->
  StdoutPipe os = inr stdout ->
  StderrPipe os = inr stderr ->
  StdinPipe os = inr stdin ->
  (useNamedPipes (config (exec s)) = true -> handleNamedPipes os = None) ->
  Start os = inr process ->
  Wait os = Some exit ->
  subscriptions (kernel (world s)) = ∅ ->
  (forall w, whileRunning os w = snd (requestInterrupt race w)) ->
  let s' := snd (Exec env os s) in
  fst (Exec env os s) = Returned None /\
  (exists tail,
     trace (world s') =
       trace (world s) ++ setupEvents (exec s) stdin stderr stdout ++
       interruptEvents race process ++ tail /\
     Forall (fun ev => isSignal ev = false) tail) /\
  signals (since (world s) (world s')) =
    (ToProcess process, SIGINT) ::
    (if doneWins race then [] else [(ToProcess process, SIGKILL)]) /\
  subscriptions (kernel (world s')) = ∅.
Proof.
  intros Hm Hmu Hout Herr Hin Hnamed Hstart Hwait Hsub Hint s'.
  destruct (Exec_final os s m stdout stderr stdin process exit
              Hm Hmu Hout Herr Hin Hnamed Hstart Hwait)
    as (t1 & tail1 & Heq1 & Htail).
  assert (Hsig : Forall (fun ev => isSignal ev = false) tail1).
  { eapply Forall_impl; [exact Htail|]. by intros []. }
  subst s'. rewrite Heq1. clear Heq1.
  destruct (exit_is_streamed m exit
              (whileRunning os
                 (runningWorld env (exec s) stdin stderr stdout process (world s))))
    as (tr & t & -> & Htr0).
  assert (Htr : Forall (fun ev => isSignal ev = false) tr).
  { eapply Forall_impl; [exact Htr0|]. by intros []. }
  cbn [fst snd exec world kernel trace].
  rewrite Hint.
  assert (Hrun : requestInterrupt race
                   (runningWorld env (exec s) stdin stderr stdout process (world s)) =
                 onInterrupt race process (nextSubscription (kernel (world s)))
                   (runningWorld env (exec s) stdin stderr stdout process (world s))).
  { unfold requestInterrupt, runningWorld, SubscribeInterrupt.
    cbn [snd kernel setKernel subscriptions]. rewrite Hsub, insert_empty.
    by rewrite map_to_list_singleton. }
  rewrite Hrun, onInterrupt_spec. cbn [snd].
  unfold runningWorld, SubscribeInterrupt.
  cbn [snd kernel setKernel subscriptions trace tick ExecCounter KnownBlockIds stdinMsg
       stdinFn Interrupted nextSubscription].
  rewrite Hsub, insert_empty, delete_singleton_eq.
  split; [done|].
  split; [|split].
  - exists (tr ++ tail1). rewrite <- !app_assoc. split; [done|].
    apply Forall_app. by split.
  - erewrite since_extends; [|rewrite <- !app_assoc; reflexivity].
    rewrite !signals_app, (signals_none _ (setupEvents_no_signal _ _ _ _)),
      (signals_none tr Htr), (signals_none tail1 Hsig), !app_nil_r.
    unfold interruptEvents.
    destruct (interruptErr race), (doneWins race), (killErr race); reflexivity.
  - unfold UnsubscribeInterrupt, modify. cbn [snd kernel setKernel subscriptions].
    apply delete_empty.
Qed.

Lemma started_app tr1 tr2 : started (tr1 ++ tr2) = started tr1 ++ started tr2.
Proof. apply omap_app. Qed.

Lemma started_teardown tr : Forall (fun e => isTeardown e = true) tr -> started tr = [].
Proof.
  induction 1 as [|e l He _ IH]; [done|].
  destruct e; try discriminate He; exact IH.
Qed.

Lemma started_publishEvents m ty c t : started (publishEvents env m ty c t) = [].
Proof.
  unfold publishEvents. destruct (uuidNewV4 env t); [done|].
  rewrite started_app.
  destruct (1 <=? verbosity env)%nat; by destruct (ToWireMsg env _).
Qed.

(** X13: which goroutines [Exec] starts, on an executor configured
    with the input builders.  It always starts the two copying
    goroutines, to the writers of the executor or else to the stream
    writers of the message.  It starts the prompting goroutine exactly
    when the delay given to WithInputs or WithPassword is positive,
    with the password flag of the builder used, and the writer of the
    static input exactly when WithStaticInput was given a slice that is
    not nil; when both are configured, both are started.  An executor
    fresh from New has delay -1 and no static input. *)
Theorem Exec_input_goroutines os e0 w m stdout stderr stdin process exit
    (hidden : bool) (delay : Z) (input : option bytes) :
  Msg (config e0) = Some m ->
  muDone e0 = false ->
  StdoutPipe os = inr stdout ->
  StderrPipe os = inr stderr ->
  StdinPipe os = inr stdin ->
  (useNamedPipes (config e0) = true -> handleNamedPipes os = None) ->
  Start os = inr process ->
  Wait os = Some exit ->
  (forall w1, whileRunning os w1 = w1) ->
  let e := WithStaticInput input
             ((if hidden then WithPassword delay else WithInputs delay) e0) in
  let s' := snd (Exec env os (mkES e w)) in
  trace (world s') = trace w ++ since w (world s') /\
  started (since w (world s')) =
    [copyStream (default (jupyterStreamWriter StreamStdout (Some m)) (stdoutWriter e0)) stdout;
     copyStream (default (jupyterStreamWriter StreamStderr (Some m)) (stderrWriter e0)) stderr]
    ++ (if 0 <? delay then [schedulePrompt delay hidden] else [])
    ++ match input with
       | Some data => [writeStaticInput stdin data]
       | None => []
       end /\
  millisecondsToInput (config (New (Some m) (command (config e0)) (args (config e0)))) = -1 /\
  stdinContent (config (New (Some m) (command (config e0)) (args (config e0)))) = None.
Proof.
  intros Hm Hmu Hout Herr Hin Hnamed Hstart Hwait Hquiet e s'.
  assert (He : Msg (config e) = Some m /\ muDone e = false /\
               useNamedPipes (config e) = useNamedPipes (config e0) /\
               stdoutWriter e = stdoutWriter e0 /\ stderrWriter e = stderrWriter e0 /\
               millisecondsToInput (config e) = delay /\
               inputPassword (config e) = hidden /\
               stdinContent (config e) = input).
  { subst e. destruct hidden; cbn; by rewrite ?Hm, ?Hmu. }
  destruct He as (Hm' & Hmu' & Hn' & Hso & Hse & Hd & Hp & Hi).
  destruct (Exec_final os (mkES e w) m stdout stderr stdin process exit)
    as (t1 & tail1 & Heq1 & Htail); try done.
  { cbn [exec]. by rewrite Hn'. }
  subst s'. rewrite Heq1. clear Heq1.
  destruct (exit_is_streamed m exit
              (whileRunning os (runningWorld env (exec (mkES e w)) stdin stderr stdout
                                  process (world (mkES e w)))))
    as (tr & t & -> & Htr0).
  assert (Htr : started tr = []).
  { clear -Htr0. induction Htr0 as [|ev l Hev _ IH]; [done|]. by destruct ev. }
  cbn [snd world trace exec]. rewrite Hquiet.
  unfold runningWorld, SubscribeInterrupt. cbn [snd trace setKernel].
  rewrite <- !app_assoc, since_app. split; [done|]. split; [|done].
  rewrite !started_app, Htr, (started_teardown tail1 Htail), !app_nil_r.
  unfold setupEvents. rewrite Hm', Hso, Hse, Hd, Hp, Hi.
  destruct (0 <? delay)%Z, (useNamedPipes (config e)), (commsHandler (config e)), input;
    reflexivity.
Qed.

End ExecProperties.

Section ExecEdges.
Context (env : Env).

(** [done] on an executor whose stdin pipe is nil: the flag is set,
    the prompt is cancelled, and the first [Close] panics. *)
Lemma done_without_stdin s :
  muDone (exec s) = false ->
  isDone (exec s) = false ->
  cmdStdin (exec s) = None ->
  ((0 <? millisecondsToInput (config (exec s)))%Z = true ->
   is_Some (Msg (config (exec s)))) ->
  done env s =
    (Panicked nilDereference,
     mkES (setIsDone true (exec s))
          (if (0 <? millisecondsToInput (config (exec s)))%Z
           then snd (klogV env 1 "MessageImpl.CancelInput()" (world s))
           else world s)).
Proof.
  open_state s.
  cbn [exec muDone isDone cmdStdin config millisecondsToInput Msg world].
  intros -> -> -> Hmsg. unfold_done. cbn.
  destruct (0 <? ms)%Z; [destruct (Hmsg eq_refl) as [m ->]|]; [|reflexivity].
  destruct (verbosity env); reflexivity.
Qed.

(** X22: a pipe that cannot be created, on an executor that holds no
    pipes from an earlier run and has a message whenever a prompt is
    configured.  [Exec] panics in the deferred [done],
    at the first [Close] on a pipe that is nil, and by then [done] has
    set the flag: the executor is left done, with the completion
    channel open and the mutex free, and nothing was closed, also not
    the pipes that were created before the failure.  A later [done]
    finds the flag set and closes nothing either. *)
Theorem Exec_pipe_failure_closes_nothing os s :
  muDone (exec s) = false ->
  cmdStdin (exec s) = None ->
  ((0 <? millisecondsToInput (config (exec s)))%Z = true ->
   is_Some (Msg (config (exec s)))) ->
  pipeHandle (StdoutPipe os) = None \/
  pipeHandle (StderrPipe os) = None \/
  pipeHandle (StdinPipe os) = None ->
  exists s',
    Exec env os s = (Panicked nilDereference, s') /\
    isDone (exec s') = true /\
    doneChan (exec s') = chanOpen /\
    muDone (exec s') = false /\
    kernel (world s') = kernel (world s) /\
    trace (world s') = trace (world s) ++ since (world s) (world s') /\
    Forall (fun e => isLog e = true) (since (world s) (world s')) /\
    done env s' = (Returned tt, s').
Proof.
  open_state s.
  cbn [exec muDone cmdStdin config millisecondsToInput Msg world].
  intros -> -> Hmsg H.
  assert (Hlog : forall w0 : World,
            exists logs,
              (if (0 <? ms)%Z then snd (klogV env 1 "MessageImpl.CancelInput()" w0) else w0) =
              mkWorld (kernel w0) (trace w0 ++ logs) (tick w0) /\
              Forall (fun e => isLog e = true) logs).
  { intros w0. rewrite klogV_spec. cbn [snd].
    destruct (0 <? ms)%Z; [destruct (1 <=? verbosity env)%nat|].
    - exists [EvLog Info "MessageImpl.CancelInput()"]. split; [done | by repeat constructor].
    - exists []. rewrite app_nil_r. split; [by destruct w0 | constructor].
    - exists []. rewrite app_nil_r. split; [by destruct w0 | constructor]. }
  unfold Exec.
  unfold withDefer, emitES, modifyExec, liftW, klog, bind, gets, modify, ret.
  cbn -[done].
  destruct (StdoutPipe os) as [e1|h1]; cbn -[done];
    [|destruct (StderrPipe os) as [e2|h2]; cbn -[done];
      [|destruct (StdinPipe os) as [e3|h3]; cbn -[done];
        [|cbn in H; by destruct H as [|[|]]]]].
  all: rewrite done_without_stdin;
    [ | reflexivity | reflexivity | reflexivity | exact Hmsg ].
  all: cbn [exec world config millisecondsToInput setIsDone setCmd setCmdStdout
            setCmdStderr setCmdStdin setDoneChan isDone doneChan muDone cmdStdin].
  all: match goal with |- context [if (0 <? _)%Z then _ else ?w0] =>
         destruct (Hlog w0) as (logs & -> & Hlogs) end.
  all: eexists; split; [reflexivity|].
  all: unfold emit;
    cbn [exec world kernel trace tick isDone doneChan muDone setIsDone].
  all: rewrite <- !app_assoc, since_app.
  all: repeat (split; [reflexivity|]).
  all: split; [by repeat constructor|].
  all: unfold_done; reflexivity.
Qed.

(** X23: an executor without a message, and without input prompts.
    [Exec] sets up the pipes and the goroutines and starts the command,
    and then panics where it asks the message for the kernel, to
    subscribe to interrupts.  The command has been started by then and
    is neither waited for nor signalled; the deferred [done] closes the
    three pipes and the completion channel and tells a comms handler
    that the program has finished.  The kernel is untouched. *)
Theorem Exec_without_message_panics_after_start os s stdout stderr stdin process :
  Msg (config (exec s)) = None ->
  muDone (exec s) = false ->
  (0 <? millisecondsToInput (config (exec s)))%Z = false ->
  StdoutPipe os = inr stdout ->
  StderrPipe os = inr stderr ->
  StdinPipe os = inr stdin ->
  (useNamedPipes (config (exec s)) = true -> handleNamedPipes os = None) ->
  Start os = inr process ->
  let c := config (exec s) in
  exists s',
    Exec env os s = (Panicked nilDereference, s') /\
    cmd (exec s') = Some (mkCmd (command c) (args c) (dir c) (Some process)) /\
    kernel (world s') = kernel (world s) /\
    isDone (exec s') = true /\
    doneChan (exec s') = chanClosed /\
    muDone (exec s') = false /\
    trace (world s') =
      trace (world s) ++ beforeStart (exec s) stderr stdout true ++
      doneEvents env c stdin stderr stdout /\
    signals (since (world s) (world s')) = [] /\
    count isClose (since (world s) (world s')) = 3%nat.
Proof.
  open_state s.
  cbn [exec config Msg muDone world useNamedPipes millisecondsToInput command].
  intros -> -> Hms Hout Herr Hin Hnamed Hstart.
  unfold Exec. rewrite Hout, Herr, Hin, Hstart.
  unfold withDefer, handleJupyterInput, emitES, modifyExec, liftW,
    klog, bind, gets, modify, ret, panic, beforeStart.
  cbn -[done]. rewrite Hms.
  destruct named; rewrite ?(Hnamed eq_refl); try destruct handler; cbn -[done].
  all: erewrite done_completes;
    [ | reflexivity | reflexivity | reflexivity | reflexivity | reflexivity | reflexivity
      | cbn; rewrite ?Hms; done ].
  all: eexists; split; [reflexivity|]; cbn [world exec kernel trace tick].
  all: unfold emit; cbn [kernel trace tick cmd isDone doneChan muDone setDoneChan
                          setIsDone setMuDone].
  all: repeat (split; [reflexivity|]).
  all: rewrite <- ?app_assoc; cbn [app].
  all: split; [reflexivity|].
  all: match goal with |- context [since ?a ?b] =>
         erewrite (since_extends a b); [|cbn [trace]; reflexivity] end.
  all: unfold doneEvents; cbn; rewrite ?Hms; cbn; repeat split.
Qed.

End ExecEdges.

(** * Properties of the input callbacks *)

Section InputProperties.
Context (env : Env).

(** X14: [writeStdinFn] with the mutex free.  It leaves the executor
    and the kernel as they are and sends nothing; in particular the
    mutex is free again afterwards, also when the callback panics,
    because the unlock is deferred.  On an executor that is done it
    returns nil and starts nothing.  Otherwise, when the content of
    the input message is a map with a string under [value], it returns
    nil and starts the writer of that string followed by a newline and
    then the next prompt, in this order; with any other content it
    panics on the type assertion and starts nothing. *)
Theorem writeStdinFn_forwards_value original answer s :
  muDone (exec s) = false ->
  exists o logs,
    writeStdinFn env original answer s =
      (o, mkES (exec s)
               (mkWorld (kernel (world s)) (trace (world s) ++ logs) (tick (world s)))) /\
    Forall (fun e => isLog e = true) logs /\
    (isDone (exec s) = true -> o = Returned (None, []) /\ logs = []) /\
    (isDone (exec s) = false ->
     (forall content v,
        Content (Composed answer) = contentMap content ->
        content !! "value" = Some (anyString v) ->
        o = Returned (None, [stdinWriter (list_byte_of_string (v +:+ newline));
                             prompter])) /\
     ((forall content, Content (Composed answer) <> contentMap content) ->
      o = Panicked interfaceConversion) /\
     (forall content,
        Content (Composed answer) = contentMap content ->
        (forall v, content !! "value" <> Some (anyString v)) ->
        o = Panicked interfaceConversion)).
Proof.
  open_state s. cbn [exec world muDone isDone]. intros ->.
  unfold writeStdinFn, lock, unlock, withDefer, bind, gets, ret, panic, liftW.
  cbn [exec world muDone isDone setMuDone config stdoutWriter stderrWriter cmd cmdStdout
       cmdStderr cmdStdin doneChan fst snd].
  destruct dn.
  { exists (Returned (None, [])), []. cbn. rewrite app_nil_r. destruct w.
    repeat split; try done. }
  destruct (Content (Composed answer)) as [|content| | |] eqn:Hc.
  2: destruct (content !! "value") as [[|v| | |]|] eqn:Hv.
  3: { rewrite klogV_spec.
       destruct (2 <=? verbosity env)%nat; cbn.
       - exists (Returned (None, [stdinWriter (list_byte_of_string (v +:+ newline));
                                  prompter])),
           [EvLog Info "stdin value: %q"].
         split; [reflexivity|]. split; [by repeat constructor|].
         split; [done|]. intros _. split; [|split].
         + intros content' v' [= <-] Hv'. rewrite Hv in Hv'. by injection Hv' as <-.
         + intros H. by destruct (H content).
         + intros content' [= <-] H. by destruct (H v).
       - exists (Returned (None, [stdinWriter (list_byte_of_string (v +:+ newline));
                                  prompter])), [].
         rewrite app_nil_r. destruct w.
         split; [reflexivity|]. split; [constructor|].
         split; [done|]. intros _. split; [|split].
         + intros content' v' [= <-] Hv'. rewrite Hv in Hv'. by injection Hv' as <-.
         + intros H. by destruct (H content).
         + intros content' [= <-] H. by destruct (H v). }
  all: exists (Panicked interfaceConversion), []; cbn; rewrite app_nil_r; destruct w;
    split; [reflexivity|]; split; [constructor|]; split; [done|]; intros _;
    (split; [|split; [done|]]);
    [ intros content' v' Hc' Hv'; try discriminate Hc';
      injection Hc' as <-; rewrite Hv in Hv'; discriminate Hv'
    | try done ].
Qed.

(** [schedulePromptFn] up to the test of [isDone]. *)
Lemma schedulePromptFn_spec fn s :
  muDone (exec s) = false ->
  let c := config (exec s) in
  let w0 := snd (klogV env 2 "%d milliseconds elapsed, prompt for input"
                   (emit (EvWait (wrapInt64 (millisecondsToInput c * Millisecond)))
                         (world s))) in
  schedulePromptFn env fn s =
    if isDone (exec s) then (Returned tt, mkES (exec s) w0)
    else
      match Msg c with
      | Some m =>
          (Returned tt,
           mkES (exec s) (snd (PromptInput env m " " (inputPassword c) (Some fn) w0)))
      | None => (Panicked nilDereference, mkES (setMuDone true (exec s)) w0)
      end.
Proof.
  open_state s. cbn [exec world muDone isDone config Msg millisecondsToInput inputPassword].
  intros ->.
  unfold schedulePromptFn, lock, unlock, emitES, bind, gets, ret, panic, modify, liftW.
  cbn [exec world muDone isDone setMuDone config Msg millisecondsToInput inputPassword
       stdoutWriter stderrWriter cmd cmdStdout cmdStderr cmdStdin doneChan fst snd].
  rewrite klogV_spec. cbn [fst snd].
  destruct dn; [reflexivity|].
  destruct msg as [m|]; [|reflexivity].
  cbn [exec world muDone isDone setMuDone config Msg millisecondsToInput inputPassword
       stdoutWriter stderrWriter cmd cmdStdout cmdStderr cmdStdin doneChan fst snd].
  match goal with |- context [PromptInput env m ?p ?b ?f ?w0] =>
    destruct (PromptInput_spec env m p b f w0) as (logs & t & -> & _) end.
  reflexivity.
Qed.

(** X15: [schedulePromptFn] with the mutex free.  It sleeps for the
    configured delay, which is that many milliseconds whenever the
    product fits an int64.  On an executor that is done it then only
    logs: nothing is sent and the kernel is untouched.  Otherwise it is
    one [PromptInput] on the message of the executor, with the prompt
    of one blank, the password flag of the configuration and
    [writeStdinFn] as the callback; the error of [PromptInput] is
    dropped, and the mutex is free again afterwards.  When the
    executor has no message, the call panics while it holds the mutex,
    which no deferred call releases: a [done] after it blocks. *)
Theorem schedulePromptFn_prompts_unless_done fn s :
  muDone (exec s) = false ->
  let c := config (exec s) in
  let nap := EvWait (wrapInt64 (millisecondsToInput c * Millisecond)) in
  let w0 := snd (klogV env 2 "%d milliseconds elapsed, prompt for input"
                   (emit nap (world s))) in
  (- 2 ^ 63 <= millisecondsToInput c * 1000000 < 2 ^ 63 ->
   nap = EvWait (millisecondsToInput c * 1000000)) /\
  kernel w0 = kernel (world s) /\
  (exists logs, trace w0 = trace (world s) ++ nap :: logs /\
                Forall (fun e => isLog e = true) logs) /\
  (isDone (exec s) = true ->
   schedulePromptFn env fn s = (Returned tt, mkES (exec s) w0)) /\
  (isDone (exec s) = false ->
   forall m, Msg c = Some m ->
     schedulePromptFn env fn s =
       (Returned tt,
        mkES (exec s) (snd (PromptInput env m " " (inputPassword c) (Some fn) w0)))) /\
  (isDone (exec s) = false ->
   Msg c = None ->
   exists s',
     schedulePromptFn env fn s = (Panicked nilDereference, s') /\
     muDone (exec s') = true /\
     done env s' = (Blocked, s')).
Proof.
  intros Hmu c nap w0.
  pose proof (schedulePromptFn_spec fn s Hmu) as Hspec. cbn zeta in Hspec.
  fold c in Hspec. fold nap in Hspec. fold w0 in Hspec.
  split; [|split; [|split; [|split; [|split]]]].
  - intros Hfit. subst nap. f_equal. unfold wrapInt64, Millisecond.
    rewrite Z.mod_small; lia.
  - subst w0. rewrite klogV_spec. cbn [snd]. by destruct (2 <=? verbosity env)%nat.
  - subst w0. rewrite klogV_spec. cbn [snd]. destruct (2 <=? verbosity env)%nat.
    + exists [EvLog Info "%d milliseconds elapsed, prompt for input"].
      unfold emit. cbn [trace]. rewrite <- app_assoc. split; [done|by repeat constructor].
    + exists []. split; [done|constructor].
  - intros Hd. by rewrite Hspec, Hd.
  - intros Hd m Hm. by rewrite Hspec, Hd, Hm.
  - intros Hd Hm. rewrite Hspec, Hd, Hm. eexists. split; [reflexivity|].
    split; [reflexivity|]. unfold done, lock, bind. reflexivity.
Qed.

(** X16: once [done] has run on a started executor (one that has a
    message whenever a prompt is configured), a late prompt timer and a
    late answer of the front-end do nothing: [schedulePromptFn] returns without
    sending an input request or touching the kernel, [writeStdinFn]
    returns nil without starting a writer or a new prompt, and a second
    [done] changes nothing; none of them closes a pipe again. *)
Theorem callbacks_after_done_do_nothing s stdin stderr stdout fn original answer :
  muDone (exec s) = false ->
  isDone (exec s) = false ->
  doneChan (exec s) = chanOpen ->
  cmdStdin (exec s) = Some stdin ->
  cmdStderr (exec s) = Some stderr ->
  cmdStdout (exec s) = Some stdout ->
  ((0 <? millisecondsToInput (config (exec s)))%Z = true ->
   is_Some (Msg (config (exec s)))) ->
  let s1 := snd (done env s) in
  let s2 := snd (schedulePromptFn env fn s1) in
  fst (done env s) = Returned tt /\
  fst (schedulePromptFn env fn s1) = Returned tt /\
  exec s2 = exec s1 /\
  kernel (world s2) = kernel (world s1) /\
  sendsOf (since (world s1) (world s2)) = [] /\
  count isClose (since (world s1) (world s2)) = 0%nat /\
  writeStdinFn env original answer s2 = (Returned (None, []), s2) /\
  done env s2 = (Returned tt, s2).
Proof.
  intros Hmu Hd Hch Hin Herr Hout Hmsg s1 s2.
  pose proof (done_completes env s stdin stderr stdout Hmu Hd Hch Hin Herr Hout Hmsg)
    as Hdone.
  subst s2 s1. rewrite Hdone. cbn [fst snd].
  set (s1 := mkES _ _).
  assert (Hmu1 : muDone (exec s1) = false) by exact Hmu.
  pose proof (schedulePromptFn_spec fn s1 Hmu1) as Hspec. cbn zeta in Hspec.
  change (isDone (exec s1)) with true in Hspec. cbn iota in Hspec.
  rewrite Hspec, klogV_spec. cbn [fst snd exec world].
  set (nap := EvWait _).
  set (w2 := if (2 <=? verbosity env)%nat then _ else _).
  assert (Hw2 : exists logs, w2 = mkWorld (kernel (world s1))
                                     (trace (world s1) ++ nap :: logs) (tick (world s1)) /\
                             Forall (fun e => isLog e = true) logs).
  { subst w2. destruct (2 <=? verbosity env)%nat.
    - exists [EvLog Info "%d milliseconds elapsed, prompt for input"].
      unfold emit. cbn [kernel trace tick]. rewrite <- app_assoc.
      split; [done | by repeat constructor].
    - exists []. split; [done | constructor]. }
  destruct Hw2 as (logs & Hw2 & Hlogs).
  split; [done|]. split; [done|]. split; [done|].
  split; [by rewrite Hw2|].
  split; [rewrite Hw2, since_app; cbn; by apply sendsOf_logs|].
  split.
  { rewrite Hw2, since_app. cbn. clear -Hlogs.
    induction Hlogs as [|e l He _ IH]; [done|]. by destruct e. }
  clearbody w2. subst s1. clear -Hmu.
  open_state s. cbn [exec muDone] in Hmu. subst mu.
  unfold writeStdinFn. unfold_done. cbn. by destruct w2.
Qed.

End InputProperties.

(** * Instances of the further properties *)

(** A command that cannot be started, with a comms handler. *)
Lemma Exec_start_failure_teardown_witness :
  let s := mkES (UseNamedPipes (Some 1%nat) (New (Some request) "prog" [])) freshWorld in
  let os := noStart (errorString "executable file not found") in
  muDone (exec s) = false /\
  Start os = inl (errorString "executable file not found") /\
  exists s',
    Exec calmEnv os s =
      (Returned (Some (withMessage (errorString "executable file not found")
                         ("failed to start to execute command " +:+ "prog"))), s') /\
    kernel (world s') = kernel (world s) /\
    count isProgramStart (since (world s) (world s')) =
      count isProgramFinished (since (world s) (world s')).
Proof.
  cbn zeta. split; [reflexivity|]. split; [reflexivity|].
  destruct (Exec_start_failure_teardown calmEnv
              (noStart (errorString "executable file not found"))
              (mkES (UseNamedPipes (Some 1%nat) (New (Some request) "prog" [])) freshWorld)
              (errorString "executable file not found") 3%nat 4%nat 5%nat
              eq_refl (fun _ => ex_intro _ request eq_refl) eq_refl eq_refl eq_refl
              (fun _ => eq_refl) eq_refl)
    as (s' & Heq & Hk & _ & _ & _ & _ & _ & Hc & _).
  exists s'. split; [exact Heq|]. split; [exact Hk | exact Hc].
Defined.

(** Named pipes that cannot be created, with a comms handler. *)
Lemma Exec_named_pipes_failure_witness :
  let s := mkES (UseNamedPipes (Some 1%nat) (New (Some request) "prog" [])) freshWorld in
  let os := noNamedPipes (errorString "mkfifo failed") in
  muDone (exec s) = false /\
  useNamedPipes (config (exec s)) = true /\
  handleNamedPipes os = Some (errorString "mkfifo failed") /\
  exists s',
    Exec calmEnv os s = (Returned (Some (errorString "mkfifo failed")), s') /\
    count isProgramStart (since (world s) (world s')) = 0%nat /\
    count isProgramFinished (since (world s) (world s')) = 1%nat.
Proof.
  cbn zeta. split; [reflexivity|]. split; [reflexivity|]. split; [reflexivity|].
  destruct (Exec_named_pipes_failure calmEnv
              (noNamedPipes (errorString "mkfifo failed"))
              (mkES (UseNamedPipes (Some 1%nat) (New (Some request) "prog" [])) freshWorld)
              (errorString "mkfifo failed") 3%nat 4%nat 5%nat
              eq_refl (fun _ => ex_intro _ request eq_refl) eq_refl eq_refl eq_refl
              eq_refl eq_refl)
    as (s' & Heq & _ & _ & _ & _ & _ & _ & Hs & Hf & _).
  exists s'. split; [exact Heq|]. split; [exact Hs | exact Hf].
Defined.

(** Two runs of the same executor. *)
Lemma Exec_can_run_again_witness :
  let s := mkES (New (Some request) "prog" []) freshWorld in
  let os := childExits None in
  Msg (config (exec s)) = Some request /\
  muDone (exec s) = false /\
  fst (Exec calmEnv os s) = Returned None /\
  fst (Exec calmEnv os (snd (Exec calmEnv os s))) = Returned None.
Proof.
  cbn zeta. split; [reflexivity|]. split; [reflexivity|].
  destruct (Exec_can_run_again calmEnv (childExits None)
              (mkES (New (Some request) "prog" []) freshWorld)
              request 3%nat 4%nat 5%nat 100%nat None
              eq_refl eq_refl eq_refl eq_refl eq_refl (fun _ => eq_refl) eq_refl eq_refl)
    as (H1 & _ & _ & H2 & _).
  split; [exact H1 | exact H2].
Defined.

(** An interrupt that the child ignores: it is killed. *)
Lemma Exec_interrupted_while_running_witness :
  let s := mkES (New (Some request) "prog" []) freshWorld in
  let os := interruptedRun stubborn (Some (errorString "signal: killed")) in
  subscriptions (kernel (world s)) = ∅ /\
  Start os = inr 100%nat /\
  fst (Exec calmEnv os s) = Returned None /\
  signals (since (world s) (world (snd (Exec calmEnv os s)))) =
    [(ToProcess 100%nat, SIGINT); (ToProcess 100%nat, SIGKILL)].
Proof.
  cbn zeta. split; [reflexivity|]. split; [reflexivity|].
  destruct (Exec_interrupted_while_running calmEnv
              (interruptedRun stubborn (Some (errorString "signal: killed")))
              (mkES (New (Some request) "prog" []) freshWorld)
              request 3%nat 4%nat 5%nat 100%nat (Some (errorString "signal: killed"))
              stubborn
              eq_refl eq_refl eq_refl eq_refl eq_refl (fun _ => eq_refl) eq_refl eq_refl
              eq_refl (fun _ => eq_refl))
    as (H1 & _ & H2 & _).
  split; [exact H1 | exact H2].
Defined.

(** A password prompt after half a second and a static input. *)
Lemma Exec_input_goroutines_witness :
  let e0 := New (Some request) "prog" [] in
  let e := WithStaticInput (Some (list_byte_of_string "yes")) (WithPassword 500 e0) in
  Msg (config e0) = Some request /\
  muDone e0 = false /\
  started (since freshWorld (world (snd (Exec calmEnv (childExits None)
                                            (mkES e freshWorld))))) =
    [copyStream (jupyterStreamWriter StreamStdout (Some request)) 3%nat;
     copyStream (jupyterStreamWriter StreamStderr (Some request)) 4%nat;
     schedulePrompt 500 true;
     writeStaticInput 5%nat (list_byte_of_string "yes")].
Proof.
  cbn zeta. split; [reflexivity|]. split; [reflexivity|].
  destruct (Exec_input_goroutines calmEnv (childExits None)
              (New (Some request) "prog" []) freshWorld
              request 3%nat 4%nat 5%nat 100%nat None true 500
              (Some (list_byte_of_string "yes"))
              eq_refl eq_refl eq_refl eq_refl eq_refl (fun _ => eq_refl) eq_refl eq_refl
              (fun _ => eq_refl))
    as (_ & H & _).
  exact H.
Defined.

(** The front-end answers "secret" while the program runs. *)
Lemma writeStdinFn_forwards_value_witness :
  let s := mkES promptingExecutor freshWorld in
  muDone (exec s) = false /\
  isDone (exec s) = false /\
  fst (writeStdinFn calmEnv request (inputReply (anyString "secret")) s) =
    Returned (None, [stdinWriter (list_byte_of_string ("secret" +:+ newline)); prompter]).
Proof.
  cbn zeta. split; [reflexivity|]. split; [reflexivity|].
  destruct (writeStdinFn_forwards_value calmEnv request (inputReply (anyString "secret"))
              (mkES promptingExecutor freshWorld) eq_refl)
    as (o & logs & Heq & _ & _ & H).
  rewrite Heq. cbn [fst].
  destruct (H eq_refl) as (Hv & _).
  exact (Hv (<["value" := anyString "secret"]> ∅) "secret" eq_refl eq_refl).
Defined.

(** The prompt of an executor that waits for a password. *)
Lemma schedulePromptFn_prompts_unless_done_witness :
  let s := mkES promptingExecutor freshWorld in
  muDone (exec s) = false /\
  isDone (exec s) = false /\
  Msg (config (exec s)) = Some request /\
  fst (schedulePromptFn calmEnv (onInputFn 7) s) = Returned tt /\
  stdinFn (kernel (world (snd (schedulePromptFn calmEnv (onInputFn 7) s)))) =
    Some (onInputFn 7).
Proof.
  cbn zeta. split; [reflexivity|]. split; [reflexivity|]. split; [reflexivity|].
  destruct (schedulePromptFn_prompts_unless_done calmEnv (onInputFn 7)
              (mkES promptingExecutor freshWorld) eq_refl)
    as (_ & _ & _ & _ & H & _).
  rewrite (H eq_refl request eq_refl). split; reflexivity.
Defined.

(** The teardown of a started executor, and a prompt timer that fires
    after it. *)
Lemma callbacks_after_done_do_nothing_witness :
  let s := mkES promptingExecutor freshWorld in
  let s1 := snd (done calmEnv s) in
  let s2 := snd (schedulePromptFn calmEnv (onInputFn 7) s1) in
  isDone (exec s) = false /\
  doneChan (exec s) = chanOpen /\
  sendsOf (since (world s1) (world s2)) = [] /\
  writeStdinFn calmEnv request (inputReply (anyString "late")) s2 =
    (Returned (None, []), s2).
Proof.
  cbn zeta. split; [reflexivity|]. split; [reflexivity|].
  destruct (callbacks_after_done_do_nothing calmEnv (mkES promptingExecutor freshWorld)
              5%nat 4%nat 3%nat (onInputFn 7) request (inputReply (anyString "late"))
              eq_refl eq_refl eq_refl eq_refl eq_refl eq_refl
              (fun _ => ex_intro _ request eq_refl))
    as (_ & _ & _ & _ & H1 & _ & H2 & _).
  split; [exact H1 | exact H2].
Defined.

(** The stdin pipe cannot be created: the two pipes before it stay
    open. *)
Lemma Exec_pipe_failure_closes_nothing_witness :
  let s := mkES (New (Some request) "prog" []) freshWorld in
  let os := mkOS (inr 3%nat) (inr 4%nat) (inl (errorString "too many open files")) None
                 (inr 100%nat) (fun w => w) (Some None) in
  muDone (exec s) = false /\
  cmdStdin (exec s) = None /\
  pipeHandle (StdinPipe os) = None /\
  exists s',
    Exec calmEnv os s = (Panicked nilDereference, s') /\
    doneChan (exec s') = chanOpen /\
    done calmEnv s' = (Returned tt, s').
Proof.
  cbn zeta. split; [reflexivity|]. split; [reflexivity|]. split; [reflexivity|].
  destruct (Exec_pipe_failure_closes_nothing calmEnv
              (mkOS (inr 3%nat) (inr 4%nat) (inl (errorString "too many open files")) None
                    (inr 100%nat) (fun w => w) (Some None))
              (mkES (New (Some request) "prog" []) freshWorld)
              eq_refl eq_refl (fun _ => ex_intro _ request eq_refl)
              (or_intror (or_intror eq_refl)))
    as (s' & Heq & _ & Hch & _ & _ & _ & _ & Hdone).
  exists s'. split; [exact Heq|]. split; [exact Hch | exact Hdone].
Defined.

(** An executor made with a nil message. *)
Lemma Exec_without_message_panics_after_start_witness :
  let s := mkES (New None "prog" []) freshWorld in
  Msg (config (exec s)) = None /\
  (0 <? millisecondsToInput (config (exec s)))%Z = false /\
  exists s',
    Exec calmEnv (childExits None) s = (Panicked nilDereference, s') /\
    cmd (exec s') = Some (mkCmd "prog" [] EmptyString (Some 100%nat)) /\
    count isClose (since (world s) (world s')) = 3%nat.
Proof.
  cbn zeta. split; [reflexivity|]. split; [reflexivity|].
  destruct (Exec_without_message_panics_after_start calmEnv (childExits None)
              (mkES (New None "prog" []) freshWorld) 3%nat 4%nat 5%nat 100%nat
              eq_refl eq_refl eq_refl eq_refl eq_refl eq_refl (fun _ => eq_refl) eq_refl)
    as (s' & Heq & Hcmd & _ & _ & _ & _ & _ & _ & Hc).
  exists s'. split; [exact Heq|]. split; [exact Hcmd | exact Hc].
Defined.

(** * Properties of the gopls client *)

Section StringLemmas.

Lemma length_append (a b : string) :
  String.length (a +:+ b) = (String.length a + String.length b)%nat.
Proof. induction a as [|x a IH]; simpl; [done|]. by f_equal. Qed.

Lemma length_substring (n : nat) (s : string) :
  (n <= String.length s)%nat -> String.length (substring 0 n s) = n.
Proof.
  revert n. induction s as [|x s IH]; intros [|n] H; simpl in *; try done; try lia.
  f_equal. apply IH. lia.
Qed.

Lemma substring_append (n : nat) (a b : string) :
  (n <= String.length a)%nat -> substring 0 n (a +:+ b) = substring 0 n a.
Proof.
  revert n. induction a as [|x a IH]; intros [|n] H; simpl in *; try done; try lia.
  - by destruct b.
  - f_equal. apply IH. lia.
Qed.

Lemma substring_all (s : string) : substring 0 (String.length s) s = s.
Proof. induction s as [|x s IH]; simpl; [done|]. by f_equal. Qed.

Lemma list_byte_of_string_append (a b : string) :
  list_byte_of_string (a +:+ b) = list_byte_of_string a ++ list_byte_of_string b.
Proof.
  unfold list_byte_of_string. induction a as [|x a IH]; [done|].
  change (String x a +:+ b) with (String x (a +:+ b)).
  cbn [list_ascii_of_string map app]. by rewrite IH.
Qed.

Lemma length_string_of_list_byte (l : bytes) :
  String.length (string_of_list_byte l) = length l.
Proof.
  unfold string_of_list_byte. induction l as [|x l IH]; [done|].
  cbn [map string_of_list_ascii String.length length]. by rewrite IH.
Qed.

End StringLemmas.

Section Trimming.

(** X17: [trimString] with a positive bound.  A string of at most
    [maxLen] bytes is returned as it is.  A longer one is cut to its
    first [maxLen-1] bytes and the ellipsis is appended, which is three
    bytes long: the result has [maxLen+2] bytes, more than the bound.
    In both cases the first [maxLen-1] bytes are kept, and trimming the
    result again gives the same result.  With a bound that is zero or
    negative, every string that is not empty makes the slice expression
    panic. *)
Theorem trimString_keeps_the_front s maxLen :
  1 <= maxLen < 2 ^ 63 ->
  exists r,
    goplsclient.trimString s maxLen = Returned r /\
    (Z.of_nat (String.length s) <= maxLen -> r = s) /\
    (maxLen < Z.of_nat (String.length s) ->
     r = substring 0 (Z.to_nat (maxLen - 1)) s +:+ goplsclient.ellipsis /\
     Z.of_nat (String.length r) = maxLen + 2) /\
    substring 0 (Z.to_nat (maxLen - 1)) r = substring 0 (Z.to_nat (maxLen - 1)) s /\
    goplsclient.trimString r maxLen = Returned r /\
    (forall n, - 2 ^ 63 < n <= 0 -> s <> EmptyString ->
               goplsclient.trimString s n = Panicked goplsclient.sliceBounds).
Proof.
  intros Hmax.
  assert (Hwrap : wrapInt64 (maxLen - 1) = maxLen - 1).
  { unfold wrapInt64. rewrite Z.mod_small; lia. }
  assert (Hpanic : forall n, - 2 ^ 63 < n <= 0 -> s <> EmptyString ->
            goplsclient.trimString s n = Panicked goplsclient.sliceBounds).
  { intros n Hn Hs. unfold goplsclient.trimString, goplsclient.sliceTo.
    assert (Hlen : (0 < String.length s)%nat) by (destruct s; [done | cbn; lia]).
    destruct (Z.leb_spec (Z.of_nat (String.length s)) n); [lia|].
    assert (wrapInt64 (n - 1) = n - 1) as ->.
    { unfold wrapInt64. rewrite Z.mod_small; lia. }
    destruct (Z.leb_spec 0 (n - 1)); [lia|]. reflexivity. }
  unfold goplsclient.trimString at 1.
  destruct (Z.leb_spec (Z.of_nat (String.length s)) maxLen) as [Hle|Hgt].
  - exists s. split; [done|]. split; [done|]. split; [lia|]. split; [done|].
    split; [|exact Hpanic].
    unfold goplsclient.trimString. by destruct (Z.leb_spec (Z.of_nat (String.length s)) maxLen); [|lia].
  - unfold goplsclient.sliceTo. rewrite Hwrap.
    destruct (Z.leb_spec 0 (maxLen - 1)); [|lia].
    destruct (Z.leb_spec (maxLen - 1) (Z.of_nat (String.length s))); [|lia].
    cbn [andb].
    set (front := substring 0 (Z.to_nat (maxLen - 1)) s).
    assert (Hfront : String.length front = Z.to_nat (maxLen - 1)).
    { apply length_substring. lia. }
    assert (Hlen : Z.of_nat (String.length (front +:+ goplsclient.ellipsis)) = maxLen + 2).
    { rewrite length_append, Hfront. cbn. lia. }
    assert (Hkeep : substring 0 (Z.to_nat (maxLen - 1)) (front +:+ goplsclient.ellipsis) =
                    front).
    { rewrite substring_append by lia. rewrite <- Hfront. apply substring_all. }
    exists (front +:+ goplsclient.ellipsis).
    split; [done|]. split; [lia|]. split; [done|]. split; [exact Hkeep|].
    split; [|exact Hpanic].
    unfold goplsclient.trimString, goplsclient.sliceTo. rewrite Hwrap, Hlen.
    destruct (Z.leb_spec (maxLen + 2) maxLen); [lia|].
    destruct (Z.leb_spec 0 (maxLen - 1)); [|lia].
    destruct (Z.leb_spec (maxLen - 1) (maxLen + 2)); [|lia].
    cbn [andb]. by rewrite Hkeep.
Qed.

(** X18: [sampleRawJson] never returns more than 103 bytes.  A raw
    message of at most 100 bytes comes back byte for byte; of a longer
    one the first 100 bytes come back, followed by three dots. *)
Theorem sampleRawJson_is_short content :
  (String.length (goplsclient.sampleRawJson content) <= 103)%nat /\
  ((length content <= 100)%nat ->
   list_byte_of_string (goplsclient.sampleRawJson content) = content) /\
  ((100 < length content)%nat ->
   list_byte_of_string (goplsclient.sampleRawJson content) =
     take 100 content ++ list_byte_of_string "..." /\
   String.length (goplsclient.sampleRawJson content) = 103%nat).
Proof.
  unfold goplsclient.sampleRawJson.
  destruct (Nat.ltb_spec 100 (length content)) as [Hlong|Hshort].
  - assert (Hlen : String.length (string_of_list_byte (take 100 content) +:+ "...") =
                   103%nat).
    { rewrite length_append, length_string_of_list_byte, length_take.
      rewrite Nat.min_l by lia. reflexivity. }
    split; [lia|]. split; [lia|]. intros _. split; [|exact Hlen].
    by rewrite list_byte_of_string_append, list_byte_of_string_of_list_byte.
  - rewrite length_string_of_list_byte. split; [lia|]. split; [|lia].
    intros _. apply list_byte_of_string_of_list_byte.
Qed.

End Trimming.

Section GoplsClient.
Context (peer : goplsclient.Peer).

Lemma prefix_split (p s : string) :
  String.prefix p s = true ->
  s = p +:+ substring (String.length p) (String.length s - String.length p) s.
Proof.
  revert s. induction p as [|x p IH]; intros s H.
  - cbn [String.length]. rewrite Nat.sub_0_r. cbn [String.append].
    symmetry. apply substring_all.
  - destruct s as [|y s]; [discriminate H|]. cbn in H.
    destruct (Ascii.ascii_dec x y) as [->|]; [|discriminate H].
    cbn [String.length Nat.sub substring].
    change (String y p +:+ ?r) with (String y (p +:+ r)). f_equal. by apply IH.
Qed.

Ltac open_client s :=
  destruct s as [[addr0 dir0 conn0 json0 handler0 versions0] tr0 t0].

Ltac unfold_client :=
  unfold goplsclient.Connect, goplsclient.NotifyDidOpen, goplsclient.CallDefinition,
    goplsclient.CallHover, goplsclient.jsonCall, goplsclient.jsonNotify,
    goplsclient.modifyClient, goplsclient.emit, goplsclient.nextTick,
    bind, gets, modify, ret, panic.

(** X19: [Connect] keeps the connection exactly when it returns nil.
    It dials once, on the network unix when the address starts with a
    slash or with [unix;] and on tcp otherwise; the address dialed is
    the configured one, without the prefix [unix;] if it had one.  When
    the dial fails nothing is closed.  When the dial succeeds and the
    initialize call or the initialized notification fails, the
    connection just dialed is closed, once and as the last thing, and
    the client is left without a connection; when both succeed nothing
    is closed and the client holds the dialed connection.  The file
    versions are not touched. *)
Theorem Connect_keeps_or_closes s :
  let target := goplsclient.dialTarget (goplsclient.address (goplsclient.client s)) in
  exists r s',
    goplsclient.Connect peer s = (Returned r, s') /\
    (r = None <-> is_Some (goplsclient.conn (goplsclient.client s'))) /\
    goplsclient.fileVersions (goplsclient.client s') =
      goplsclient.fileVersions (goplsclient.client s) /\
    (exists rest,
       goplsclient.since s s' = goplsclient.EvDial (fst target) (snd target) :: rest /\
       goplsclient.trace s' = goplsclient.trace s ++ goplsclient.since s s' /\
       match goplsclient.Dial peer (goplsclient.tick s) (fst target) (snd target) with
       | inl _ => rest = [] /\ r <> None
       | inr cn =>
           match r with
           | None =>
               goplsclient.conn (goplsclient.client s') = Some cn /\
               count goplsclient.isCloseConn rest = 0%nat
           | Some _ =>
               last rest = Some (goplsclient.EvCloseConn cn) /\
               count goplsclient.isCloseConn rest = 1%nat
           end
       end) /\
    (fst target = "unix" \/ fst target = "tcp") /\
    (goplsclient.address (goplsclient.client s) = snd target \/
     goplsclient.address (goplsclient.client s) = "unix;" +:+ snd target).
Proof.
  open_client s. intros target.
  cbn [goplsclient.client goplsclient.address goplsclient.tick
       goplsclient.trace goplsclient.fileVersions] in *.
  assert (Htarget : (fst target = "unix" \/ fst target = "tcp") /\
                    (addr0 = snd target \/ addr0 = "unix;" +:+ snd target)).
  { subst target. unfold goplsclient.dialTarget.
    destruct (String.prefix "/" addr0); [by split; left|].
    destruct (String.prefix "unix;" addr0) eqn:Hp; [|by split; [right|left]].
    split; [by left|]. right. cbn [fst snd]. by apply prefix_split in Hp. }
  unfold_client.
  cbn [goplsclient.client goplsclient.address goplsclient.tick goplsclient.trace
       goplsclient.dir goplsclient.jsonConn goplsclient.setConn goplsclient.setJson].
  change (goplsclient.dialTarget addr0) with target. clearbody target.
  destruct (goplsclient.Dial peer t0 (fst target) (snd target)) as [e|cn] eqn:Hdial.
  - eexists _, _. split; [reflexivity|].
    cbn [goplsclient.client goplsclient.conn goplsclient.fileVersions goplsclient.trace].
    split; [split; [done | by intros [? ?]]|]. split; [done|].
    split; [|exact Htarget].
    exists []. unfold goplsclient.since. cbn [goplsclient.trace].
    rewrite drop_app_length. by repeat split.
  - cbn [goplsclient.client goplsclient.address goplsclient.tick goplsclient.trace
         goplsclient.dir goplsclient.jsonConn goplsclient.setConn goplsclient.setJson].
    destruct (goplsclient.Call peer (S t0) goplsclient.MethodInitialize _) as [e|res].
    + eexists _, _. split; [reflexivity|].
      cbn [goplsclient.client goplsclient.conn goplsclient.fileVersions
           goplsclient.trace goplsclient.setConn].
      split; [split; [done | by intros [? ?]]|]. split; [done|].
      split; [|exact Htarget].
      eexists. unfold goplsclient.since. cbn [goplsclient.trace].
      rewrite <- !app_assoc, drop_app_length. cbn [app].
      split; [reflexivity|]. by repeat split.
    + cbn [goplsclient.client goplsclient.address goplsclient.tick goplsclient.trace
           goplsclient.dir goplsclient.jsonConn goplsclient.setConn goplsclient.setJson].
      destruct (goplsclient.Notify peer (S (S t0)) goplsclient.MethodInitialized _)
        as [e|].
      * eexists _, _. split; [reflexivity|].
        cbn [goplsclient.client goplsclient.conn goplsclient.fileVersions
             goplsclient.trace goplsclient.setConn].
        split; [split; [done | by intros [? ?]]|]. split; [done|].
        split; [|exact Htarget].
        eexists. unfold goplsclient.since. cbn [goplsclient.trace].
        rewrite <- !app_assoc, drop_app_length. cbn [app].
        split; [reflexivity|]. by repeat split.
      * eexists _, _. split; [reflexivity|].
        cbn [goplsclient.client goplsclient.conn goplsclient.fileVersions
             goplsclient.trace goplsclient.setConn].
        split; [split; [by eexists | done]|]. split; [done|].
        split; [|exact Htarget].
        eexists. unfold goplsclient.since. cbn [goplsclient.trace].
        rewrite <- !app_assoc, drop_app_length. cbn [app].
        split; [reflexivity|]. by repeat split.
Qed.

Lemma gopls_since_app c tr tr' t c' t' :
  goplsclient.since (goplsclient.mkState c tr t) (goplsclient.mkState c' (tr ++ tr') t') =
  tr'.
Proof. unfold goplsclient.since. cbn. by rewrite drop_app_length. Qed.

(** Up to 2^53 in magnitude the conversion to [float64] is exact. *)
Lemma float64OfInt_exact n :
  Z.abs n <= 2 ^ 53 -> goplsclient.float64OfInt n = n.
Proof.
  intros Hn. destruct (Z.eq_dec (Z.abs n) (2 ^ 53)) as [Heq|Hne].
  - destruct (Z.abs_eq_or_opp n) as [H|H]; rewrite H in Heq.
    + by subst n.
    + assert (n = - 2 ^ 53) as -> by lia. reflexivity.
  - unfold goplsclient.float64OfInt. cbv zeta.
    assert (Hlog : Z.log2 (Z.abs n) - 52 <= 0).
    { destruct (Z.eq_dec (Z.abs n) 0) as [->|Hpos]; [cbn; lia|].
      assert (Z.log2 (Z.abs n) < 53); [|lia].
      apply Z.log2_lt_pow2; lia. }
    by destruct (Z.leb_spec (Z.log2 (Z.abs n) - 52) 0); [|lia].
Qed.

(** One [NotifyDidOpen] on a client with a map of versions and a
    connection, for a file whose data can be had. *)
Lemma NotifyDidOpen_step s filePath versions j fd :
  goplsclient.fileVersions (goplsclient.client s) = Some versions ->
  goplsclient.jsonConn (goplsclient.client s) = Some j ->
  goplsclient.fileData peer (goplsclient.tick s) filePath = inr fd ->
  let c := goplsclient.client s in
  let v := wrapInt64 (goplsclient.versionOf c filePath + 1) in
  let params :=
    goplsclient.DidOpenTextDocumentParams (goplsclient.URI fd)
      (goplsclient.float64OfInt v) (goplsclient.FileContent fd) in
  goplsclient.NotifyDidOpen peer filePath s =
    (Returned
       match goplsclient.Notify peer (S (goplsclient.tick s))
               goplsclient.MethodTextDocumentDidOpen params with
       | Some e =>
           Some (withMessage e ("Failed Client.NotifyDidOpen notification for " +:+
                                goplsclient.quote peer filePath))
       | None => None
       end,
     goplsclient.mkState
       (goplsclient.setFileVersions (Some (<[filePath := v]> versions)) c)
       (goplsclient.trace s ++
        [goplsclient.EvNotify goplsclient.MethodTextDocumentDidOpen params])
       (S (S (goplsclient.tick s)))).
Proof.
  open_client s.
  cbn [goplsclient.client goplsclient.fileVersions goplsclient.jsonConn goplsclient.tick
       goplsclient.trace].
  intros -> -> Hfd. unfold_client.
  cbn [goplsclient.client goplsclient.tick goplsclient.trace]. rewrite Hfd.
  cbn [goplsclient.client goplsclient.fileVersions goplsclient.jsonConn goplsclient.tick
       goplsclient.trace goplsclient.setFileVersions].
  by destruct (goplsclient.Notify peer (S t0) _ _).
Qed.

(** X20: [NotifyDidOpen] counts the notifications it tries, not the
    ones that arrive.  When the data of the file cannot be had, the
    error is returned as it is, nothing is sent and the client is
    unchanged.  Otherwise the version kept for the file goes up by
    exactly one (from zero for a file not seen before), the versions of
    the other files stay, and one notification is sent with the content
    of the file and the new version converted to a float64, which is
    the new version itself as long as it is at most 2^53 and the
    nearest float64 beyond; all this also when the notification fails,
    in which case the wrapped error is returned. *)
Theorem NotifyDidOpen_bumps_the_version s filePath versions j :
  goplsclient.fileVersions (goplsclient.client s) = Some versions ->
  goplsclient.jsonConn (goplsclient.client s) = Some j ->
  - 2 ^ 63 <= goplsclient.versionOf (goplsclient.client s) filePath + 1 < 2 ^ 63 ->
  let old := goplsclient.versionOf (goplsclient.client s) filePath in
  (forall e,
     goplsclient.fileData peer (goplsclient.tick s) filePath = inl e ->
     exists s',
       goplsclient.NotifyDidOpen peer filePath s = (Returned (Some e), s') /\
       goplsclient.client s' = goplsclient.client s /\
       goplsclient.trace s' = goplsclient.trace s) /\
  (forall fd,
     goplsclient.fileData peer (goplsclient.tick s) filePath = inr fd ->
     let params :=
       goplsclient.DidOpenTextDocumentParams (goplsclient.URI fd)
         (goplsclient.float64OfInt (old + 1)) (goplsclient.FileContent fd) in
     exists r s',
       goplsclient.NotifyDidOpen peer filePath s = (Returned r, s') /\
       goplsclient.versionOf (goplsclient.client s') filePath = old + 1 /\
       goplsclient.known (goplsclient.client s') filePath = true /\
       (forall other, other <> filePath ->
          goplsclient.versionOf (goplsclient.client s') other =
          goplsclient.versionOf (goplsclient.client s) other) /\
       goplsclient.trace s' =
         goplsclient.trace s ++
         [goplsclient.EvNotify goplsclient.MethodTextDocumentDidOpen params] /\
       (r = None <->
        goplsclient.Notify peer (S (goplsclient.tick s))
          goplsclient.MethodTextDocumentDidOpen params = None)) /\
  (Z.abs (old + 1) <= 2 ^ 53 -> goplsclient.float64OfInt (old + 1) = old + 1) /\
  goplsclient.float64OfInt (2 ^ 53 + 1) = 2 ^ 53.
Proof.
  intros Hv Hj Hfit old. split; [|split; [|split]].
  - intros e He. clear Hfit. subst old. open_client s.
    cbn [goplsclient.client goplsclient.tick goplsclient.trace] in *.
    unfold_client. cbn [goplsclient.client goplsclient.tick goplsclient.trace].
    rewrite He. eexists. by repeat split.
  - intros fd Hfd params. subst params.
    rewrite (NotifyDidOpen_step s filePath versions j fd Hv Hj Hfd).
    assert (Hw : wrapInt64 (goplsclient.versionOf (goplsclient.client s) filePath + 1) =
                 old + 1).
    { unfold wrapInt64. rewrite Z.mod_small; subst old; lia. }
    rewrite Hw. eexists _, _. split; [reflexivity|].
    unfold goplsclient.versionOf at 1 2, goplsclient.known.
    cbn [goplsclient.client goplsclient.trace goplsclient.setFileVersions
         goplsclient.fileVersions].
    rewrite lookup_insert_eq. cbn [default].
    split; [done|]. split; [by apply bool_decide_eq_true_2|].
    split; [|split; [done|]].
    + intros other Hne. unfold goplsclient.versionOf. rewrite Hv.
      by rewrite lookup_insert_ne.
    + by destruct (goplsclient.Notify _ _ _ _).
  - apply float64OfInt_exact.
  - reflexivity.
Qed.

(** A call for a file that is known: no notification. *)
Lemma call_for_known_file s filePath line col j :
  goplsclient.known (goplsclient.client s) filePath = true ->
  goplsclient.jsonConn (goplsclient.client s) = Some j ->
  (exists r method,
     goplsclient.CallDefinition peer filePath line col s =
       (Returned r,
        goplsclient.mkState (goplsclient.client s)
          (goplsclient.trace s ++
           [goplsclient.EvCall method
              (goplsclient.TextDocumentPositionParams (goplsclient.uriFile peer filePath)
                 (goplsclient.float64OfInt line) (goplsclient.float64OfInt col))])
          (S (goplsclient.tick s)))) /\
  (exists r method,
     goplsclient.CallHover peer filePath line col s =
       (Returned r,
        goplsclient.mkState (goplsclient.client s)
          (goplsclient.trace s ++
           [goplsclient.EvCall method
              (goplsclient.TextDocumentPositionParams (goplsclient.uriFile peer filePath)
                 (goplsclient.float64OfInt line) (goplsclient.float64OfInt col))])
          (S (goplsclient.tick s)))).
Proof.
  open_client s.
  cbn [goplsclient.client goplsclient.jsonConn goplsclient.tick goplsclient.trace].
  intros Hk ->. unfold_client.
  cbn [goplsclient.client goplsclient.jsonConn goplsclient.tick goplsclient.trace].
  rewrite Hk.
  cbn [goplsclient.client goplsclient.jsonConn goplsclient.tick goplsclient.trace].
  split.
  - destruct (goplsclient.Call peer t0 goplsclient.MethodTextDocumentDefinition _);
      by eexists _, _.
  - destruct (goplsclient.Call peer t0 goplsclient.MethodTextDocumentHover _);
      by eexists _, _.
Qed.

(** X21: the calls send a file to gopls at most once.  On a client
    that has not seen the file, [CallDefinition] first notifies gopls
    of the file, with version one, and makes the call only when the
    notification succeeded; when it failed, the wrapped error is
    returned and no call is made.  Either way the file counts as
    opened afterwards: later calls of [CallDefinition] and [CallHover]
    for it send no notification and go to gopls directly, also after a
    notification that failed. *)
Theorem calls_open_a_file_once s filePath versions j fd line col :
  goplsclient.fileVersions (goplsclient.client s) = Some versions ->
  versions !! filePath = None ->
  goplsclient.jsonConn (goplsclient.client s) = Some j ->
  goplsclient.fileData peer (goplsclient.tick s) filePath = inr fd ->
  let s1 := snd (goplsclient.CallDefinition peer filePath line col s) in
  let params :=
    goplsclient.DidOpenTextDocumentParams (goplsclient.URI fd) 1
      (goplsclient.FileContent fd) in
  goplsclient.opened (goplsclient.since s s1) = [(goplsclient.URI fd, 1)] /\
  goplsclient.known (goplsclient.client s1) filePath = true /\
  (forall e,
     goplsclient.Notify peer (S (goplsclient.tick s))
       goplsclient.MethodTextDocumentDidOpen params = Some e ->
     fst (goplsclient.CallDefinition peer filePath line col s) =
       Returned (None,
                 Some (withMessage e ("Failed Client.NotifyDidOpen notification for " +:+
                                      goplsclient.quote peer filePath))) /\
     count goplsclient.isCall (goplsclient.since s s1) = 0%nat) /\
  (goplsclient.Notify peer (S (goplsclient.tick s))
     goplsclient.MethodTextDocumentDidOpen params = None ->
   count goplsclient.isCall (goplsclient.since s s1) = 1%nat) /\
  (forall l c,
     goplsclient.opened
       (goplsclient.since s1 (snd (goplsclient.CallDefinition peer filePath l c s1))) = [] /\
     goplsclient.opened
       (goplsclient.since s1 (snd (goplsclient.CallHover peer filePath l c s1))) = [] /\
     count goplsclient.isCall
       (goplsclient.since s1 (snd (goplsclient.CallHover peer filePath l c s1))) = 1%nat).
Proof.
  intros Hv Hnew Hj Hfd s1 params.
  pose proof (NotifyDidOpen_step s filePath versions j fd Hv Hj Hfd) as Hstep.
  cbn zeta in Hstep.
  assert (Hold : goplsclient.versionOf (goplsclient.client s) filePath = 0).
  { unfold goplsclient.versionOf. by rewrite Hv, Hnew. }
  rewrite Hold in Hstep. change (wrapInt64 (0 + 1)) with 1 in Hstep.
  change (goplsclient.float64OfInt 1) with 1 in Hstep. fold params in Hstep.
  assert (Hunknown : goplsclient.known (goplsclient.client s) filePath = false).
  { unfold goplsclient.known. rewrite Hv, Hnew. apply bool_decide_eq_false_2.
    by intros [? ?]. }
  assert (Hfirst : goplsclient.CallDefinition peer filePath line col s =
    match goplsclient.Notify peer (S (goplsclient.tick s))
            goplsclient.MethodTextDocumentDidOpen params with
    | Some e =>
        (Returned (None,
                   Some (withMessage e ("Failed Client.NotifyDidOpen notification for " +:+
                                        goplsclient.quote peer filePath))),
         snd (goplsclient.NotifyDidOpen peer filePath s))
    | None =>
        goplsclient.CallDefinition peer filePath line col
          (snd (goplsclient.NotifyDidOpen peer filePath s))
    end).
  { unfold goplsclient.CallDefinition at 1. unfold bind at 1. unfold gets at 1.
    rewrite Hunknown. unfold bind at 1. rewrite Hstep. cbn [snd].
    destruct (goplsclient.Notify peer _ _ params) as [e|] eqn:Hn; [reflexivity|].
    symmetry. unfold goplsclient.CallDefinition. unfold bind at 1. unfold gets.
    cbn [goplsclient.client]. unfold goplsclient.known.
    cbn [goplsclient.setFileVersions goplsclient.fileVersions].
    rewrite lookup_insert_eq. rewrite bool_decide_eq_true_2 by by eexists.
    reflexivity. }
  set (s0 := snd (goplsclient.NotifyDidOpen peer filePath s)) in *.
  assert (Hs0 : s0 = goplsclient.mkState
            (goplsclient.setFileVersions (Some (<[filePath := 1]> versions))
               (goplsclient.client s))
            (goplsclient.trace s ++
             [goplsclient.EvNotify goplsclient.MethodTextDocumentDidOpen params])
            (S (S (goplsclient.tick s)))).
  { subst s0. by rewrite Hstep. }
  assert (Hk0 : goplsclient.known (goplsclient.client s0) filePath = true).
  { rewrite Hs0. unfold goplsclient.known.
    cbn [goplsclient.client goplsclient.setFileVersions goplsclient.fileVersions].
    rewrite lookup_insert_eq. by apply bool_decide_eq_true_2. }
  assert (Hj0 : goplsclient.jsonConn (goplsclient.client s0) = Some j).
  { rewrite Hs0. by destruct s as [[] ? ?]. }
  destruct (call_for_known_file s0 filePath line col j Hk0 Hj0)
    as ((r0 & m0 & Hcall0) & _).
  assert (Hs1 : exists tail,
            s1 = goplsclient.mkState (goplsclient.client s0)
                   (goplsclient.trace s0 ++ tail) (goplsclient.tick s1) /\
            goplsclient.opened tail = [] /\
            count goplsclient.isCall tail =
              match goplsclient.Notify peer (S (goplsclient.tick s))
                      goplsclient.MethodTextDocumentDidOpen params with
              | Some _ => 0%nat
              | None => 1%nat
              end).
  { subst s1. rewrite Hfirst.
    destruct (goplsclient.Notify peer _ _ params) as [e|].
    - exists []. cbn [snd]. rewrite app_nil_r. by destruct s0.
    - rewrite Hcall0. cbn [snd goplsclient.tick]. eexists. by repeat split. }
  destruct Hs1 as (tail & Hs1 & Hopened & Hcount).
  assert (Hk1 : goplsclient.known (goplsclient.client s1) filePath = true)
    by (by rewrite Hs1).
  assert (Hj1 : goplsclient.jsonConn (goplsclient.client s1) = Some j)
    by (by rewrite Hs1).
  assert (Hsince : goplsclient.since s s1 =
                   goplsclient.EvNotify goplsclient.MethodTextDocumentDidOpen params ::
                   tail).
  { rewrite Hs1, Hs0. cbn [goplsclient.trace goplsclient.client]. destruct s as [c tr t].
    cbn [goplsclient.trace]. rewrite <- app_assoc. by rewrite gopls_since_app. }
  split; [|split; [exact Hk1|split; [|split]]].
  - rewrite Hsince. change (goplsclient.opened (?x :: tail)) with
      ((goplsclient.URI fd, 1) :: goplsclient.opened tail). by rewrite Hopened.
  - intros e He. rewrite Hfirst, He. split; [done|].
    rewrite Hsince. cbn. by rewrite Hcount, He.
  - intros Hn. rewrite Hsince. cbn. by rewrite Hcount, Hn.
  - intros l c.
    destruct (call_for_known_file s1 filePath l c j Hk1 Hj1)
      as ((r1 & m1 & ->) & (r2 & m2 & ->)).
    cbn [snd]. destruct s1 as [c1 tr1 t1]. cbn [goplsclient.client goplsclient.trace].
    by rewrite !gopls_since_app.
Qed.

End GoplsClient.

(** Eleven bytes trimmed to a bound of five: four bytes and the ellipsis. *)
Lemma trimString_keeps_the_front_witness :
  1 <= 5 < 2 ^ 63 /\
  goplsclient.trimString "hello world" 5 = Returned ("hell" +:+ goplsclient.ellipsis) /\
  String.length ("hell" +:+ goplsclient.ellipsis) = 7%nat.
Proof.
  split; [lia|].
  destruct (trimString_keeps_the_front "hello world" 5) as (r & Hr & _ & Hcut & _);
    [lia|].
  destruct Hcut as [-> _]; [cbn; lia|]. split; [exact Hr | reflexivity].
Defined.

(** A file opened for the first time on a connected client. *)
Lemma NotifyDidOpen_bumps_the_version_witness :
  let s := goplsclient.mkState goplsclient.connected [] O in
  goplsclient.fileVersions (goplsclient.client s) = Some ∅ /\
  goplsclient.jsonConn (goplsclient.client s) = Some 1%nat /\
  exists r s',
    goplsclient.NotifyDidOpen goplsclient.friendly "/work/main.go" s = (Returned r, s') /\
    goplsclient.versionOf (goplsclient.client s') "/work/main.go" = 1.
Proof.
  cbn zeta. split; [reflexivity|]. split; [reflexivity|].
  destruct (NotifyDidOpen_bumps_the_version goplsclient.friendly
              (goplsclient.mkState goplsclient.connected [] O) "/work/main.go" ∅ 1%nat
              eq_refl eq_refl) as (_ & H & _).
  { vm_compute. split; [discriminate | reflexivity]. }
  destruct (H (goplsclient.mkFileData ("file://" +:+ "/work/main.go") "package main")
              eq_refl) as (r & s' & Heq & Hv & _).
  exists r, s'. split; [exact Heq | exact Hv].
Defined.

(** A gopls that does not take the notification: the file is not sent
    again by the next call. *)
Lemma calls_open_a_file_once_witness :
  let s := goplsclient.mkState goplsclient.connected [] O in
  let s1 := snd (goplsclient.CallDefinition goplsclient.deaf "/work/main.go" 3 7 s) in
  goplsclient.fileVersions (goplsclient.client s) = Some ∅ /\
  goplsclient.opened (goplsclient.since s s1) = [("file:///work/main.go", 1)] /\
  goplsclient.opened
    (goplsclient.since s1 (snd (goplsclient.CallHover goplsclient.deaf "/work/main.go"
                                   3 7 s1))) = [].
Proof.
  cbn zeta. split; [reflexivity|].
  destruct (calls_open_a_file_once goplsclient.deaf
              (goplsclient.mkState goplsclient.connected [] O) "/work/main.go" ∅ 1%nat
              (goplsclient.mkFileData ("file://" +:+ "/work/main.go") "package main")
              3 7 eq_refl eq_refl eq_refl eq_refl) as (H1 & _ & _ & _ & H2).
  split; [exact H1|]. destruct (H2 3 7) as (_ & H & _). exact H.
Defined.

(** * Further runs on concrete inputs *)

(** A reply on a transport that is down: the send is tried on the
    Shell socket and its error comes back. *)
Example reply_on_closed_socket :
  fst (Reply downEnv request "kernel_info_reply" contentNil freshWorld) =
    Returned (Some (errorString "socket closed")) /\
  sendsOf (trace (snd (Reply downEnv request "kernel_info_reply" contentNil freshWorld))) =
    [EvSend ShellSocket
       (envelope downEnv "id" "kernel_info_reply" (Composed request) contentNil O)
       [list_byte_of_string "client"; list_byte_of_string "<IDS|MSG>"]].
Proof. split; reflexivity. Qed.

(** A message that cannot be signed is not sent. *)
Example publish_unsigned :
  Publish muteEnv request "status" contentNil freshWorld =
    (Returned (Some (errorString "cannot sign")), mkWorld freshKernel [] 1%nat).
Proof. reflexivity. Qed.

(** A gopls that fails the first call: the connection is dialed on the
    socket path, started, and closed again. *)
Example connect_unready :
  goplsclient.Connect goplsclient.unready
    (goplsclient.mkState (goplsclient.newClient "unix;/tmp/gopls.sock") [] O) =
  (Returned (Some (withMessage (errorString "not ready")
                     ("failed " +:+ goplsclient.dquote +:+ "initialize" +:+
                      goplsclient.dquote +:+ " call to gopls in /tmp/gopls.sock"))),
   goplsclient.mkState
     (goplsclient.mkClient "unix;/tmp/gopls.sock" "/work" None (Some 1%nat) true (Some ∅))
     [goplsclient.EvDial "unix" "/tmp/gopls.sock";
      goplsclient.EvRun 1%nat;
      goplsclient.EvCall goplsclient.MethodInitialize
        (goplsclient.InitializeParams "file:///work");
      goplsclient.EvCloseConn 1%nat]
     2%nat).
Proof. reflexivity. Qed.

(** A host and port are dialed over tcp, as they are. *)
Example connect_tcp :
  fst (goplsclient.Connect goplsclient.friendly
         (goplsclient.mkState (goplsclient.newClient "localhost:4040") [] O)) =
    Returned None /\
  goplsclient.trace
    (snd (goplsclient.Connect goplsclient.friendly
            (goplsclient.mkState (goplsclient.newClient "localhost:4040") [] O))) =
  [goplsclient.EvDial "tcp" "localhost:4040";
   goplsclient.EvRun 1%nat;
   goplsclient.EvCall goplsclient.MethodInitialize
     (goplsclient.InitializeParams "file:///work");
   goplsclient.EvNotify goplsclient.MethodInitialized goplsclient.InitializedParams].
Proof. split; reflexivity. Qed.

(** Trimming at the bound, and with a bound of zero. *)
Example trim_at_the_bound :
  goplsclient.trimString "abc" 3 = Returned "abc" /\
  goplsclient.trimString "abcd" 3 = Returned ("ab" +:+ goplsclient.ellipsis) /\
  goplsclient.trimString "abcd" 0 = Panicked goplsclient.sliceBounds /\
  goplsclient.trimString EmptyString 0 = Returned EmptyString.
Proof. repeat split. Qed.

(** A result published in answer to an execute_request goes out as
    display_data all the same. *)
Example publish_data_for_execute_request :
  MsgType (Header (Composed request)) = "execute_request" /\
  sentTypes (trace (snd (PublishData calmEnv (Some request)
                           (mkData (Some ∅) None None) freshWorld))) =
    ["display_data"].
Proof. split; reflexivity. Qed.

(** A file version beyond 2^53 is kept exactly by the client and
    rounded in the notification. *)
Example version_beyond_float64 :
  let s := goplsclient.mkState
             (goplsclient.mkClient "/tmp/gopls.sock" "/work" (Some 1%nat) (Some 1%nat) true
                (Some {[ "/work/main.go" := 9007199254740992 ]}))
             [] O in
  let s' := snd (goplsclient.NotifyDidOpen goplsclient.friendly "/work/main.go" s) in
  goplsclient.versionOf (goplsclient.client s') "/work/main.go" = 9007199254740993 /\
  goplsclient.opened (goplsclient.trace s') =
    [("file:///work/main.go", 9007199254740992)].
Proof. cbn zeta. split; reflexivity. Qed.
